(** * A tidy municipality-year panel out of SIDRA tables

    Shallow embedding of [src/prep.py] (table normalisation and panel
    construction) together with the fragment of pandas / numpy that the
    module calls.

    Conventions of the model.
    - Python [str] values are byte strings in UTF-8.  White space is the
      ASCII part of what [str.isspace] and the regex class [\s] accept;
      [str.lower] folds the ASCII letters and the two-byte Latin-1
      capitals (enough for Portuguese column titles).
    - A [float64] is an exact rational or one of the two infinities; the
      not-a-number of a float column is the missing marker [NA], exactly
      as [isna] / [notna] / [dropna] see it.  Rounding to 53 bits,
      overflow and the sign of zero are not represented.
    - A data frame is a list of column labels and a list of rows, each
      row carrying its index label, so that the label alignment done by
      [frame[name] = series] is visible. *)

From Stdlib Require Import String Ascii List ZArith QArith Bool Lia.
From Stdlib Require Import Permutation Sorted.
Import ListNotations.

Set Implicit Arguments.
Close Scope Q_scope.
Open Scope string_scope.

(* ================================================================== *)
(** * Python strings *)
(* ================================================================== *)

Module PyStr.

Definition code (c : ascii) : nat := nat_of_ascii c.

(** ASCII part of the Unicode white space of [\s] and [str.strip]. *)
Definition is_space (c : ascii) : bool :=
  ((9 <=? code c) && (code c <=? 13) || (28 <=? code c) && (code c <=? 32))%nat.

(** White space of the C locale, as the numeric parser skips it. *)
Definition is_cspace (c : ascii) : bool :=
  ((9 <=? code c) && (code c <=? 13) || (code c =? 32))%nat.

Definition is_digit (c : ascii) : bool :=
  ((48 <=? code c) && (code c <=? 57))%nat.

Definition digit_val (c : ascii) : Z := Z.of_nat (code c - 48).

Definition lower_ascii (c : ascii) : ascii :=
  if ((65 <=? code c) && (code c <=? 90))%nat
  then ascii_of_nat (code c + 32) else c.

(** Second byte of a code point U+00C0..U+00FF (lead byte 0xC3): the
    capitals U+00C0..U+00DE, the multiplication sign U+00D7 apart, fold
    to the letter 0x20 above. *)
Definition lower_latin1 (d : ascii) : ascii :=
  if ((128 <=? code d) && (code d <=? 158) && negb (code d =? 151))%nat
  then ascii_of_nat (code d + 32) else d.

(** [s.lower()] *)
Fixpoint lower (s : string) : string :=
  match s with
  | EmptyString => EmptyString
  | String c r =>
      if (code c =? 195)%nat then
        match r with
        | EmptyString => String c EmptyString
        | String d r' => String c (String (lower_latin1 d) (lower r'))
        end
      else String (lower_ascii c) (lower r)
  end.

(** [re.sub(r"\s+", " ", s)]: every maximal run of white space becomes
    one blank.  [in_ws] tells that the previous character was white. *)
Fixpoint collapse_ws (in_ws : bool) (s : string) : string :=
  match s with
  | EmptyString => EmptyString
  | String c r =>
      if is_space c
      then (if in_ws then collapse_ws true r
            else String " "%char (collapse_ws true r))
      else String c (collapse_ws false r)
  end.

Fixpoint lstrip_by (sp : ascii -> bool) (s : string) : string :=
  match s with
  | EmptyString => EmptyString
  | String c r => if sp c then lstrip_by sp r else s
  end.

Fixpoint rstrip_by (sp : ascii -> bool) (s : string) : string :=
  match s with
  | EmptyString => EmptyString
  | String c r =>
      match rstrip_by sp r with
      | EmptyString => if sp c then EmptyString else String c EmptyString
      | r' => String c r'
      end
  end.

(** [s.strip()] *)
Definition strip (s : string) : string :=
  rstrip_by is_space (lstrip_by is_space s).

(** [t in s] *)
Fixpoint contains (t s : string) : bool :=
  String.prefix t s ||
  match s with
  | EmptyString => false
  | String _ r => contains t r
  end.

(** [s.replace(a, "")] for a one-character [a] *)
Fixpoint remove_char (a : ascii) (s : string) : string :=
  match s with
  | EmptyString => EmptyString
  | String c r =>
      if Ascii.eqb c a then remove_char a r else String c (remove_char a r)
  end.

(** [s.replace(a, b)] for one-character [a] and [b] *)
Fixpoint replace_char (a b : ascii) (s : string) : string :=
  match s with
  | EmptyString => EmptyString
  | String c r =>
      String (if Ascii.eqb c a then b else c) (replace_char a b r)
  end.

(** Tail of [re.match(r"^D\d+X$", s)] after the leading [D]: one digit
    at least, then the letter [x], then the end of the string or a last
    line feed (Python's [$]). *)
Fixpoint digits_then (x : ascii) (seen : bool) (s : string) : bool :=
  match s with
  | EmptyString => false
  | String c r =>
      if is_digit c then digits_then x true r
      else seen && Ascii.eqb c x &&
           (String.eqb r "" || String.eqb r (String (ascii_of_nat 10) ""))
  end.

Definition match_dim (x : ascii) (s : string) : bool :=
  match s with
  | String c r => Ascii.eqb c "D"%char && digits_then x false r
  | EmptyString => false
  end.

(** Decimal digits of a natural number, for [str(int)]. *)
Fixpoint digits_of (fuel : nat) (n : N) (acc : string) : string :=
  match fuel with
  | O => acc
  | S fuel' =>
      let acc' := String (ascii_of_N (48 + N.modulo n 10)) acc in
      if (n <? 10)%N then acc' else digits_of fuel' (N.div n 10) acc'
  end.

Definition str_of_N (n : N) : string :=
  digits_of (S (N.to_nat (N.log2 n))) n "".

Definition str_of_Z (z : Z) : string :=
  if (z <? 0)%Z then String "-"%char (str_of_N (Z.abs_N z))
  else str_of_N (Z.abs_N z).

End PyStr.

(* ================================================================== *)
(** * Cells: the values a column can hold *)
(* ================================================================== *)

Inductive float64 : Type :=
| Fin (q : Q)
| PInf
| NInf.

Inductive cell : Type :=
| Str (s : string)      (* a Python [str] in an object column *)
| Num (f : float64)     (* a float64 that is not NaN *)
| Int (z : Z)           (* an integer of an int64 / Int64 column *)
| NA.                   (* NaN, None or pd.NA, as the dtype has it *)

Definition isna (c : cell) : bool :=
  match c with NA => true | _ => false end.

Definition notna (c : cell) : bool := negb (isna c).

Definition float_eqb (x y : float64) : bool :=
  match x, y with
  | Fin a, Fin b => Qeq_bool a b
  | PInf, PInf | NInf, NInf => true
  | _, _ => false
  end.

(** [x < y] on float64 *)
Definition float_ltb (x y : float64) : bool :=
  match x, y with
  | Fin a, Fin b => negb (Qle_bool b a)
  | NInf, (Fin _ | PInf) => true
  | Fin _, PInf => true
  | _, _ => false
  end.

(** The float a numeric cell stands for in arithmetic and comparison. *)
Definition as_float (c : cell) : option float64 :=
  match c with
  | Num f => Some f
  | Int z => Some (Fin (inject_Z z))
  | _ => None
  end.

(** Equality of labels and join keys; two missing keys are equal, as in
    pandas' joins. *)
Definition cell_eqb (a b : cell) : bool :=
  match a, b with
  | Str s, Str t => String.eqb s t
  | Int x, Int y => Z.eqb x y
  | NA, NA => true
  | Str _, _ | _, Str _ | NA, _ | _, NA => false
  | _, _ =>
      match as_float a, as_float b with
      | Some x, Some y => float_eqb x y
      | _, _ => false
      end
  end.

(** IEEE division without rounding; the undefined quotients are NaN. *)
Definition fdiv (x y : float64) : cell :=
  match x, y with
  | Fin a, Fin b =>
      if Qeq_bool b 0 then
        (if Qeq_bool a 0 then NA
         else if Qle_bool a 0 then Num NInf else Num PInf)
      else Num (Fin (Qred (a / b)))
  | Fin _, (PInf | NInf) => Num (Fin 0)
  | PInf, Fin b => if Qle_bool 0 b then Num PInf else Num NInf
  | NInf, Fin b => if Qle_bool 0 b then Num NInf else Num PInf
  | _, _ => NA
  end.

(** Element of [a / b] for two numeric columns. *)
Definition cell_div (a b : cell) : cell :=
  match as_float a, as_float b with
  | Some x, Some y => fdiv x y
  | _, _ => NA
  end.

(** Element of [a > 0]; a comparison with a missing value is False. *)
Definition cell_gt0 (a : cell) : bool :=
  match as_float a with
  | Some x => float_ltb (Fin 0) x
  | None => false
  end.

(* ------------------------------------------------------------------ *)
(** ** Numeric parsing: [pd.to_numeric(..., errors="coerce")] *)

Module Parse.
Import PyStr.

(** Longest prefix of decimal digits: its value, its length, the rest. *)
Fixpoint take_digits (s : string) (acc : Z) (n : nat) : Z * nat * string :=
  match s with
  | String c r =>
      if is_digit c then take_digits r (10 * acc + digit_val c) (S n)
      else (acc, n, s)
  | EmptyString => (acc, n, EmptyString)
  end.

Definition take_sign (s : string) : bool * string :=
  match s with
  | String "-"%char r => (true, r)
  | String "+"%char r => (false, r)
  | _ => (false, s)
  end.

(** [10^e] scaled mantissa, as a rational in lowest terms. *)
Definition scale10 (m e : Z) : Q :=
  Qred (inject_Z m * Qpower (inject_Z 10) e).

(** A decimal literal: digits, an optional fraction, an optional
    exponent; at least one digit in the mantissa and in the exponent. *)
Definition decimal (s : string) : option Q :=
  let '(neg, s1) := take_sign s in
  let '(ip, ni, s2) := take_digits s1 0 0%nat in
  let '(m, nf, s3) :=
    match s2 with
    | String "."%char r =>
        let '(m, nf, s3) := take_digits r ip 0%nat in (m, nf, s3)
    | _ => (ip, 0%nat, s2)
    end in
  if (ni + nf =? 0)%nat then None else
  let m := if neg then (- m)%Z else m in
  match s3 with
  | EmptyString => Some (scale10 m (- Z.of_nat nf))
  | String c r =>
      if Ascii.eqb (lower_ascii c) "e"%char then
        let '(eneg, r1) := take_sign r in
        let '(ev, ne, r2) := take_digits r1 0 0%nat in
        if (ne =? 0)%nat then None else
        match r2 with
        | EmptyString =>
            Some (scale10 m ((if eneg then - ev else ev) - Z.of_nat nf))
        | _ => None
        end
      else None
  end.

(** The spellings of infinity the parser accepts when the literal
    fails, in any letter case. *)
Definition infinity (s : string) : option float64 :=
  let '(neg, r) := take_sign s in
  let r := lower r in
  if String.eqb r "inf" || String.eqb r "infinity"
  then Some (if neg then NInf else PInf) else None.

(** One string under [pd.to_numeric(errors="coerce")]: surrounding
    blanks skipped, a number or NaN. *)
Definition to_numeric_str (s : string) : cell :=
  let t := rstrip_by is_cspace (lstrip_by is_cspace s) in
  match decimal t with
  | Some q => Num (Fin q)
  | None =>
      match infinity t with
      | Some f => Num f
      | None => NA
      end
  end.

End Parse.


(* ================================================================== *)
(** * Exceptions *)
(* ================================================================== *)

Inductive exn : Type :=
| ValueError (msg : string)
| TypeError (msg : string)
| KeyError (key : string).

Inductive result (A : Type) : Type :=
| Ok (a : A)
| Raise (e : exn).

Arguments Ok {A} a.
Arguments Raise {A} e.

Definition bind {A B : Type} (m : result A) (k : A -> result B) : result B :=
  match m with
  | Ok a => k a
  | Raise e => Raise e
  end.

Declare Scope result_scope.
Delimit Scope result_scope with result.
Notation "x <- m ;; k" := (bind m (fun x => k))
  (at level 100, m at next level, right associativity) : result_scope.
Open Scope result_scope.

(** [f] over a list, stopping at the first exception. *)
Fixpoint map_result {A B : Type} (f : A -> result B) (l : list A)
  : result (list B) :=
  match l with
  | [] => Ok []
  | x :: r => y <- f x ;; ys <- map_result f r ;; Ok (y :: ys)
  end.

Fixpoint fold_result {A B : Type} (f : A -> B -> result A) (l : list B) (a : A)
  : result A :=
  match l with
  | [] => Ok a
  | x :: r => a' <- f a x ;; fold_result f r a'
  end.

(* ================================================================== *)
(** * The pandas fragment *)
(* ================================================================== *)

(** A series: values with their index labels. *)
Definition Series : Type := list (Z * cell).

(** A frame: column labels (pairwise distinct, as in every frame built
    from records) and rows; a row is its index label and one cell per
    column. *)
Record DataFrame : Type := mkDF {
  columns : list string;
  rows : list (Z * list cell)
}.

Module pd.
Import PyStr.

(** [RangeIndex(n)] *)
Definition RangeIndex (n : nat) : list Z := map Z.of_nat (seq 0 n).

(** [df.index] *)
Definition index (df : DataFrame) : list Z := map fst (rows df).

(** [len(df)] *)
Definition len (df : DataFrame) : nat := length (rows df).

(** [pd.Series(values)] *)
Definition mkSeries (values : list cell) : Series :=
  combine (RangeIndex (length values)) values.

(** [pd.DataFrame()] *)
Definition empty : DataFrame := mkDF [] [].

(** [pd.DataFrame(records)]: a frame with the default index. *)
Definition of_records (cols : list string) (recs : list (list cell))
  : DataFrame :=
  mkDF cols (combine (RangeIndex (length recs)) recs).

Fixpoint col_pos (cols : list string) (name : string) : option nat :=
  match cols with
  | [] => None
  | c :: r =>
      if String.eqb c name then Some O else option_map S (col_pos r name)
  end.

(** [name in df.columns] *)
Definition has_col (df : DataFrame) (name : string) : bool :=
  existsb (String.eqb name) (columns df).

Definition position (df : DataFrame) (name : string) : result nat :=
  match col_pos (columns df) name with
  | Some i => Ok i
  | None => Raise (KeyError name)
  end.

Definition at_ (i : nat) (r : list cell) : cell := nth i r NA.

(** [df[name]] *)
Definition getitem (df : DataFrame) (name : string) : result Series :=
  i <- position df name ;;
  Ok (map (fun lr : Z * list cell => (fst lr, at_ i (snd lr))) (rows df)).

(** [df[[n1, ..., nk]]] *)
Definition select_cols (df : DataFrame) (names : list string)
  : result DataFrame :=
  ps <- map_result (position df) names ;;
  Ok (mkDF names
        (map (fun lr : Z * list cell =>
                (fst lr, map (fun i => at_ i (snd lr)) ps)) (rows df))).

(** [df.rename(columns={old: new})] *)
Definition rename (df : DataFrame) (old new : string) : DataFrame :=
  mkDF (map (fun c => if String.eqb c old then new else c) (columns df))
       (rows df).

Fixpoint select {A : Type} (mask : list bool) (l : list A) : list A :=
  match mask, l with
  | b :: m, x :: r => if b then x :: select m r else select m r
  | _, _ => []
  end.

(** [df.loc[mask]] for a boolean series on the index of [df]. *)
Definition loc (df : DataFrame) (mask : list bool) : DataFrame :=
  mkDF (columns df) (select mask (rows df)).

(** [s.notna()] *)
Definition series_notna (s : Series) : list bool :=
  map (fun lv : Z * cell => notna (snd lv)) s.

Definition series_map (f : cell -> cell) (s : Series) : Series :=
  map (fun lv : Z * cell => (fst lv, f (snd lv))) s.

Fixpoint replace_nth (i : nat) (v : cell) (r : list cell) : list cell :=
  match r, i with
  | [], _ => []
  | _ :: t, O => v :: t
  | x :: t, S j => x :: replace_nth j v t
  end.

(** The cells of a row after [df[name] = ...] put [v] in it. *)
Definition put (cols : list string) (name : string) (v : cell)
  (r : list cell) : list cell :=
  match col_pos cols name with
  | Some i => replace_nth i v r
  | None => r ++ [v]
  end.

Definition with_col (cols : list string) (name : string) : list string :=
  match col_pos cols name with
  | Some _ => cols
  | None => cols ++ [name]
  end.

Fixpoint lookup (l : Z) (s : Series) : cell :=
  match s with
  | [] => NA
  | (l', v) :: r => if Z.eqb l l' then v else lookup l r
  end.

Fixpoint has_dup (ls : list Z) : bool :=
  match ls with
  | [] => false
  | l :: r => existsb (Z.eqb l) r || has_dup r
  end.

Definition index_eqb (a b : list Z) : bool :=
  if list_eq_dec Z.eq_dec a b then true else false.

(** [df[name] = s] for a series [s].  A frame without rows takes the
    index of [s]; on equal indexes the values go in by position;
    otherwise [s] is reindexed on the labels of the frame, which fails
    when the labels of [s] repeat and leaves missing values at the
    labels [s] lacks. *)
Definition setitem (df : DataFrame) (name : string) (s : Series)
  : result DataFrame :=
  let cols := columns df in
  let cols' := with_col cols name in
  match rows df with
  | [] =>
      Ok (mkDF cols'
            (map (fun lv : Z * cell =>
                    (fst lv, put cols name (snd lv) (repeat NA (length cols))))
                 s))
  | _ =>
      if index_eqb (map fst s) (index df) then
        Ok (mkDF cols'
              (map (fun p : (Z * list cell) * (Z * cell) =>
                      (fst (fst p), put cols name (snd (snd p)) (snd (fst p))))
                   (combine (rows df) s)))
      else if has_dup (map fst s) then
        Raise (ValueError "cannot reindex on an axis with duplicate labels")
      else
        Ok (mkDF cols'
              (map (fun lr : Z * list cell =>
                      (fst lr, put cols name (lookup (fst lr) s) (snd lr)))
                   (rows df)))
  end.

(** [df[name] = values] for an array of values, by position. *)
Definition setitem_values (df : DataFrame) (name : string)
  (values : list cell) : result DataFrame :=
  if (length values =? len df)%nat then
    Ok (mkDF (with_col (columns df) name)
          (map (fun p : (Z * list cell) * cell =>
                  (fst (fst p), put (columns df) name (snd p) (snd (fst p))))
               (combine (rows df) values)))
  else Raise (ValueError "Length of values does not match length of index").

(* ------------------------------------------------------------------ *)
(** ** Conversions *)

(** [repr] of a float with a short decimal expansion. *)
Fixpoint frac_digits (fuel : nat) (r d : Z) : string :=
  match fuel with
  | O => ""
  | S fuel' =>
      let r10 := (10 * r)%Z in
      String (ascii_of_N (48 + Z.to_N (r10 / d)))
             (if (r10 mod d =? 0)%Z then ""
              else frac_digits fuel' (r10 mod d) d)
  end.

Definition float_repr (f : float64) : string :=
  match f with
  | PInf => "inf"
  | NInf => "-inf"
  | Fin q =>
      let n := Z.abs (Qnum q) in
      let d := Z.pos (Qden q) in
      ((if (Qnum q <? 0)%Z then "-" else "") ++ str_of_Z (n / d) ++ "."
        ++ frac_digits 17 (n mod d) d)%string
  end.

(** [str(x)], element of [astype(str)] *)
Definition py_str (c : cell) : string :=
  match c with
  | Str s => s
  | Int z => str_of_Z z
  | Num f => float_repr f
  | NA => "nan"
  end.

(** [s.astype(str)] *)
Definition astype_str (s : Series) : Series :=
  series_map (fun c => Str (py_str c)) s.

(** Element of [pd.to_numeric(s, errors="coerce")].  Strings are
    parsed; numbers come back as float64 values (the int64 dtype of an
    all-integer result is not kept apart: every use below is a float
    operation or a cast to Int64). *)
Definition to_numeric_cell (c : cell) : cell :=
  match c with
  | Str s => Parse.to_numeric_str s
  | Int z => Num (Fin (inject_Z z))
  | Num f => Num f
  | NA => NA
  end.

Definition to_numeric (s : Series) : Series := series_map to_numeric_cell s.

Definition unsafe_cast : exn :=
  TypeError "cannot safely cast non-equivalent float64 to int64".

(** Element of [astype("Int64")]: a float goes through only when it is
    an integer; a missing value stays missing. *)
Definition astype_Int64_cell (c : cell) : result cell :=
  match c with
  | Int z => Ok (Int z)
  | NA => Ok NA
  | Num (Fin q) =>
      if (Z.pos (Qden (Qred q)) =? 1)%Z then Ok (Int (Qnum (Qred q)))
      else Raise unsafe_cast
  | Num _ => Raise unsafe_cast
  | Str _ => Raise (TypeError "object cannot be converted to an IntegerDtype")
  end.

(** [s.astype("Int64")] *)
Definition astype_Int64 (s : Series) : result Series :=
  map_result
    (fun lv : Z * cell => v <- astype_Int64_cell (snd lv) ;; Ok (fst lv, v)) s.

(* ------------------------------------------------------------------ *)
(** ** Row selection, grouping *)

(** [df.dropna(subset=names)] *)
Definition dropna (df : DataFrame) (subset : list string) : result DataFrame :=
  ps <- map_result (position df) subset ;;
  Ok (mkDF (columns df)
        (filter (fun lr : Z * list cell =>
                   forallb (fun i => notna (at_ i (snd lr))) ps) (rows df))).

Definition float_cmp (x y : float64) : comparison :=
  match x, y with
  | Fin a, Fin b => (a ?= b)%Q
  | NInf, NInf | PInf, PInf => Eq
  | NInf, _ | _, PInf => Lt
  | _, _ => Gt
  end.

(** Order of the values of a column, missing values last: numbers by
    value, strings by code point.  (Python refuses to compare a string
    with a number; no column sorted or grouped here mixes them.) *)
Definition cell_cmp (a b : cell) : comparison :=
  match a, b with
  | NA, NA => Eq
  | NA, _ => Gt
  | _, NA => Lt
  | Str s, Str t => String.compare s t
  | _, _ =>
      match as_float a, as_float b with
      | Some x, Some y => float_cmp x y
      | _, _ => Eq
      end
  end.

(** [max] of two values, skipping the missing one. *)
Definition cell_max (a b : cell) : cell :=
  match a, b with
  | NA, _ => b
  | _, NA => a
  | _, _ => match cell_cmp a b with Lt => b | _ => a end
  end.

(** One row enters the groups: kept in increasing order of the key,
    the value merged into its group by [max]. *)
Fixpoint group_insert (k v : cell) (acc : list (cell * cell))
  : list (cell * cell) :=
  match acc with
  | [] => [(k, v)]
  | (k', m) :: r =>
      match cell_cmp k k' with
      | Eq => (k', cell_max m v) :: r
      | Lt => (k, v) :: acc
      | Gt => (k', m) :: group_insert k v r
      end
  end.

(** [df.groupby(key, as_index=False)[val].max()]: one row per key that
    is not missing, keys increasing. *)
Definition groupby_max (df : DataFrame) (key val : string)
  : result DataFrame :=
  k <- position df key ;;
  v <- position df val ;;
  let groups :=
    fold_left
      (fun acc (lr : Z * list cell) =>
         if isna (at_ k (snd lr)) then acc
         else group_insert (at_ k (snd lr)) (at_ v (snd lr)) acc)
      (rows df) [] in
  Ok (of_records [key; val]
        (map (fun kv : cell * cell => [fst kv; snd kv]) groups)).

(* ------------------------------------------------------------------ *)
(** ** Joins *)

Inductive how : Type := Inner | Left.

Definition mem (c : string) (l : list string) : bool :=
  existsb (String.eqb c) l.

(** Positions of the columns of [cols] that are not join keys. *)
Definition non_key_pos (on cols : list string) : list nat :=
  filter (fun i => negb (mem (nth i cols "") on)) (seq 0 (length cols)).

Definition non_keys (on cols : list string) : list string :=
  filter (fun c => negb (mem c on)) cols.

(** Column labels of the result: the columns of the left frame, then
    the columns of the right one that are not keys; a label that both
    sides carry outside the keys takes the suffix of its side. *)
Definition merge_columns (lcols rcols on : list string)
  (suffixes : string * string) : list string :=
  (map (fun c => if negb (mem c on) && mem c (non_keys on rcols)
                 then (c ++ fst suffixes)%string else c) lcols
   ++
   map (fun c => if mem c (non_keys on lcols)
                 then (c ++ snd suffixes)%string else c) (non_keys on rcols))%list.

Definition keys_eqb (lk rk : list nat) (l r : list cell) : bool :=
  forallb (fun p : nat * nat => cell_eqb (at_ (fst p) l) (at_ (snd p) r))
          (combine lk rk).

(** Rows of the result for one row of the left frame: one per matching
    row of the right frame, in the order of the right frame; a left
    join keeps an unmatched row, with missing values on the right. *)
Definition join_row (h : how) (lk rk rrest : list nat)
  (rrows : list (list cell)) (l : list cell) : list (list cell) :=
  match filter (keys_eqb lk rk l) rrows, h with
  | [], Left => [(l ++ repeat NA (length rrest))%list]
  | ms, _ => map (fun r => (l ++ map (fun i => at_ i r) rrest)%list) ms
  end.

(** [left.merge(right, on=on, how=h, suffixes=suffixes)]; the rows
    follow the order of the left frame and get a fresh index. *)
Definition merge (left right : DataFrame) (on : list string) (h : how)
  (suffixes : string * string) : result DataFrame :=
  lk <- map_result (position left) on ;;
  rk <- map_result (position right) on ;;
  let rrest := non_key_pos on (columns right) in
  Ok (of_records
        (merge_columns (columns left) (columns right) on suffixes)
        (flat_map (join_row h lk rk rrest (map snd (rows right)))
                  (map snd (rows left)))).

(* ------------------------------------------------------------------ *)
(** ** Arithmetic on columns *)

(** [a / b] for two series on the same index *)
Definition series_div (a b : Series) : Series :=
  map (fun p : (Z * cell) * (Z * cell) =>
         (fst (fst p), cell_div (snd (fst p)) (snd (snd p))))
      (combine a b).

(** [np.where(cond, a, b)] with a scalar [b] *)
Definition np_where (cond : list bool) (a : list cell) (b : cell)
  : list cell :=
  map (fun p : bool * cell => if fst p then snd p else b) (combine cond a).

(* ------------------------------------------------------------------ *)
(** ** Sorting *)

(** Order of two rows under [sort_values(by, ascending)]: the first key
    that tells them apart decides; a descending key reverses the order
    of its values but leaves the missing ones last. *)
Fixpoint row_cmp (keys : list (nat * bool)) (a b : list cell) : comparison :=
  match keys with
  | [] => Eq
  | (i, asc) :: ks =>
      let x := at_ i a in
      let y := at_ i b in
      match (if asc || isna x || isna y then cell_cmp x y
             else CompOpp (cell_cmp x y)) with
      | Eq => row_cmp ks a b
      | c => c
      end
  end.

Definition row_leb (keys : list (nat * bool)) (a b : Z * list cell) : bool :=
  match row_cmp keys (snd a) (snd b) with
  | Gt => false
  | _ => true
  end.

Fixpoint insert_row (keys : list (nat * bool)) (x : Z * list cell)
  (l : list (Z * list cell)) : list (Z * list cell) :=
  match l with
  | [] => [x]
  | y :: r =>
      if row_leb keys x y then x :: l else y :: insert_row keys x r
  end.

(** The stable sort behind a sort on several keys: a row is put before
    the first row that does not precede it. *)
Fixpoint sort_rows (keys : list (nat * bool)) (l : list (Z * list cell))
  : list (Z * list cell) :=
  match l with
  | [] => []
  | x :: r => insert_row keys x (sort_rows keys r)
  end.

(** [df.sort_values(by, ascending=ascending)] for two keys or more *)
Definition sort_values (df : DataFrame) (by_ : list string)
  (ascending : list bool) : result DataFrame :=
  ps <- map_result (position df) by_ ;;
  if (length ascending =? length by_)%nat then
    Ok (mkDF (columns df) (sort_rows (combine ps ascending) (rows df)))
  else Raise (ValueError "Length of ascending must match length of by").

(** [df.reset_index(drop=True)] *)
Definition reset_index (df : DataFrame) : DataFrame :=
  of_records (columns df) (map snd (rows df)).

End pd.

(* ================================================================== *)
(** * src/prep.py *)
(* ================================================================== *)

Import PyStr.

(** Truth value of an [Optional[str]]: [None] and [""] are false. *)
Definition truthy (o : option string) : bool :=
  match o with
  | Some s => negb (String.eqb s "")
  | None => false
  end.

(** [a or b] *)
Definition py_or (a b : option string) : option string :=
  if truthy a then a else b.

(** [re.sub(r"\s+", " ", str(s)).strip().lower()] *)
Definition _norm (s : string) : string :=
  lower (strip (collapse_ws false s)).

(** First column whose normalised label contains every term of
    [must_contain] and, when [any_of] is given, one of its terms. *)
Definition _find_col (df : DataFrame) (must_contain : list string)
  (any_of : option (list string)) : option string :=
  find (fun c =>
          let cn := _norm c in
          forallb (fun t => contains t cn) must_contain &&
          match any_of with
          | Some ts => existsb (fun t => contains t cn) ts
          | None => true
          end)
       (columns df).

(** [series.astype(str).str.replace(".", "").str.replace(",", ".")],
    then [pd.to_numeric(..., errors="coerce")] *)
Definition _coerce_numeric_cell (c : cell) : cell :=
  pd.to_numeric_cell
    (Str (replace_char ","%char "."%char
            (remove_char "."%char (pd.py_str c)))).

Definition _coerce_numeric (series : Series) : Series :=
  pd.series_map _coerce_numeric_cell series.

(** Keeps the rows whose [V] is numeric, when there is a [V]. *)
Definition _drop_header_like_rows (df : DataFrame) : result DataFrame :=
  if pd.has_col df "V" then
    s <- pd.getitem df "V" ;;
    let v := _coerce_numeric s in
    Ok (pd.loc df (pd.series_notna v))
  else Ok df.

(** The label has the stem but none of the two spellings of "code". *)
Definition name_like (stem : string) (c : string) : bool :=
  let cn := _norm c in
  contains stem cn && (negb (contains "código" cn) && negb (contains "codigo" cn)).

Definition _extract_muni_cols (df : DataFrame)
  : option string * option string :=
  let muni_code := _find_col df ["munic"] (Some ["código"; "codigo"]) in
  let muni_name := find (name_like "munic") (columns df) in
  (muni_code, muni_name).

Definition _extract_time_col (df : DataFrame) : option string :=
  let ano := py_or (_find_col df ["ano"] (Some ["código"; "codigo"]))
                   (_find_col df ["ano"] None) in
  if truthy ano then ano else
  let mes := py_or (_find_col df ["mês"] None) (_find_col df ["mes"] None) in
  if truthy mes then mes else
  py_or (_find_col df ["período"] None) (_find_col df ["periodo"] None).

Definition missing_V : exn :=
  ValueError "Não encontrei a coluna 'V' (valor) no retorno do SIDRA.".

(** [pd.to_numeric(df[col], errors="coerce").astype("Int64")] *)
Definition int_column (df : DataFrame) (col : string) : result Series :=
  s <- pd.getitem df col ;;
  pd.astype_Int64 (pd.to_numeric s).

(** [out[name] = out[name].astype("Int64")] *)
Definition retype_Int64 (out : DataFrame) (name : string) : result DataFrame :=
  s <- pd.getitem out name ;;
  i <- pd.astype_Int64 s ;;
  pd.setitem out name i.

Definition is_extra_dim (c : string) : bool :=
  match_dim "C"%char c || match_dim "N"%char c.

(** The column an [if col:] goes on with: [None] and [""] take the
    [else] branch. *)
Definition chosen (o : option string) : option string :=
  if truthy o then o else None.

Definition all_missing (df : DataFrame) : Series :=
  pd.mkSeries (repeat NA (pd.len df)).

Definition all_blank (df : DataFrame) : Series :=
  pd.mkSeries (repeat (Str "") (pd.len df)).

(** The series assigned to [out["code_muni"]]: the municipality code
    column, else a territory code column, else missing values. *)
Definition code_series (df : DataFrame) (muni_code_col : option string)
  : result Series :=
  match chosen muni_code_col with
  | Some c => int_column df c
  | None =>
      (* alguns retornos podem vir com "Território (Código)" *)
      let terr_code := _find_col df ["territ"] (Some ["código"; "codigo"]) in
      match chosen terr_code with
      | Some c => int_column df c
      | None => Ok (all_missing df)
      end
  end.

(** The series assigned to [out["municipio"]]. *)
Definition name_series (df : DataFrame) (muni_name_col : option string)
  : result Series :=
  match chosen muni_name_col with
  | Some c => s <- pd.getitem df c ;; Ok (pd.astype_str s)
  | None =>
      let terr_name := find (name_like "territ") (columns df) in
      match chosen terr_name with
      | Some c => s <- pd.getitem df c ;; Ok (pd.astype_str s)
      | None => Ok (all_blank df)
      end
  end.

(** The series assigned to [out["ano"]]. *)
Definition time_series (df : DataFrame) (time_col : option string)
  : result Series :=
  match chosen time_col with
  | Some c => int_column df c   (* tenta extrair o ano numérico *)
  | None => Ok (all_missing df)
  end.

(** The columns kept by [keep_extra_dims]: labels [D<digits>C] and
    [D<digits>N]. *)
Definition extra_dims (df : DataFrame) (keep_extra_dims : bool)
  : list string :=
  if keep_extra_dims then filter is_extra_dim (columns df) else [].

Definition normalize_sidra_table (df_raw : DataFrame) (value_name : string)
  (keep_extra_dims : bool) : result DataFrame :=
  let df := df_raw in
  df <- _drop_header_like_rows df ;;
  (* município *)
  let '(muni_code_col, muni_name_col) := _extract_muni_cols df in
  (* tempo *)
  let time_col := _extract_time_col df in
  (* valor *)
  if negb (pd.has_col df "V") then Raise missing_V else
  v <- pd.getitem df "V" ;;
  df <- pd.setitem df "__value__" (_coerce_numeric v) ;;
  (* monta base *)
  let out := pd.empty in
  s <- code_series df muni_code_col ;;
  out <- pd.setitem out "code_muni" s ;;
  s <- name_series df muni_name_col ;;
  out <- pd.setitem out "municipio" s ;;
  s <- time_series df time_col ;;
  out <- pd.setitem out "ano" s ;;
  v <- pd.getitem df "__value__" ;;
  out <- pd.setitem out value_name v ;;
  (* dimensões extras (opcional) *)
  out <-
    fold_result (fun out c => s <- pd.getitem df c ;; pd.setitem out c s)
      (extra_dims df keep_extra_dims) out ;;
  (* limpa: remove linhas sem valor *)
  v <- pd.getitem out value_name ;;
  let out := pd.loc out (pd.series_notna v) in
  (* garante tipos *)
  out <- retype_Int64 out "code_muni" ;;
  out <- retype_Int64 out "ano" ;;
  Ok out.

(** The per-municipality area of [build_panel]:
    [area.dropna(subset=["code_muni"]).groupby("code_muni",
    as_index=False)["area"].max()] *)
Definition area_agg (area : DataFrame) : result DataFrame :=
  a <- pd.dropna area ["code_muni"] ;;
  pd.groupby_max a "code_muni" "area".

(** The municipality reference with its key named [code_muni] and
    typed Int64 (the first three statements of [build_panel]). *)
Definition reference (mun_uf : DataFrame) : result DataFrame :=
  let mun := mun_uf in
  let mun :=
    if pd.has_col mun "id_municipio"
    then pd.rename mun "id_municipio" "code_muni" else mun in
  s <- int_column mun "code_muni" ;;
  pd.setitem mun "code_muni" s.

(** [np.where(area.notna() & (area > 0), pib / area, np.nan)] *)
Definition per_km2 (pib_s area_s : Series) : list cell :=
  pd.np_where
    (map (fun lv : Z * cell => notna (snd lv) && cell_gt0 (snd lv)) area_s)
    (map snd (pd.series_div pib_s area_s)) NA.

(** [build_panel] up to the derived features, before the final sort. *)
Definition build_panel_unsorted (mun_uf pib_raw pop_raw area_raw : DataFrame)
  : result DataFrame :=
  mun <- reference mun_uf ;;
  pib <- normalize_sidra_table pib_raw "pib" false ;;
  pop <- normalize_sidra_table pop_raw "pop" false ;;
  area <- normalize_sidra_table area_raw "area" false ;;
  area_agg <- area_agg area ;;
  (* merge PIB x POP (por município-ano) *)
  l <- pd.dropna pib ["code_muni"; "ano"] ;;
  r <- pd.dropna pop ["code_muni"; "ano"] ;;
  panel <- pd.merge l r ["code_muni"; "ano"] pd.Inner ("", "_pop") ;;
  (* nome do município do endpoint de localidades *)
  names <- pd.select_cols mun ["code_muni"; "municipio"] ;;
  panel <- pd.merge panel names ["code_muni"] pd.Left ("_x", "_y") ;;
  (* área *)
  panel <- pd.merge panel area_agg ["code_muni"] pd.Left ("_x", "_y") ;;
  (* features derivadas *)
  pib_s <- pd.getitem panel "pib" ;;
  pop_s <- pd.getitem panel "pop" ;;
  panel <- pd.setitem panel "pib_pc" (pd.series_div pib_s pop_s) ;;
  area_s <- pd.getitem panel "area" ;;
  pib_s <- pd.getitem panel "pib" ;;
  pd.setitem_values panel "pib_km2" (per_km2 pib_s area_s).

Definition build_panel (mun_uf pib_raw pop_raw area_raw : DataFrame)
  : result DataFrame :=
  panel <- build_panel_unsorted mun_uf pib_raw pop_raw area_raw ;;
  (* ordena *)
  panel <- pd.sort_values panel ["ano"; "pib"] [true; false] ;;
  Ok (pd.reset_index panel).

(** The cell of a row under a column label ([NA] without the column). *)
Definition cell_of (df : DataFrame) (name : string) (row : list cell) : cell :=
  match pd.col_pos (columns df) name with
  | Some i => pd.at_ i row
  | None => NA
  end.

(* ================================================================== *)
(** * The same functions on a store of frame objects

    A frame is a mutable object: [df[name] = ...] changes it in place
    and every alias sees the change.  Here a variable holds a reference
    into a store; [copy] and every pandas operation that returns a
    frame allocate a new object, an item assignment overwrites the
    object it is applied to.  Series are never changed in place by the
    module and stay values. *)
(* ================================================================== *)

Module Store.

Definition ref : Type := nat.
Definition store : Type := list DataFrame.

(** A computation: its outcome and the store it leaves, also when it
    raises. *)
Definition M (A : Type) : Type := store -> result A * store.

Definition ret {A : Type} (a : A) : M A := fun h => (Ok a, h).

Definition raise {A : Type} (e : exn) : M A := fun h => (Raise e, h).

Definition mbind {A B : Type} (m : M A) (k : A -> M B) : M B :=
  fun h =>
    match m h with
    | (Ok a, h') => k a h'
    | (Raise e, h') => (Raise e, h')
    end.

Declare Scope store_scope.
Delimit Scope store_scope with store.
Notation "x <~ m ;; k" := (mbind m (fun x => k))
  (at level 100, m at next level, right associativity) : store_scope.
Notation "m ;;; k" := (mbind m (fun _ => k))
  (at level 100, right associativity) : store_scope.
Open Scope store_scope.

(** A pure pandas computation inside a store computation. *)
Definition lift {A : Type} (r : result A) : M A := fun h => (r, h).

(** A new object. *)
Definition alloc (df : DataFrame) : M ref :=
  fun h => (Ok (length h), (h ++ [df])%list).

(** The frame a reference stands for (references in use are allocated). *)
Definition deref (l : ref) : M DataFrame :=
  fun h => (Ok (nth l h pd.empty), h).

Fixpoint update (l : ref) (df : DataFrame) (h : store) : store :=
  match h, l with
  | [], _ => []
  | _ :: t, O => df :: t
  | x :: t, S l' => x :: update l' df t
  end.

(** The object at [l] becomes [df]. *)
Definition assign (l : ref) (df : DataFrame) : M unit :=
  fun h => (Ok tt, update l df h).

(** [df.copy()] *)
Definition copy (l : ref) : M ref :=
  df <~ deref l ;; alloc df.

(** [df[name]] *)
Definition getitem (l : ref) (name : string) : M Series :=
  df <~ deref l ;; lift (pd.getitem df name).

(** [df[name] = s], in place *)
Definition setitem (l : ref) (name : string) (s : Series) : M unit :=
  df <~ deref l ;;
  df' <~ lift (pd.setitem df name s) ;;
  assign l df'.

Definition setitem_values (l : ref) (name : string) (values : list cell)
  : M unit :=
  df <~ deref l ;;
  df' <~ lift (pd.setitem_values df name values) ;;
  assign l df'.

(** [left.merge(right, ...)] *)
Definition merge (left right : ref) (on : list string) (h : pd.how)
  (suffixes : string * string) : M ref :=
  l <~ deref left ;;
  r <~ deref right ;;
  m <~ lift (pd.merge l r on h suffixes) ;;
  alloc m.

(** [df.dropna(subset=...)] *)
Definition dropna (df : ref) (subset : list string) : M ref :=
  d <~ deref df ;;
  d' <~ lift (pd.dropna d subset) ;;
  alloc d'.

Definition _drop_header_like_rows (df : ref) : M ref :=
  d <~ deref df ;;
  if pd.has_col d "V" then
    s <~ getitem df "V" ;;
    let v := _coerce_numeric s in
    kept <~ alloc (pd.loc d (pd.series_notna v)) ;;
    copy kept
  else copy df.

Fixpoint for_each {A : Type} (f : A -> M unit) (l : list A) : M unit :=
  match l with
  | [] => ret tt
  | x :: r => f x ;;; for_each f r
  end.

(** [out[name] = out[name].astype("Int64")] *)
Definition retype_Int64 (out : ref) (name : string) : M unit :=
  s <~ getitem out name ;;
  i <~ lift (pd.astype_Int64 s) ;;
  setitem out name i.

Definition normalize_sidra_table (df_raw : ref) (value_name : string)
  (keep_extra_dims : bool) : M ref :=
  df <~ copy df_raw ;;
  df <~ _drop_header_like_rows df ;;
  d <~ deref df ;;
  let '(muni_code_col, muni_name_col) := _extract_muni_cols d in
  let time_col := _extract_time_col d in
  if negb (pd.has_col d "V") then raise missing_V else
  v <~ getitem df "V" ;;
  setitem df "__value__" (_coerce_numeric v) ;;;
  out <~ alloc pd.empty ;;
  s <~ (d <~ deref df ;; lift (code_series d muni_code_col)) ;;
  setitem out "code_muni" s ;;;
  s <~ (d <~ deref df ;; lift (name_series d muni_name_col)) ;;
  setitem out "municipio" s ;;;
  s <~ (d <~ deref df ;; lift (time_series d time_col)) ;;
  setitem out "ano" s ;;;
  v <~ getitem df "__value__" ;;
  setitem out value_name v ;;;
  d <~ deref df ;;
  for_each (fun c => s <~ getitem df c ;; setitem out c s)
    (extra_dims d keep_extra_dims) ;;;
  v <~ getitem out value_name ;;
  o <~ deref out ;;
  out <~ (kept <~ alloc (pd.loc o (pd.series_notna v)) ;; copy kept) ;;
  retype_Int64 out "code_muni" ;;;
  retype_Int64 out "ano" ;;;
  ret out.

Definition area_agg (area : ref) : M ref :=
  a <~ dropna area ["code_muni"] ;;
  d <~ deref a ;;
  g <~ lift (pd.groupby_max d "code_muni" "area") ;;
  alloc g.

Definition reference (mun_uf : ref) : M ref :=
  mun <~ copy mun_uf ;;
  d <~ deref mun ;;
  mun <~ (if pd.has_col d "id_municipio"
          then alloc (pd.rename d "id_municipio" "code_muni")
          else ret mun) ;;
  s <~ (d <~ deref mun ;; lift (int_column d "code_muni")) ;;
  setitem mun "code_muni" s ;;;
  ret mun.

Definition build_panel (mun_uf pib_raw pop_raw area_raw : ref) : M ref :=
  mun <~ reference mun_uf ;;
  pib <~ normalize_sidra_table pib_raw "pib" false ;;
  pop <~ normalize_sidra_table pop_raw "pop" false ;;
  area <~ normalize_sidra_table area_raw "area" false ;;
  area_agg <~ area_agg area ;;
  l <~ dropna pib ["code_muni"; "ano"] ;;
  r <~ dropna pop ["code_muni"; "ano"] ;;
  panel <~ merge l r ["code_muni"; "ano"] pd.Inner ("", "_pop") ;;
  names <~ (d <~ deref mun ;;
            n <~ lift (pd.select_cols d ["code_muni"; "municipio"]) ;;
            alloc n) ;;
  panel <~ merge panel names ["code_muni"] pd.Left ("_x", "_y") ;;
  panel <~ merge panel area_agg ["code_muni"] pd.Left ("_x", "_y") ;;
  pib_s <~ getitem panel "pib" ;;
  pop_s <~ getitem panel "pop" ;;
  setitem panel "pib_pc" (pd.series_div pib_s pop_s) ;;;
  area_s <~ getitem panel "area" ;;
  pib_s <~ getitem panel "pib" ;;
  setitem_values panel "pib_km2" (per_km2 pib_s area_s) ;;;
  sorted <~ (d <~ deref panel ;;
             s <~ lift (pd.sort_values d ["ano"; "pib"] [true; false]) ;;
             alloc s) ;;
  d <~ deref sorted ;;
  alloc (pd.reset_index d).

(** The frame a computation returns, read in the store it leaves. *)
Definition outcome (r : result ref * store) : result DataFrame :=
  match r with
  | (Ok l, h) => Ok (nth l h pd.empty)
  | (Raise e, _) => Raise e
  end.

End Store.

(* ================================================================== *)
(** * Notions used in the statements *)
(* ================================================================== *)

(** The value of a successful cast to Int64. *)
Definition int64_of (c : cell) : cell :=
  match pd.astype_Int64_cell c with
  | Ok c' => c'
  | Raise _ => NA
  end.

Definition int_or_na (c : cell) : Prop :=
  match c with
  | Int _ | NA => True
  | _ => False
  end.

Definition num_or_na (c : cell) : Prop :=
  match c with
  | Num _ | NA => True
  | _ => False
  end.

(** Every row has one cell per column. *)
Definition rectangular (df : DataFrame) : Prop :=
  Forall (fun lr : Z * list cell => length (snd lr) = length (columns df))
         (rows df).

(** A row of a tidy table: nullable integer code and year, any name, a
    value that is a number. *)
Definition tidy_row (r : list cell) : Prop :=
  match r with
  | [c; _; a; Num _] => int_or_na c /\ int_or_na a
  | _ => False
  end.

Definition tidy (value_name : string) (df : DataFrame) : Prop :=
  columns df = ["code_muni"; "municipio"; "ano"; value_name] /\
  Forall (fun lr : Z * list cell => tidy_row (snd lr)) (rows df).

(** [x <= y] on float64 *)
Definition float_le (x y : float64) : Prop := pd.float_cmp x y <> Gt.

(** The (code, value) pairs of a table, row by row. *)
Definition code_values (value_name : string) (df : DataFrame)
  : list (cell * cell) :=
  map (fun lr : Z * list cell =>
         (cell_of df "code_muni" (snd lr), cell_of df value_name (snd lr)))
      (rows df).

(** The (code, year) keys of a table, row by row. *)
Definition keys (df : DataFrame) : list (cell * cell) :=
  map (fun lr : Z * list cell =>
         (cell_of df "code_muni" (snd lr), cell_of df "ano" (snd lr)))
      (rows df).

(** A group: an integer key and a number. *)
Definition int_num (kv : cell * cell) : Prop :=
  exists c x, kv = (Int c, Num x).

(** Strictly increasing integer keys. *)
Definition key_lt (p q : cell * cell) : Prop :=
  match fst p, fst q with
  | Int a, Int b => (a < b)%Z
  | _, _ => False
  end.

(** Code and value of a row of a tidy table. *)
Definition code_area (lr : Z * list cell) : cell * cell :=
  (pd.at_ 0 (snd lr), pd.at_ 3 (snd lr)).

(** [agg] is the area table [area] collapsed to one row per
    municipality: a row per code that [area] has, none for the missing
    code, and with each code the largest area observed for it. *)
Definition max_area_per_code (area agg : DataFrame) : Prop :=
  columns agg = ["code_muni"; "area"] /\
  Forall (fun lr : Z * list cell => exists c m, snd lr = [Int c; Num m])
         (rows agg) /\
  NoDup (map fst (code_values "area" agg)) /\
  (forall c m,
      In (Int c, Num m) (code_values "area" agg) ->
      In (Int c, Num m) (code_values "area" area) /\
      forall y, In (Int c, Num y) (code_values "area" area) -> float_le y m) /\
  (forall c y,
      In (Int c, Num y) (code_values "area" area) ->
      exists m, In (Int c, Num m) (code_values "area" agg)).

(** The rows of a tidy table that have a code and a year:
    [dropna(subset=["code_muni", "ano"])]. *)
Definition keyed (df : DataFrame) : list (Z * list cell) :=
  filter (fun lr : Z * list cell =>
            notna (pd.at_ 0 (snd lr)) && (notna (pd.at_ 2 (snd lr)) && true))
         (rows df).

(** The two derived cells, as [build_panel] appends them to a row of
    the merged table (value at 3, population at 5, area at 7). *)
Definition add_pc (row : list cell) : list cell :=
  (row ++ [cell_div (pd.at_ 3 row) (pd.at_ 5 row)])%list.

Definition add_km2 (row : list cell) : list cell :=
  (row ++ [if notna (pd.at_ 7 row) && cell_gt0 (pd.at_ 7 row)
           then cell_div (pd.at_ 3 row) (pd.at_ 7 row) else NA])%list.

Definition panel_columns : list string :=
  ["code_muni"; "municipio_x"; "ano"; "pib"; "municipio_pop"; "pop";
   "municipio_y"; "area"; "pib_pc"; "pib_km2"].

(** The rows of the panel before the sort, from the tidy value and
    population tables, the two-column reference and the aggregated
    area. *)
Definition merged_rows (pib pop names agg : DataFrame) : list (list cell) :=
  flat_map (pd.join_row pd.Left [0%nat] [0%nat] [1%nat] (map snd (rows agg)))
    (flat_map (pd.join_row pd.Left [0%nat] [0%nat] [1%nat]
                 (map snd (rows names)))
       (flat_map (pd.join_row pd.Inner [0%nat; 2%nat] [0%nat; 2%nat]
                    [1%nat; 3%nat] (map snd (keyed pop)))
          (map snd (keyed pib)))).

Definition panel_rows (pib pop names agg : DataFrame) : list (list cell) :=
  map (fun row => add_km2 (add_pc row)) (merged_rows pib pop names agg).

(** The sort keys of [build_panel]: year ascending, value descending. *)
Definition panel_keys : list (nat * bool) := [(2%nat, true); (3%nat, false)].

(** The name and the area that the two left joins attach to a row with
    code [c]: those of a row of the right table with that code, or a
    missing value when the right table has no such row. *)
Definition attached (c : cell) (R : list (list cell)) (v : cell) : Prop :=
  (exists r, In r R /\ cell_eqb c (pd.at_ 0 r) = true /\ v = pd.at_ 1 r) \/
  ((forall r, In r R -> cell_eqb c (pd.at_ 0 r) = false) /\ v = NA).

(** The order of the rows of the panel: an earlier year first; within
    a year, the larger value first. *)
Definition precedes (panel : DataFrame) (r1 r2 : list cell) : Prop :=
  exists a1 a2 x1 x2,
    cell_of panel "ano" r1 = Int a1 /\ cell_of panel "ano" r2 = Int a2 /\
    cell_of panel "pib" r1 = Num x1 /\ cell_of panel "pib" r2 = Num x2 /\
    ((a1 < a2)%Z \/ (a1 = a2 /\ float_le x2 x1)).

(** The row is of year [a] and has value [x]. *)
Definition has_key (panel : DataFrame) (a : Z) (x : float64)
  (row : list cell) : bool :=
  cell_eqb (cell_of panel "ano" row) (Int a) &&
  cell_eqb (cell_of panel "pib" row) (Num x).

(** A row with a year at position 2 and a value at position 3. *)
Definition year_value (lr : Z * list cell) : Prop :=
  exists a x, pd.at_ 2 (snd lr) = Int a /\ pd.at_ 3 (snd lr) = Num x.

(** A store computation that leaves the first [n] objects of the store
    as they are, whether it returns or raises, and whose result
    satisfies [Q]. *)
Definition frames (n : nat) {A : Type} (m : Store.M A) (Q : A -> Prop)
  : Prop :=
  forall h, (n <= length h)%nat ->
    (n <= length (snd (m h)))%nat /\
    firstn n (snd (m h)) = firstn n h /\
    forall a, fst (m h) = Ok a -> Q a.

(** A reference to an object allocated after the first [n]. *)
Definition fresh (n : nat) (l : Store.ref) : Prop := (n <= l)%nat.

(** The object at [l] is the frame [d]. *)
Definition holds (l : Store.ref) (d : DataFrame) (h : Store.store) : Prop :=
  (l < length h)%nat /\ nth l h pd.empty = d.

(** A run from the store [h] that agrees with the outcome [p] of the
    value-level function: it raises the same exception, or returns a
    reference to a new object that is the frame [p] returns; and it
    only adds objects to the store. *)
Definition refines (run : result Store.ref * Store.store) (h : Store.store)
  (p : result DataFrame) : Prop :=
  exists new,
    snd run = (h ++ new)%list /\
    match fst run, p with
    | Ok l, Ok d => holds l d (h ++ new)%list /\ (length h <= l)%nat
    | Raise e, Raise e' => e = e'
    | _, _ => False
    end.

(* ================================================================== *)
(** * Notions used in the further properties *)
(* ================================================================== *)

(** [t] occurs in [s]. *)
Definition substring (t s : string) : Prop :=
  exists a b, s = (a ++ t ++ b)%string.

(** White space comes as single blanks; [after_ws] tells that a blank
    may not come next. *)
Fixpoint single_blanks (after_ws : bool) (s : string) : bool :=
  match s with
  | EmptyString => true
  | String c r =>
      if is_space c
      then negb after_ws && Ascii.eqb c " "%char && single_blanks true r
      else single_blanks false r
  end.

(** The same, and the string does not end with a blank. *)
Fixpoint trimmed (after_ws : bool) (s : string) : bool :=
  match s with
  | EmptyString => negb after_ws
  | String c r =>
      if is_space c
      then negb after_ws && Ascii.eqb c " "%char && trimmed true r
      else trimmed false r
  end.

(** The label passes the test of [_find_col]: its normal form has every
    term of [must_contain] and, when [any_of] is given, one of its
    terms. *)
Definition label_matches (must_contain : list string)
  (any_of : option (list string)) (c : string) : Prop :=
  (forall t, In t must_contain -> substring t (_norm c)) /\
  (forall ts, any_of = Some ts ->
              exists t, In t ts /\ substring t (_norm c)).

(** The label carries one of the two spellings of "code". *)
Definition code_label (c : string) : Prop :=
  substring "código" (_norm c) \/ substring "codigo" (_norm c).

(** Every character of the string passes [p]. *)
Fixpoint all_chars (p : ascii -> bool) (s : string) : bool :=
  match s with
  | EmptyString => true
  | String c r => p c && all_chars p r
  end.

(** The characters of a decimal integer. *)
Definition sign_or_digit (c : ascii) : bool :=
  is_digit c || Ascii.eqb c "-"%char.

(** The column [name] of a frame as a series ([NA] in every row when
    the frame has no such column). *)
Definition column (df : DataFrame) (name : string) : Series :=
  map (fun lr : Z * list cell => (fst lr, cell_of df name (snd lr))) (rows df).

(** The row has a [V] that coerces to a number: it is not taken for a
    header row. *)
Definition numeric_V (df : DataFrame) (lr : Z * list cell) : bool :=
  notna (_coerce_numeric_cell (cell_of df "V" (snd lr))).

(** No label of the frame is taken for a municipality or territory
    code column. *)
Definition no_code_column (df : DataFrame) : Prop :=
  forall c, In c (columns df) -> code_label c ->
            ~ substring "munic" (_norm c) /\ ~ substring "territ" (_norm c).

(** No label of the frame is taken for a time column. *)
Definition no_time_column (df : DataFrame) : Prop :=
  forall c t, In c (columns df) ->
              In t ["ano"; "mês"; "mes"; "período"; "periodo"] ->
              ~ substring t (_norm c).

(** Some label of the frame is taken for a municipality or territory
    code column. *)
Definition has_code_column (df : DataFrame) : Prop :=
  exists c, In c (columns df) /\ code_label c /\
            (substring "munic" (_norm c) \/ substring "territ" (_norm c)).

(** The rows that are not taken for header rows, with the value [V]
    coerces to, under their labels. *)
Definition numeric_rows (df : DataFrame) : Series :=
  map (fun lr : Z * list cell =>
         (fst lr, _coerce_numeric_cell (cell_of df "V" (snd lr))))
      (filter (numeric_V df) (rows df)).

(** ** Tables for the examples

    A response as [sidrapy] hands it over: the columns carry the short
    names of the service and the first row carries the titles. *)
Definition table_short_names : DataFrame :=
  pd.of_records ["NC"; "D2C"; "V"]
    [[Str "Nível Territorial (Código)"; Str "Ano (Código)"; Str "Valor"];
     [Str "6"; Str "2020"; Str "10"];
     [Str "6"; Str "2021"; Str "20"];
     [Str "6"; Str "2022"; Str "30"]].

(** The same with the titles as column labels, and one dimension. *)
Definition table_titles : DataFrame :=
  pd.of_records ["Município (Código)"; "Município"; "Ano"; "V"; "D1C"]
    [[Str "Município (Código)"; Str "Município"; Str "Ano"; Str "Valor";
      Str "Nível"];
     [Str "5208707"; Str "Goiânia"; Str "2020"; Str "10"; Str "6"];
     [Str "5208707"; Str "Goiânia"; Str "2021"; Str "..."; Str "6"];
     [Str "5208707"; Str "Goiânia"; Str "2022"; Str "30"; Str "6"]].

Definition reference_goiania : DataFrame :=
  pd.of_records ["id_municipio"; "municipio"] [[Int 5208707; Str "Goiânia"]].

(** ** Further notions *)

(** A character of the ASCII range: a code point that UTF-8 writes as
    one byte. *)
Definition is_ascii (c : ascii) : bool := (code c <? 128)%nat.


(* ================================================================== *)
(** * src/data.py: what it computes from the responses

    [get_municipios_uf] and [sidra_table] ask the two services; what
    is modelled here is what the module computes once they have
    answered. *)
(* ================================================================== *)

(** The frame that [get_municipios_uf] returns,
    [pd.DataFrame([{"id_municipio": int(x["id"]), "municipio": x["nome"]}
    for x in data])], from the identifier and the name read in each
    record of the response.  Records with the same two keys give one
    column per key; an empty list gives a frame without columns. *)
Definition municipios_frame (recs : list (Z * cell)) : DataFrame :=
  match recs with
  | [] => pd.empty
  | _ =>
      pd.of_records ["id_municipio"; "municipio"]
        (map (fun r : Z * cell => [Int (fst r); snd r]) recs)
  end.

(** The list of codes that [fetch_pib_pop_area_go] sends with every
    table request:
    [",".join(mun["id_municipio"].astype(str).tolist())] *)
Definition codes (mun : DataFrame) : result string :=
  s <- pd.getitem mun "id_municipio" ;;
  Ok (String.concat "," (map (fun lv : Z * cell => pd.py_str (snd lv)) s)).

(** No comma in the string. *)
Definition comma_free (s : string) : bool :=
  all_chars (fun c => negb (Ascii.eqb c ","%char)) s.

(* ================================================================== *)
(** * The columns the normalisation reads *)
(* ================================================================== *)

(** The column [normalize_sidra_table] reads the code from: the
    municipality code column, else the territory code column. *)
Definition code_column (df : DataFrame) : option string :=
  match chosen (fst (_extract_muni_cols df)) with
  | Some c => Some c
  | None => chosen (_find_col df ["territ"] (Some ["código"; "codigo"]))
  end.

(** The column it reads the name from. *)
Definition name_column (df : DataFrame) : option string :=
  match chosen (snd (_extract_muni_cols df)) with
  | Some c => Some c
  | None => chosen (find (name_like "territ") (columns df))
  end.

(** The column it reads the year from. *)
Definition time_column (df : DataFrame) : option string :=
  chosen (_extract_time_col df).

(** The cell [pd.to_numeric(...).astype("Int64")] makes of a cell, when
    the cast goes through. *)
Definition int_of_cell (c : cell) : cell := int64_of (pd.to_numeric_cell c).

(* ================================================================== *)
(** * Basic facts *)
(* ================================================================== *)

Lemma bind_Ok {A B : Type} (m : result A) (k : A -> result B) (b : B) :
  bind m k = Ok b -> exists a, m = Ok a /\ k a = Ok b.
Proof.
  destruct m as [a|e]; simpl; intros H; [eauto | discriminate].
Qed.

Lemma bind_Raise_l {A B : Type} (m : result A) (k : A -> result B) (e : exn) :
  m = Raise e -> bind m k = Raise e.
Proof. intros ->; reflexivity. Qed.

(** Peels the successful binds of a hypothesis [H : ... = Ok _]. *)
Ltac inv_bind H :=
  let a := fresh "x" in
  let Ha := fresh "E" in
  apply bind_Ok in H; destruct H as (a & Ha & H).

Lemma has_col_In (df : DataFrame) (name : string) :
  pd.has_col df name = true <-> In name (columns df).
Proof.
  unfold pd.has_col. rewrite existsb_exists. split.
  - intros (c & Hc & E). apply String.eqb_eq in E. now subst.
  - intros H. exists name. split; [assumption | apply String.eqb_refl].
Qed.

Lemma has_col_false (df : DataFrame) (name : string) :
  ~ In name (columns df) -> pd.has_col df name = false.
Proof.
  intros H. destruct (pd.has_col df name) eqn:E; [|reflexivity].
  apply has_col_In in E. contradiction.
Qed.

Lemma no_V_normalize (df : DataFrame) (v : string) (k : bool) :
  ~ In "V" (columns df) -> normalize_sidra_table df v k = Raise missing_V.
Proof.
  intros H. apply has_col_false in H.
  unfold normalize_sidra_table, _drop_header_like_rows.
  rewrite H. simpl. rewrite H. reflexivity.
Qed.

(** C7.  A raw table without a column named exactly [V] makes
    [normalize_sidra_table] raise the missing-value-column error,
    whatever its other columns, the indicator name and the
    extra-dimension switch are.  Inside [build_panel] the error of a
    normalisation is the outcome of the whole call: once the reference
    is prepared and the tables before it are normalised, the panel
    build raises that same error, and with a value, population or area
    table lacking [V] it never returns a panel. *)
Theorem C7_missing_value_column :
  (forall df v k,
      ~ In "V" (columns df) ->
      normalize_sidra_table df v k = Raise missing_V) /\
  (forall mun_uf pib_raw pop_raw area_raw,
      ~ In "V" (columns pib_raw) \/ ~ In "V" (columns pop_raw) \/
      ~ In "V" (columns area_raw) ->
      exists e, build_panel mun_uf pib_raw pop_raw area_raw = Raise e) /\
  (forall mun_uf pib_raw pop_raw area_raw mun,
      reference mun_uf = Ok mun ->
      (~ In "V" (columns pib_raw) ->
       build_panel mun_uf pib_raw pop_raw area_raw = Raise missing_V) /\
      (forall pib, normalize_sidra_table pib_raw "pib" false = Ok pib ->
       ~ In "V" (columns pop_raw) ->
       build_panel mun_uf pib_raw pop_raw area_raw = Raise missing_V) /\
      (forall pib pop,
       normalize_sidra_table pib_raw "pib" false = Ok pib ->
       normalize_sidra_table pop_raw "pop" false = Ok pop ->
       ~ In "V" (columns area_raw) ->
       build_panel mun_uf pib_raw pop_raw area_raw = Raise missing_V)).
Proof.
  split; [exact no_V_normalize|]. split.
  - intros mun_uf pib_raw pop_raw area_raw H.
    unfold build_panel, build_panel_unsorted.
    destruct (reference mun_uf) as [mun|e]; [simpl | eexists; reflexivity].
    destruct (normalize_sidra_table pib_raw "pib" false) as [pib|e] eqn:Epib;
      [simpl | eexists; reflexivity].
    destruct (normalize_sidra_table pop_raw "pop" false) as [pop|e] eqn:Epop;
      [simpl | eexists; reflexivity].
    destruct (normalize_sidra_table area_raw "area" false) as [area|e] eqn:Earea;
      [simpl | eexists; reflexivity].
    destruct H as [H | [H | H]];
      [ rewrite (no_V_normalize _ _ _ H) in Epib
      | rewrite (no_V_normalize _ _ _ H) in Epop
      | rewrite (no_V_normalize _ _ _ H) in Earea ]; discriminate.
  - intros mun_uf pib_raw pop_raw area_raw mun Hmun.
    unfold build_panel, build_panel_unsorted. rewrite Hmun. simpl.
    repeat split.
    + intros H. now rewrite (no_V_normalize _ _ _ H).
    + intros pib Hpib H. rewrite Hpib. simpl.
      now rewrite (no_V_normalize _ _ _ H).
    + intros pib pop Hpib Hpop H. rewrite Hpib. simpl. rewrite Hpop. simpl.
      now rewrite (no_V_normalize _ _ _ H).
Qed.

Lemma C7_missing_value_column_witness :
  ~ In "V" (columns (pd.of_records ["Ano"; "Valor"] [[Str "2020"; Str "7"]])) /\
  normalize_sidra_table
    (pd.of_records ["Ano"; "Valor"] [[Str "2020"; Str "7"]]) "pib" true
  = Raise missing_V.
Proof.
  assert (H : ~ In "V" ["Ano"; "Valor"])
    by (simpl; intros [H | [H | []]]; discriminate).
  split; [exact H|].
  exact (proj1 C7_missing_value_column
           (pd.of_records ["Ano"; "Valor"] [[Str "2020"; Str "7"]])
           "pib" true H).
Defined.

(* ------------------------------------------------------------------ *)
(** ** Columns and positions *)

Lemma col_pos_Some_lt (cols : list string) (name : string) (i : nat) :
  pd.col_pos cols name = Some i -> (i < length cols)%nat /\ nth i cols "" = name.
Proof.
  revert i. induction cols as [|c r IH]; simpl; intros i H; [discriminate|].
  destruct (String.eqb c name) eqn:E.
  - injection H as <-. apply String.eqb_eq in E. split; [lia | assumption].
  - destruct (pd.col_pos r name) as [j|]; simpl in H; [|discriminate].
    injection H as <-. destruct (IH j eq_refl). split; [lia | assumption].
Qed.

Lemma col_pos_None (cols : list string) (name : string) :
  pd.col_pos cols name = None <-> ~ In name cols.
Proof.
  induction cols as [|c r IH]; simpl.
  - tauto.
  - destruct (String.eqb c name) eqn:E.
    + apply String.eqb_eq in E. split; [discriminate | intros H; tauto].
    + apply String.eqb_neq in E.
      destruct (pd.col_pos r name); simpl.
      * split; [discriminate|]. intros H. exfalso. apply H. right.
        destruct (in_dec string_dec name r) as [Hi|Hn]; [assumption|].
        apply IH in Hn. discriminate.
      * split; [|reflexivity]. intros _ [H | H]; [congruence|].
        now apply IH in H.
Qed.

Lemma col_pos_In (cols : list string) (name : string) :
  In name cols -> exists i, pd.col_pos cols name = Some i.
Proof.
  intros H. destruct (pd.col_pos cols name) as [i|] eqn:E; [eauto|].
  apply col_pos_None in E. contradiction.
Qed.

Lemma col_pos_app_new (cols : list string) (name : string) :
  pd.col_pos cols name = None ->
  pd.col_pos (cols ++ [name]) name = Some (length cols).
Proof.
  induction cols as [|c r IH]; simpl; intros H.
  - now rewrite String.eqb_refl.
  - destruct (String.eqb c name); [discriminate|].
    destruct (pd.col_pos r name); [discriminate|]. now rewrite IH.
Qed.

Lemma col_pos_app_old (cols : list string) (name other : string) (i : nat) :
  pd.col_pos cols name = Some i ->
  pd.col_pos (cols ++ [other]) name = Some i.
Proof.
  revert i. induction cols as [|c r IH]; simpl; intros i H; [discriminate|].
  destruct (String.eqb c name); [assumption|].
  destruct (pd.col_pos r name) as [j|]; [|discriminate].
  now rewrite (IH j eq_refl).
Qed.

Lemma col_pos_with_col_same (cols : list string) (name : string) :
  exists i, pd.col_pos (pd.with_col cols name) name = Some i /\
            (i <= length cols)%nat.
Proof.
  unfold pd.with_col. destruct (pd.col_pos cols name) as [i|] eqn:E.
  - exists i. split; [assumption|]. apply col_pos_Some_lt in E. lia.
  - exists (length cols). split; [now apply col_pos_app_new | lia].
Qed.

Lemma col_pos_with_col_other (cols : list string) (name other : string)
  (i : nat) :
  pd.col_pos cols name = Some i ->
  pd.col_pos (pd.with_col cols other) name = Some i.
Proof.
  intros H. unfold pd.with_col.
  destruct (pd.col_pos cols other); [assumption | now apply col_pos_app_old].
Qed.

Lemma In_with_col (cols : list string) (name c : string) :
  In c cols -> In c (pd.with_col cols name).
Proof.
  unfold pd.with_col. destruct (pd.col_pos cols name); [tauto|].
  intros H. apply in_or_app. now left.
Qed.

Lemma position_In (df : DataFrame) (name : string) :
  In name (columns df) -> exists i, pd.position df name = Ok i /\
                                    pd.col_pos (columns df) name = Some i.
Proof.
  intros H. destruct (col_pos_In _ _ H) as (i & E).
  exists i. unfold pd.position. now rewrite E.
Qed.

Lemma position_Ok (df : DataFrame) (name : string) (i : nat) :
  pd.position df name = Ok i <-> pd.col_pos (columns df) name = Some i.
Proof.
  unfold pd.position. destruct (pd.col_pos (columns df) name).
  - split; intros H; injection H as ->; reflexivity.
  - split; discriminate.
Qed.

Lemma getitem_Ok (df : DataFrame) (name : string) (s : Series) :
  pd.getitem df name = Ok s ->
  exists i, pd.col_pos (columns df) name = Some i /\
            s = map (fun lr : Z * list cell => (fst lr, pd.at_ i (snd lr)))
                    (rows df).
Proof.
  unfold pd.getitem. intros H. inv_bind H. apply position_Ok in E.
  injection H as <-. eauto.
Qed.

Lemma getitem_In (df : DataFrame) (name : string) :
  In name (columns df) -> exists s, pd.getitem df name = Ok s.
Proof.
  intros H. destruct (position_In _ _ H) as (i & E & _).
  unfold pd.getitem. rewrite E. simpl. eauto.
Qed.

Lemma getitem_index (df : DataFrame) (name : string) (s : Series) :
  pd.getitem df name = Ok s -> map fst s = pd.index df.
Proof.
  intros H. apply getitem_Ok in H. destruct H as (i & _ & ->).
  unfold pd.index. rewrite map_map. reflexivity.
Qed.

Lemma find_In {A : Type} (f : A -> bool) (l : list A) (x : A) :
  find f l = Some x -> In x l.
Proof. intros H. now apply find_some in H. Qed.

(* ------------------------------------------------------------------ *)
(** ** Rows under an item assignment *)

Lemma index_eqb_refl (a : list Z) : pd.index_eqb a a = true.
Proof. unfold pd.index_eqb. destruct (list_eq_dec Z.eq_dec a a); congruence. Qed.

Lemma index_eqb_eq (a b : list Z) : pd.index_eqb a b = true -> a = b.
Proof.
  unfold pd.index_eqb. destruct (list_eq_dec Z.eq_dec a b); [auto | discriminate].
Qed.

Lemma lookup_spec (l : Z) (s : Series) :
  In (l, pd.lookup l s) s \/ pd.lookup l s = NA.
Proof.
  induction s as [|[l' v] r IH]; simpl; [now right|].
  destruct (Z.eqb l l') eqn:E.
  - apply Z.eqb_eq in E. subst. left. now left.
  - destruct IH as [H | H]; [left; now right | now right].
Qed.

Lemma combine_same_labels {A B : Type} (rr : list (Z * A)) (s : list (Z * B)) :
  map fst s = map fst rr ->
  forall l old l2 v, In ((l, old), (l2, v)) (combine rr s) -> l2 = l.
Proof.
  revert s. induction rr as [|[c d] rr IH]; intros [|[a b] s] Ei l old l2 v Hin;
    simpl in *; try contradiction; try discriminate.
  injection Ei as Ea Ei. destruct Hin as [Hin | Hin].
  - inversion Hin; congruence.
  - eapply IH; eauto.
Qed.

(** [df[name] = s] on the index of [df] itself: by position. *)
Lemma setitem_same_index (df : DataFrame) (name : string) (s : Series) :
  map fst s = pd.index df ->
  pd.setitem df name s =
  Ok (mkDF (pd.with_col (columns df) name)
        (map (fun p : (Z * list cell) * (Z * cell) =>
                (fst (fst p), pd.put (columns df) name (snd (snd p)) (snd (fst p))))
             (combine (rows df) s))).
Proof.
  intros H. unfold pd.setitem, pd.index in *.
  destruct (rows df) as [|r rs] eqn:E.
  - simpl in H. apply map_eq_nil in H. subst. reflexivity.
  - rewrite H, index_eqb_refl. reflexivity.
Qed.

(** Every row after [df[name] = s]: its label, the value it receives
    (one that [s] has at that label, or a missing one) and the row it
    extends (the one of [df] at that label, or an all-missing one when
    [df] had no row). *)
Lemma setitem_rows (df df' : DataFrame) (name : string) (s : Series) :
  pd.setitem df name s = Ok df' ->
  columns df' = pd.with_col (columns df) name /\
  Forall (fun lr' : Z * list cell =>
            exists v old,
              (In (fst lr', v) s \/ v = NA) /\
              (In (fst lr', old) (rows df) \/
               rows df = [] /\ old = repeat NA (length (columns df))) /\
              snd lr' = pd.put (columns df) name v old)
         (rows df').
Proof.
  unfold pd.setitem. intros H.
  destruct (rows df) as [|r rs] eqn:E.
  - injection H as <-. simpl. split; [reflexivity|].
    apply Forall_forall. intros lr' Hin. apply in_map_iff in Hin.
    destruct Hin as ([l v] & <- & Hin). simpl.
    exists v, (repeat NA (length (columns df))). auto.
  - destruct (pd.index_eqb (map fst s) (pd.index df)) eqn:Ei.
    + injection H as <-. cbn [rows columns]. split; [reflexivity|].
      apply index_eqb_eq in Ei. unfold pd.index in Ei. rewrite E in Ei.
      apply Forall_forall. intros lr' Hin. apply in_map_iff in Hin.
      destruct Hin as ([[l old] [l2 v]] & <- & Hin). cbn [fst snd].
      change (In (l, old, (l2, v)) (combine (r :: rs) s)) in Hin.
      assert (l2 = l) by (eapply combine_same_labels; eauto).
      subst l2. exists v, old. split; [left|split; [left|reflexivity]].
      * now apply in_combine_r in Hin.
      * now apply in_combine_l in Hin.
    + destruct (pd.has_dup (map fst s)); [discriminate|].
      injection H as <-. cbn [rows columns]. split; [reflexivity|].
      apply Forall_forall. intros lr' Hin.
      apply (in_map_iff
               (fun lr : Z * list cell =>
                  (fst lr, pd.put (columns df) name (pd.lookup (fst lr) s) (snd lr)))
               (r :: rs)) in Hin.
      destruct Hin as ([l old] & <- & Hin). cbn [fst snd].
      exists (pd.lookup l s), old. split; [apply lookup_spec|].
      split; [now left | reflexivity].
Qed.

(* ------------------------------------------------------------------ *)
(** ** Casts, masks and retyping *)

Lemma map_result_Ok {A B : Type} (f : A -> result B) (l : list A) (l' : list B) :
  map_result f l = Ok l' -> Forall2 (fun x y => f x = Ok y) l l'.
Proof.
  revert l'. induction l as [|x r IH]; simpl; intros l' H.
  - injection H as <-. constructor.
  - inv_bind H. inv_bind H. injection H as <-. constructor; auto.
Qed.

Lemma astype_Int64_cell_notna (c c' : cell) :
  pd.astype_Int64_cell c = Ok c' -> int_or_na c' /\ isna c' = isna c.
Proof.
  destruct c as [s|[q| |]|z|]; unfold pd.astype_Int64_cell; intros H;
    try discriminate.
  - destruct (Z.pos (Qden (Qred q)) =? 1)%Z; [|discriminate].
    injection H as <-. simpl. auto.
  - injection H as <-. simpl. auto.
  - injection H as <-. simpl. auto.
Qed.

Lemma astype_Int64_Ok (s t : Series) :
  pd.astype_Int64 s = Ok t ->
  t = map (fun lv : Z * cell => (fst lv, int64_of (snd lv))) s /\
  Forall (fun lv : Z * cell =>
            pd.astype_Int64_cell (snd lv) = Ok (int64_of (snd lv))) s.
Proof.
  unfold pd.astype_Int64. intros H. apply map_result_Ok in H.
  induction H as [|[l v] [l' v'] s t H _ IH]; simpl.
  - split; constructor.
  - inv_bind H. injection H as <- <-. destruct IH as (-> & IH).
    cbn [fst snd] in *.
    assert (Ev : int64_of v = x) by (unfold int64_of; now rewrite E).
    rewrite Ev. split; [reflexivity|].
    constructor; [|assumption]. cbn [snd]. now rewrite Ev.
Qed.

Lemma astype_Int64_values (s t : Series) :
  pd.astype_Int64 s = Ok t ->
  map fst t = map fst s /\ Forall (fun lv : Z * cell => int_or_na (snd lv)) t.
Proof.
  intros H. apply astype_Int64_Ok in H. destruct H as (-> & H). split.
  - rewrite map_map. reflexivity.
  - apply Forall_forall. intros lv Hin. apply in_map_iff in Hin.
    destruct Hin as (lv0 & <- & Hin). simpl.
    rewrite Forall_forall in H. apply H in Hin.
    now apply astype_Int64_cell_notna in Hin.
Qed.

Lemma select_map {A : Type} (f : A -> bool) (l : list A) :
  pd.select (map f l) l = filter f l.
Proof.
  induction l as [|x r IH]; simpl; [reflexivity|].
  rewrite IH. reflexivity.
Qed.

(** [df.loc[df[name].notna()]] keeps the rows that have a value. *)
Lemma loc_notna (df : DataFrame) (name : string) (s : Series) :
  pd.getitem df name = Ok s ->
  pd.loc df (pd.series_notna s) =
  mkDF (columns df)
       (filter (fun lr : Z * list cell => notna (cell_of df name (snd lr)))
               (rows df)).
Proof.
  intros H. apply getitem_Ok in H. destruct H as (i & E & ->).
  unfold pd.loc, pd.series_notna, cell_of. rewrite E, map_map. simpl.
  now rewrite select_map.
Qed.

Lemma at_replace_nth_same (i : nat) (v : cell) (r : list cell) :
  (i < length r)%nat -> pd.at_ i (pd.replace_nth i v r) = v.
Proof.
  unfold pd.at_. revert i. induction r as [|x r IH]; simpl; intros i H; [lia|].
  destruct i; simpl; [reflexivity | apply IH; lia].
Qed.

Lemma at_replace_nth_other (i j : nat) (v : cell) (r : list cell) :
  i <> j -> pd.at_ j (pd.replace_nth i v r) = pd.at_ j r.
Proof.
  unfold pd.at_. revert i j. induction r as [|x r IH]; simpl; intros i j H.
  - now destruct i, j.
  - destruct i, j; simpl; try reflexivity; try congruence.
    apply IH. congruence.
Qed.

Lemma length_replace_nth (i : nat) (v : cell) (r : list cell) :
  length (pd.replace_nth i v r) = length r.
Proof.
  revert i. induction r as [|x r IH]; intros i; [now destruct i|].
  destruct i; simpl; [reflexivity | now rewrite IH].
Qed.

Lemma at_notna_lt (i : nat) (r : list cell) :
  notna (pd.at_ i r) = true -> (i < length r)%nat.
Proof.
  unfold pd.at_. intros H. destruct (Nat.lt_ge_cases i (length r)); [assumption|].
  rewrite nth_overflow in H by assumption. discriminate.
Qed.

Lemma col_pos_inj (cols : list string) (a b : string) (i : nat) :
  pd.col_pos cols a = Some i -> pd.col_pos cols b = Some i -> a = b.
Proof.
  intros Ha Hb. apply col_pos_Some_lt in Ha. apply col_pos_Some_lt in Hb.
  destruct Ha as (_ & <-). now destruct Hb as (_ & <-).
Qed.

Lemma combine_map_self {A B : Type} (f : A -> B) (l : list A) :
  combine l (map f l) = map (fun x => (x, f x)) l.
Proof. induction l as [|x r IH]; simpl; [reflexivity | now rewrite IH]. Qed.

(** [out[name] = out[name].astype("Int64")]: the column is cast cell by
    cell, nothing else moves. *)
Lemma retype_Int64_Ok (out out' : DataFrame) (name : string) :
  retype_Int64 out name = Ok out' ->
  exists i,
    pd.col_pos (columns out) name = Some i /\
    columns out' = columns out /\
    rows out' =
      map (fun lr : Z * list cell =>
             (fst lr, pd.replace_nth i (int64_of (pd.at_ i (snd lr))) (snd lr)))
          (rows out) /\
    Forall (fun lr : Z * list cell =>
              pd.astype_Int64_cell (pd.at_ i (snd lr))
              = Ok (int64_of (pd.at_ i (snd lr)))) (rows out).
Proof.
  unfold retype_Int64. intros H. inv_bind H. inv_bind H.
  apply getitem_Ok in E. destruct E as (i & Ei & ->).
  apply astype_Int64_Ok in E0. destruct E0 as (-> & Hc).
  rewrite setitem_same_index in H
    by (unfold pd.index; rewrite !map_map; reflexivity).
  injection H as <-. exists i. cbn [columns rows].
  unfold pd.with_col, pd.put. rewrite Ei. repeat split.
  - rewrite map_map, combine_map_self, map_map. reflexivity.
  - rewrite Forall_map in Hc. exact Hc.
Qed.

(* ------------------------------------------------------------------ *)
(** ** The steps of a successful normalisation *)

Lemma normalize_steps (raw out : DataFrame) (v : string) (k : bool) :
  normalize_sidra_table raw v k = Ok out ->
  exists df1 vs df2 s1 o1 s2 o2 s3 o3 vv o4 o5 w o6,
    _drop_header_like_rows raw = Ok df1 /\
    pd.has_col df1 "V" = true /\
    pd.getitem df1 "V" = Ok vs /\
    pd.setitem df1 "__value__" (_coerce_numeric vs) = Ok df2 /\
    code_series df2 (fst (_extract_muni_cols df1)) = Ok s1 /\
    pd.setitem pd.empty "code_muni" s1 = Ok o1 /\
    name_series df2 (snd (_extract_muni_cols df1)) = Ok s2 /\
    pd.setitem o1 "municipio" s2 = Ok o2 /\
    time_series df2 (_extract_time_col df1) = Ok s3 /\
    pd.setitem o2 "ano" s3 = Ok o3 /\
    pd.getitem df2 "__value__" = Ok vv /\
    pd.setitem o3 v vv = Ok o4 /\
    fold_result (fun out c => s <- pd.getitem df2 c ;; pd.setitem out c s)
      (extra_dims df2 k) o4 = Ok o5 /\
    pd.getitem o5 v = Ok w /\
    retype_Int64 (pd.loc o5 (pd.series_notna w)) "code_muni" = Ok o6 /\
    retype_Int64 o6 "ano" = Ok out.
Proof.
  unfold normalize_sidra_table. intros H.
  inv_bind H. rename x into df1.
  destruct (_extract_muni_cols df1) as [mc mn] eqn:Em.
  destruct (pd.has_col df1 "V") eqn:EV; cbn [negb] in H; [|discriminate].
  do 14 inv_bind H. injection H as <-.
  do 14 eexists. split; [eassumption|]. rewrite Em. cbn [fst snd].
  repeat (split; [eassumption|]). eassumption.
Qed.

(** The last three statements of the normalisation keep, in every row,
    a value under [value_name]. *)
Lemma retype_keeps_notna (o o' : DataFrame) (name v : string) :
  retype_Int64 o name = Ok o' ->
  Forall (fun lr : Z * list cell => notna (cell_of o v (snd lr)) = true) (rows o) ->
  Forall (fun lr : Z * list cell => notna (cell_of o' v (snd lr)) = true) (rows o').
Proof.
  intros H Hn. apply retype_Int64_Ok in H.
  destruct H as (i & Ei & Ec & Er & Hc).
  rewrite Er. apply Forall_map. rewrite Forall_forall in *.
  intros lr Hin. specialize (Hn lr Hin). specialize (Hc lr Hin).
  unfold cell_of in *. rewrite Ec. cbn [snd].
  destruct (pd.col_pos (columns o) v) as [j|] eqn:Ej; [|discriminate].
  destruct (Nat.eq_dec i j) as [<-|Hij].
  - rewrite at_replace_nth_same by now apply at_notna_lt.
    apply astype_Int64_cell_notna in Hc. destruct Hc as (_ & Hc).
    unfold notna in *. now rewrite Hc.
  - now rewrite at_replace_nth_other.
Qed.

Lemma normalize_values_notna (raw out : DataFrame) (v : string) (k : bool) :
  normalize_sidra_table raw v k = Ok out ->
  Forall (fun lr : Z * list cell => notna (cell_of out v (snd lr)) = true)
         (rows out).
Proof.
  intros H. apply normalize_steps in H.
  destruct H as (df1 & vs & df2 & s1 & o1 & s2 & o2 & s3 & o3 & vv & o4 & o5
                 & w & o6 & _ & _ & _ & _ & _ & _ & _ & _ & _ & _ & _ & _ & _
                 & Hw & H6 & Hout).
  eapply retype_keeps_notna; [exact Hout|].
  eapply retype_keeps_notna; [exact H6|].
  rewrite (loc_notna _ _ Hw). cbn [rows].
  apply Forall_forall. intros lr Hin. apply filter_In in Hin.
  destruct Hin as (_ & Hin). exact Hin.
Qed.

(* ------------------------------------------------------------------ *)
(** ** Normalising a table none of whose rows has a numeric value *)

Lemma chosen_Some (o : option string) (c : string) :
  chosen o = Some c -> o = Some c.
Proof. unfold chosen. destruct (truthy o); [auto | discriminate]. Qed.

Lemma find_col_In (df : DataFrame) (must : list string)
  (any : option (list string)) (c : string) :
  _find_col df must any = Some c -> In c (columns df).
Proof. unfold _find_col. apply find_In. Qed.

Lemma py_or_In (a b : option string) (cols : list string) (c : string) :
  (forall x, a = Some x -> In x cols) ->
  (forall x, b = Some x -> In x cols) ->
  py_or a b = Some c -> In c cols.
Proof. unfold py_or. destruct (truthy a); auto. Qed.

Lemma extract_time_col_In (df : DataFrame) (c : string) :
  _extract_time_col df = Some c -> In c (columns df).
Proof.
  unfold _extract_time_col.
  repeat match goal with
         | |- context [if ?b then _ else _] => destruct b
         end;
    apply py_or_In; intros x; apply find_col_In.
Qed.

Lemma getitem_no_rows (cols : list string) (c : string) :
  In c cols -> pd.getitem (mkDF cols []) c = Ok [].
Proof.
  intros H. destruct (position_In (mkDF cols []) c H) as (i & E & _).
  unfold pd.getitem. now rewrite E.
Qed.

Lemma int_column_no_rows (cols : list string) (c : string) :
  In c cols -> int_column (mkDF cols []) c = Ok [].
Proof. intros H. unfold int_column. now rewrite getitem_no_rows. Qed.

Lemma code_series_no_rows (cols : list string) (mc : option string) :
  (forall c, mc = Some c -> In c cols) ->
  code_series (mkDF cols []) mc = Ok [].
Proof.
  intros H. unfold code_series.
  destruct (chosen mc) as [c|] eqn:E.
  - apply chosen_Some in E. now apply int_column_no_rows, H.
  - cbv zeta. destruct (chosen (_find_col _ _ _)) as [c|] eqn:E'; [|reflexivity].
    apply chosen_Some, find_col_In in E'. now apply int_column_no_rows.
Qed.

Lemma name_series_no_rows (cols : list string) (mn : option string) :
  (forall c, mn = Some c -> In c cols) ->
  name_series (mkDF cols []) mn = Ok [].
Proof.
  intros H. unfold name_series.
  destruct (chosen mn) as [c|] eqn:E.
  - apply chosen_Some in E. now rewrite getitem_no_rows by now apply H.
  - cbv zeta. destruct (chosen (find _ _)) as [c|] eqn:E'; [|reflexivity].
    apply chosen_Some, find_In in E'. now rewrite getitem_no_rows.
Qed.

Lemma time_series_no_rows (cols : list string) (tc : option string) :
  (forall c, tc = Some c -> In c cols) ->
  time_series (mkDF cols []) tc = Ok [].
Proof.
  intros H. unfold time_series.
  destruct (chosen tc) as [c|] eqn:E; [|reflexivity].
  apply chosen_Some in E. now apply int_column_no_rows, H.
Qed.

Lemma extra_dims_no_rows (cols : list string) (names : list string)
  (ocols : list string) :
  (forall c, In c names -> In c cols) ->
  exists ocols',
    fold_result
      (fun out c => s <- pd.getitem (mkDF cols []) c ;; pd.setitem out c s)
      names (mkDF ocols []) = Ok (mkDF ocols' []) /\
    (forall c, In c ocols -> In c ocols').
Proof.
  revert ocols. induction names as [|n names IH]; intros ocols H; simpl.
  - eauto.
  - rewrite getitem_no_rows by (apply H; now left). simpl.
    destruct (IH (pd.with_col ocols n)) as (ocols' & E & Hin).
    { intros c Hc. apply H. now right. }
    exists ocols'. split; [exact E|].
    intros c Hc. now apply Hin, In_with_col.
Qed.

Lemma retype_no_rows (cols : list string) (name : string) :
  In name cols -> retype_Int64 (mkDF cols []) name = Ok (mkDF cols []).
Proof.
  intros H. unfold retype_Int64. rewrite getitem_no_rows by assumption.
  cbn [bind pd.astype_Int64 map_result pd.setitem rows columns map].
  unfold pd.with_col.
  destruct (col_pos_In _ _ H) as (i & ->). reflexivity.
Qed.

Lemma drop_header_no_numeric (raw : DataFrame) :
  In "V" (columns raw) ->
  Forall (fun lr : Z * list cell =>
            _coerce_numeric_cell (cell_of raw "V" (snd lr)) = NA) (rows raw) ->
  _drop_header_like_rows raw = Ok (mkDF (columns raw) []).
Proof.
  intros HV Hall. unfold _drop_header_like_rows.
  rewrite (proj2 (has_col_In raw "V") HV).
  destruct (getitem_In _ _ HV) as (s & Es). rewrite Es. simpl.
  apply getitem_Ok in Es. destruct Es as (i & Ei & ->).
  unfold pd.loc, pd.series_notna, _coerce_numeric, pd.series_map.
  rewrite !map_map. cbn [fst snd]. rewrite select_map.
  f_equal. f_equal.
  unfold cell_of in Hall. rewrite Ei in Hall.
  induction Hall as [|lr rs Hlr _ IH]; simpl; [reflexivity|].
  now rewrite Hlr.
Qed.

Lemma normalize_no_numeric (raw : DataFrame) (v : string) (k : bool) :
  In "V" (columns raw) ->
  Forall (fun lr : Z * list cell =>
            _coerce_numeric_cell (cell_of raw "V" (snd lr)) = NA) (rows raw) ->
  exists cols, normalize_sidra_table raw v k = Ok (mkDF cols []) /\ In v cols.
Proof.
  intros HV Hall. unfold normalize_sidra_table.
  rewrite (drop_header_no_numeric raw HV Hall). cbn [bind].
  set (df1 := mkDF (columns raw) []).
  destruct (_extract_muni_cols df1) as [mc mn] eqn:Em.
  assert (Hmc : forall c, mc = Some c -> In c (columns raw)).
  { intros c ->. unfold _extract_muni_cols in Em. injection Em as Em _.
    now apply find_col_In in Em. }
  assert (Hmn : forall c, mn = Some c -> In c (columns raw)).
  { intros c ->. unfold _extract_muni_cols in Em. injection Em as _ Em.
    now apply find_In in Em. }
  assert (Htc : forall c, _extract_time_col df1 = Some c -> In c (columns raw)).
  { intros c. apply extract_time_col_In. }
  rewrite (proj2 (has_col_In df1 "V") HV). cbn [negb].
  unfold df1 at 1. rewrite getitem_no_rows by assumption. cbn [bind].
  unfold df1 at 1. cbn [pd.setitem _coerce_numeric pd.series_map map rows columns bind].
  set (cols2 := pd.with_col (columns raw) "__value__").
  rewrite code_series_no_rows
    by (intros c Hc; apply In_with_col; auto).
  cbn [bind pd.setitem pd.empty rows columns map].
  rewrite name_series_no_rows
    by (intros c Hc; apply In_with_col; auto).
  cbn [bind pd.setitem pd.empty rows columns map].
  rewrite time_series_no_rows
    by (intros c Hc; apply In_with_col; auto).
  cbn [bind pd.setitem pd.empty rows columns map].
  assert (Hval : In "__value__" cols2).
  { destruct (col_pos_with_col_same (columns raw) "__value__") as (i & Ei & _).
    apply col_pos_Some_lt in Ei. destruct Ei as (Hi & <-). now apply nth_In. }
  rewrite getitem_no_rows by assumption.
  cbn [bind pd.setitem pd.empty rows columns map].
  match goal with
  | |- context [fold_result _ _ (mkDF ?oc [])] => set (ocols := oc)
  end.
  assert (Hv : In v ocols).
  { destruct (col_pos_with_col_same
                (pd.with_col (pd.with_col (pd.with_col [] "code_muni") "municipio") "ano") v)
      as (i & Ei & _).
    apply col_pos_Some_lt in Ei. destruct Ei as (Hi & <-). now apply nth_In. }
  assert (Hc : In "code_muni" ocols) by (apply In_with_col; now left).
  assert (Ha : In "ano" ocols) by (apply In_with_col; right; right; now left).
  destruct (extra_dims_no_rows cols2 (extra_dims (mkDF cols2 []) k) ocols)
    as (ocols' & Ef & Hin).
  { intros c Hcin. unfold extra_dims in Hcin. destruct k; [|contradiction].
    now apply filter_In in Hcin. }
  rewrite Ef. cbn [bind].
  rewrite getitem_no_rows by auto. cbn [bind].
  exists ocols'. split; [|auto].
  unfold pd.loc. cbn [pd.series_notna map pd.select rows columns].
  rewrite retype_no_rows by auto. cbn [bind].
  rewrite retype_no_rows by auto. reflexivity.
Qed.

(** C8.  Every row of the tidy table that [normalize_sidra_table]
    returns has a value under the indicator name that is not missing
    (the rows whose [V] does not coerce to a number are gone); and a raw
    table with a [V] column none of whose entries coerces to a number is
    normalised, without an exception, to a table with no rows. *)
Theorem C8_every_row_has_a_value :
  (forall raw v k out,
      normalize_sidra_table raw v k = Ok out ->
      Forall (fun lr : Z * list cell => isna (cell_of out v (snd lr)) = false)
             (rows out)) /\
  (forall raw v k,
      In "V" (columns raw) ->
      Forall (fun lr : Z * list cell =>
                _coerce_numeric_cell (cell_of raw "V" (snd lr)) = NA)
             (rows raw) ->
      exists out,
        normalize_sidra_table raw v k = Ok out /\
        rows out = [] /\ In v (columns out)).
Proof.
  split.
  - intros raw v k out H. apply normalize_values_notna in H.
    eapply Forall_impl; [|exact H]. intros lr Hn. cbv beta in Hn.
    unfold notna in Hn. now apply negb_true_iff in Hn.
  - intros raw v k HV Hall.
    destruct (normalize_no_numeric raw v k HV Hall) as (cols & E & Hv).
    exists (mkDF cols []). auto.
Qed.

Lemma C8_every_row_has_a_value_witness :
  (normalize_sidra_table
     (pd.of_records ["Município (Código)"; "Ano"; "V"]
        [[Str "Município (Código)"; Str "Ano"; Str "Valor"];
         [Str "5208707"; Str "2020"; Str "1.234,56"];
         [Str "5208707"; Str "2021"; Str "..."]]) "pib" false
   = Ok (mkDF ["code_muni"; "municipio"; "ano"; "pib"]
           [(1%Z, [Int 5208707; NA; Int 2020; Num (Fin (30864 # 25))])]) /\
   Forall (fun lr : Z * list cell =>
             isna (cell_of (mkDF ["code_muni"; "municipio"; "ano"; "pib"] [])
                     "pib" (snd lr)) = false)
          [(1%Z, [Int 5208707; NA; Int 2020; Num (Fin (30864 # 25))])]) /\
  (In "V" ["Ano"; "V"] /\
   exists out,
     normalize_sidra_table
       (pd.of_records ["Ano"; "V"]
          [[Str "Ano"; Str "Valor"]; [Str "2020"; Str "-"];
           [Str "2021"; Str "..."]]) "pib" false = Ok out /\
     rows out = [] /\ In "pib" (columns out)).
Proof.
  split.
  - assert (E : normalize_sidra_table
             (pd.of_records ["Município (Código)"; "Ano"; "V"]
                [[Str "Município (Código)"; Str "Ano"; Str "Valor"];
                 [Str "5208707"; Str "2020"; Str "1.234,56"];
                 [Str "5208707"; Str "2021"; Str "..."]]) "pib" false
           = Ok (mkDF ["code_muni"; "municipio"; "ano"; "pib"]
                   [(1%Z, [Int 5208707; NA; Int 2020; Num (Fin (30864 # 25))])]))
      by (vm_compute; reflexivity).
    split; [exact E|].
    exact (proj1 C8_every_row_has_a_value _ _ _ _ E).
  - assert (HV : In "V" ["Ano"; "V"]) by (simpl; auto).
    split; [exact HV|].
    apply (proj2 C8_every_row_has_a_value
             (pd.of_records ["Ano"; "V"]
                [[Str "Ano"; Str "Valor"]; [Str "2020"; Str "-"];
                 [Str "2021"; Str "..."]]) "pib" false HV).
    repeat constructor.
Defined.

(* ------------------------------------------------------------------ *)
(** ** The shape of a tidy table *)

Lemma setitem_append (df df' : DataFrame) (name : string) (s : Series)
  (P : list cell -> Prop) (Q : cell -> Prop) :
  pd.col_pos (columns df) name = None ->
  Forall (fun lr : Z * list cell => P (snd lr)) (rows df) ->
  P (repeat NA (length (columns df))) ->
  Forall (fun lv : Z * cell => Q (snd lv)) s ->
  Q NA ->
  pd.setitem df name s = Ok df' ->
  columns df' = (columns df ++ [name])%list /\
  Forall (fun lr : Z * list cell =>
            exists old v, P old /\ Q v /\ snd lr = (old ++ [v])%list)
         (rows df').
Proof.
  intros Hn HP HP0 HQ HQ0 H. apply setitem_rows in H.
  destruct H as (Ec & Hr). unfold pd.with_col in Ec. rewrite Hn in Ec.
  split; [exact Ec|].
  rewrite Forall_forall in *. intros lr Hin.
  destruct (Hr lr Hin) as (v & old & Hv & Hold & E).
  unfold pd.put in E. rewrite Hn in E.
  exists old, v. repeat split; [| |exact E].
  - destruct Hold as [Hold | (_ & ->)]; [exact (HP _ Hold) | exact HP0].
  - destruct Hv as [Hv | ->]; [exact (HQ _ Hv) | exact HQ0].
Qed.

Lemma mkSeries_values (vals : list cell) (lv : Z * cell) :
  In lv (pd.mkSeries vals) -> In (snd lv) vals.
Proof.
  unfold pd.mkSeries. destruct lv as [l v]. apply in_combine_r.
Qed.

Lemma all_missing_values (df : DataFrame) :
  Forall (fun lv : Z * cell => int_or_na (snd lv)) (all_missing df).
Proof.
  apply Forall_forall. intros lv H. apply mkSeries_values in H.
  apply repeat_spec in H. now rewrite H.
Qed.

Lemma int_column_values (df : DataFrame) (c : string) (s : Series) :
  int_column df c = Ok s ->
  Forall (fun lv : Z * cell => int_or_na (snd lv)) s.
Proof.
  unfold int_column. intros H. inv_bind H.
  now apply astype_Int64_values in H.
Qed.

Lemma code_series_values (df : DataFrame) (mc : option string) (s : Series) :
  code_series df mc = Ok s ->
  Forall (fun lv : Z * cell => int_or_na (snd lv)) s.
Proof.
  unfold code_series. intros H.
  destruct (chosen mc); [now apply int_column_values in H|].
  cbv zeta in H. destruct (chosen (_find_col _ _ _));
    [now apply int_column_values in H|].
  injection H as <-. apply all_missing_values.
Qed.

Lemma time_series_values (df : DataFrame) (tc : option string) (s : Series) :
  time_series df tc = Ok s ->
  Forall (fun lv : Z * cell => int_or_na (snd lv)) s.
Proof.
  unfold time_series. intros H.
  destruct (chosen tc); [now apply int_column_values in H|].
  injection H as <-. apply all_missing_values.
Qed.

Lemma coerce_numeric_cell_num (c : cell) : num_or_na (_coerce_numeric_cell c).
Proof.
  unfold _coerce_numeric_cell, pd.to_numeric_cell, Parse.to_numeric_str.
  destruct (Parse.decimal _); [exact I|].
  destruct (Parse.infinity _); exact I.
Qed.

Lemma at_put (cols : list string) (name : string) (v : cell) (r : list cell)
  (i : nat) :
  length r = length cols ->
  pd.col_pos (pd.with_col cols name) name = Some i ->
  pd.at_ i (pd.put cols name v r) = v.
Proof.
  intros Hl. unfold pd.with_col, pd.put.
  destruct (pd.col_pos cols name) as [j|] eqn:E; intros H.
  - rewrite E in H. injection H as <-. apply at_replace_nth_same.
    apply col_pos_Some_lt in E. lia.
  - rewrite (col_pos_app_new _ _ E) in H. injection H as <-.
    unfold pd.at_. rewrite <- Hl, nth_middle. reflexivity.
Qed.

Lemma drop_header_rows (raw df1 : DataFrame) :
  _drop_header_like_rows raw = Ok df1 ->
  columns df1 = columns raw /\ incl (rows df1) (rows raw).
Proof.
  unfold _drop_header_like_rows.
  destruct (pd.has_col raw "V"); intros H.
  - inv_bind H. injection H as <-. apply getitem_Ok in E.
    destruct E as (i & _ & ->). split; [reflexivity|].
    unfold pd.loc, pd.series_notna, _coerce_numeric, pd.series_map.
    rewrite !map_map, select_map. cbn [rows].
    intros lr Hin. now apply filter_In in Hin.
  - injection H as <-. split; [reflexivity | apply incl_refl].
Qed.

(** The [__value__] column of the working copy holds coerced numbers. *)
Lemma value_column_numeric (df1 df2 : DataFrame) (vs vv : Series) :
  rectangular df1 ->
  pd.getitem df1 "V" = Ok vs ->
  pd.setitem df1 "__value__" (_coerce_numeric vs) = Ok df2 ->
  pd.getitem df2 "__value__" = Ok vv ->
  Forall (fun lv : Z * cell => num_or_na (snd lv)) vv.
Proof.
  intros Hrect Hvs H2 Hvv.
  pose proof (getitem_index _ _ Hvs) as Hi.
  rewrite setitem_same_index in H2
    by (unfold _coerce_numeric, pd.series_map; rewrite map_map; exact Hi).
  injection H2 as <-. apply getitem_Ok in Hvv. cbn [columns rows] in Hvv.
  destruct Hvv as (i & Ei & ->).
  apply Forall_forall. intros lv Hin. apply in_map_iff in Hin.
  destruct Hin as (lr & <- & Hin). apply in_map_iff in Hin.
  destruct Hin as ([[l r] [l' c]] & <- & Hin). cbn [fst snd].
  pose proof (in_combine_l _ _ _ _ Hin) as Hl.
  pose proof (in_combine_r _ _ _ _ Hin) as Hr.
  unfold rectangular in Hrect. rewrite Forall_forall in Hrect.
  specialize (Hrect _ Hl). cbn [snd] in Hrect.
  rewrite (at_put _ _ _ _ Hrect Ei).
  unfold _coerce_numeric, pd.series_map in Hr. apply in_map_iff in Hr.
  destruct Hr as (lv0 & E & _). injection E as _ <-.
  apply coerce_numeric_cell_num.
Qed.

Lemma normalize_tidy (raw out : DataFrame) (v : string) :
  rectangular raw ->
  ~ In v ["code_muni"; "municipio"; "ano"] ->
  normalize_sidra_table raw v false = Ok out ->
  tidy v out.
Proof.
  intros Hrect Hv H. apply normalize_steps in H.
  destruct H as (df1 & vs & df2 & s1 & o1 & s2 & o2 & s3 & o3 & vv & o4 & o5
                 & w & o6 & Hd & _ & Hvs & Hdf2 & Hs1 & Ho1 & Hs2 & Ho2 & Hs3
                 & Ho3 & Hvv & Ho4 & Ho5 & Hw & H6 & Hout).
  assert (Hrect1 : rectangular df1).
  { apply drop_header_rows in Hd. destruct Hd as (Ec & Hi).
    unfold rectangular in *. rewrite Ec. rewrite Forall_forall in *.
    intros lr Hin. now apply Hrect, Hi. }
  pose proof (value_column_numeric Hrect1 Hvs Hdf2 Hvv) as Hnum.
  apply code_series_values in Hs1. apply time_series_values in Hs3.
  (* the four assignments *)
  apply (@setitem_append _ _ _ _ (fun r => r = []) int_or_na) in Ho1;
    [|reflexivity | constructor | reflexivity | exact Hs1 | exact I].
  destruct Ho1 as (Ec1 & Hr1). cbn [pd.empty columns app] in Ec1.
  apply (@setitem_append _ _ _ _
           (fun r => exists c, r = [c] /\ int_or_na c)
           (fun _ => True)) in Ho2;
    [| now rewrite Ec1
     | eapply Forall_impl; [|exact Hr1]; intros lr (old & c & -> & Hc & E);
       exists c; split; [exact E | exact Hc]
     | rewrite Ec1; exists NA; split; [reflexivity | exact I]
     | now apply Forall_forall
     | exact I].
  destruct Ho2 as (Ec2 & Hr2). rewrite Ec1 in Ec2. cbn [app] in Ec2.
  apply (@setitem_append _ _ _ _
           (fun r => exists c m, r = [c; m] /\ int_or_na c)
           int_or_na) in Ho3;
    [| now rewrite Ec2
     | eapply Forall_impl; [|exact Hr2];
       intros lr (old & m & (c & -> & Hc) & _ & E);
       exists c, m; split; [exact E | exact Hc]
     | rewrite Ec2; exists NA, NA; split; [reflexivity | exact I]
     | exact Hs3
     | exact I].
  destruct Ho3 as (Ec3 & Hr3). rewrite Ec2 in Ec3. cbn [app] in Ec3.
  assert (Hpos : pd.col_pos (columns o3) v = None).
  { rewrite Ec3. apply col_pos_None. exact Hv. }
  apply (@setitem_append _ _ _ _
           (fun r => exists c m a, r = [c; m; a] /\ int_or_na c /\ int_or_na a)
           num_or_na) in Ho4;
    [| exact Hpos
     | eapply Forall_impl; [|exact Hr3];
       intros lr (old & a & (c & m & -> & Hc) & Ha & E);
       exists c, m, a; repeat split; [exact E | exact Hc | exact Ha]
     | rewrite Ec3; exists NA, NA, NA; repeat split
     | exact Hnum
     | exact I].
  destruct Ho4 as (Ec4 & Hr4). rewrite Ec3 in Ec4. cbn [app] in Ec4.
  cbn [extra_dims fold_result] in Ho5. injection Ho5 as <-.
  (* the rows without a value go *)
  rewrite (loc_notna _ _ Hw) in H6.
  apply retype_Int64_Ok in H6.
  destruct H6 as (i & Ei & Ec6 & Er6 & Hc6).
  cbn [columns rows] in *. rewrite Ec4 in Ei.
  cbn [pd.col_pos String.eqb Ascii.eqb Bool.eqb] in Ei. injection Ei as <-.
  apply retype_Int64_Ok in Hout.
  destruct Hout as (j & Ej & Eco & Ero & Hco).
  rewrite Ec6, Ec4 in Ej.
  cbn [pd.col_pos String.eqb Ascii.eqb Bool.eqb option_map] in Ej.
  injection Ej as <-.
  split; [now rewrite Eco, Ec6, Ec4|].
  rewrite Ero, Er6. rewrite Forall_map, Forall_map.
  rewrite Er6 in Hco. rewrite Forall_map in Hco.
  apply Forall_forall. intros lr Hin.
  rewrite Forall_forall in Hc6, Hco, Hr4.
  specialize (Hc6 _ Hin). specialize (Hco _ Hin).
  apply filter_In in Hin. destruct Hin as (Hin & Hna).
  destruct (Hr4 _ Hin) as (old & x & (c & m & a & -> & Hc & Ha) & Hx & E).
  cbn [fst snd] in *. rewrite E in *. cbn [app] in *.
  cbn [pd.replace_nth pd.at_ nth] in *.
  unfold cell_of in Hna. rewrite Ec4 in Hna.
  assert (E3 : pd.col_pos ["code_muni"; "municipio"; "ano"; v] v = Some 3%nat).
  { change ["code_muni"; "municipio"; "ano"; v]
      with (["code_muni"; "municipio"; "ano"] ++ [v])%list.
    apply col_pos_app_new. now apply col_pos_None. }
  rewrite E3 in Hna. cbn [pd.at_ nth] in Hna.
  apply astype_Int64_cell_notna in Hc6. apply astype_Int64_cell_notna in Hco.
  destruct x as [s|f|z|]; try contradiction; try discriminate.
  split; [apply Hc6 | apply Hco].
Qed.

(* ------------------------------------------------------------------ *)
(** ** The order of floats *)

Lemma Qcompare_inject_Z (a b : Z) :
  (inject_Z a ?= inject_Z b)%Q = (a ?= b)%Z.
Proof. unfold Qcompare. simpl. now rewrite !Z.mul_1_r. Qed.

Lemma float_cmp_refl (x : float64) : pd.float_cmp x x = Eq.
Proof.
  destruct x; simpl; try reflexivity. apply Qeq_alt. reflexivity.
Qed.

Lemma float_cmp_antisym (x y : float64) :
  pd.float_cmp y x = CompOpp (pd.float_cmp x y).
Proof.
  destruct x, y; simpl; try reflexivity.
  unfold Qcompare. apply Z.compare_antisym.
Qed.

Lemma float_le_refl (x : float64) : float_le x x.
Proof. unfold float_le. now rewrite float_cmp_refl. Qed.

Lemma float_le_trans (x y z : float64) :
  float_le x y -> float_le y z -> float_le x z.
Proof.
  unfold float_le. destruct x, y, z; simpl; try congruence.
  intros H1 H2. rewrite <- Qle_alt in *. now apply Qle_trans with q0.
Qed.

Lemma float_le_total (x y : float64) : float_le x y \/ float_le y x.
Proof.
  unfold float_le. rewrite (float_cmp_antisym x y).
  destruct (pd.float_cmp x y); simpl; [left | left | right]; congruence.
Qed.

Lemma float_cmp_Lt_le (x y : float64) : pd.float_cmp x y = Lt -> float_le x y.
Proof. unfold float_le. congruence. Qed.

Lemma float_cmp_notLt_le (x y : float64) :
  pd.float_cmp x y <> Lt -> float_le y x.
Proof.
  unfold float_le. rewrite (float_cmp_antisym x y).
  destruct (pd.float_cmp x y); simpl; congruence.
Qed.

(* ------------------------------------------------------------------ *)
(** ** Grouping by an integer key *)

Lemma cell_cmp_Int (a b : Z) : pd.cell_cmp (Int a) (Int b) = (a ?= b)%Z.
Proof. simpl. apply Qcompare_inject_Z. Qed.

Lemma cell_max_Num (x y : float64) :
  exists m, pd.cell_max (Num x) (Num y) = Num m /\
            (m = x \/ m = y) /\ float_le x m /\ float_le y m.
Proof.
  unfold pd.cell_max. simpl. destruct (pd.float_cmp x y) eqn:E.
  - exists x. repeat split; auto using float_le_refl.
    apply float_cmp_notLt_le. congruence.
  - exists y. repeat split; auto using float_le_refl, float_cmp_Lt_le.
  - exists x. repeat split; auto using float_le_refl.
    apply float_cmp_notLt_le. congruence.
Qed.

(** What one more row does to the groups. *)
Lemma group_insert_spec (c : Z) (x : float64) (acc : list (cell * cell)) :
  Forall int_num acc ->
  StronglySorted key_lt acc ->
  let acc' := pd.group_insert (Int c) (Num x) acc in
  Forall int_num acc' /\
  StronglySorted key_lt acc' /\
  (forall c' m, c' <> c ->
     (In (Int c', Num m) acc' <-> In (Int c', Num m) acc)) /\
  (forall m, In (Int c, Num m) acc' ->
     (m = x \/ In (Int c, Num m) acc) /\ float_le x m /\
     (forall y, In (Int c, Num y) acc -> float_le y m)) /\
  (exists m, In (Int c, Num m) acc').
Proof.
  intros Hin Hs. induction acc as [|[k m0] r IH].
  - simpl. refine (conj _ (conj _ (conj _ (conj _ _)))).
    + constructor; [now exists c, x | constructor].
    + repeat constructor.
    + intros c' m Hne. split; [intros [H | []]; congruence | intros []].
    + intros m [H | []]. injection H as <-.
      split; [now left|]. split; [apply float_le_refl | intros y []].
    + exists x. now left.
  - inversion Hin as [|? ? (c0 & x0 & E0) Hin']; subst.
    injection E0 as -> ->.
    inversion Hs as [|? ? Hs' Hlt]; subst.
    specialize (IH Hin' Hs'). cbv zeta in IH.
    destruct IH as (IH1 & IH2 & IH3 & IH4 & IH5).
    cbv zeta. cbn [pd.group_insert]. rewrite cell_cmp_Int.
    assert (Hr : forall c' m, In (Int c', Num m) r -> (c0 < c')%Z).
    { intros c' m Hc'. rewrite Forall_forall in Hlt.
      apply (Hlt _ Hc'). }
    destruct (Z.compare_spec c c0) as [-> | Hlt0 | Hgt0].
    + (* the group of [c] is the first one *)
      destruct (cell_max_Num x0 x) as (m & -> & Hm & Hx0 & Hx).
      refine (conj _ (conj _ (conj _ (conj _ _)))).
      * constructor; [now exists c0, m | assumption].
      * constructor; [assumption|].
        eapply Forall_impl; [|exact Hlt]. intros [k q]. auto.
      * intros c' m' Hne. split; (intros [H | H]; [congruence | now right]).
      * intros m' H. destruct H as [H | H]; [|apply Hr in H; lia].
        injection H as <-. split; [|split].
        -- destruct Hm as [-> | ->]; [right; now left | now left].
        -- assumption.
        -- intros y [Hy | Hy]; [now injection Hy as <- | apply Hr in Hy; lia].
      * exists m. now left.
    + (* [c] comes before every group *)
      refine (conj _ (conj _ (conj _ (conj _ _)))).
      * constructor; [now exists c, x|].
        constructor; [now exists c0, x0 | assumption].
      * constructor; [assumption|]. constructor; [exact Hlt0|].
        rewrite Forall_forall in *. intros [k q] Hk.
        destruct (Hin' _ Hk) as (c' & x' & E).
        injection E as -> ->. unfold key_lt. simpl.
        specialize (Hr _ _ Hk). lia.
      * intros c' m' Hne. split; [intros [H | H]; [congruence | exact H]|].
        intros H. now right.
      * intros m' H. destruct H as [H | [H | H]];
          [| injection H as ? ?; lia | apply Hr in H; lia].
        injection H as <-. split; [now left|]. split; [apply float_le_refl|].
        intros y [Hy | Hy]; [injection Hy as ? ?; lia | apply Hr in Hy; lia].
      * exists x. now left.
    + (* [c] comes after the first group *)
      refine (conj _ (conj _ (conj _ (conj _ _)))).
      * constructor; [now exists c0, x0 | assumption].
      * constructor; [assumption|].
        rewrite Forall_forall. intros [k q] Hk.
        destruct (proj1 (Forall_forall _ _) IH1 _ Hk) as (c' & x' & E).
        injection E as -> ->. unfold key_lt. simpl.
        destruct (Z.eq_dec c' c) as [-> | Hne]; [lia|].
        apply (IH3 _ _ Hne) in Hk. apply Hr in Hk. exact Hk.
      * intros c' m' Hne.
        split; (intros [H | H]; [now left | right; now apply (IH3 _ _ Hne)]).
      * intros m' H. destruct H as [H | H]; [injection H as ? ?; lia|].
        destruct (IH4 _ H) as (Hm & Hx & Hall). split; [|split].
        -- destruct Hm as [-> | Hm]; [now left | right; now right].
        -- assumption.
        -- intros y [Hy | Hy]; [injection Hy as ? ?; lia | now apply Hall].
      * destruct IH5 as (m & Hm). exists m. now right.
Qed.

Lemma fold_group_spec (rs : list (Z * list cell)) :
  Forall (fun lr => int_num (code_area lr)) rs ->
  forall acc,
    Forall int_num acc ->
    StronglySorted key_lt acc ->
    let acc' :=
      fold_left
        (fun acc (lr : Z * list cell) =>
           if isna (pd.at_ 0 (snd lr)) then acc
           else pd.group_insert (pd.at_ 0 (snd lr)) (pd.at_ 3 (snd lr)) acc)
        rs acc in
    Forall int_num acc' /\
    StronglySorted key_lt acc' /\
    (forall c m, In (Int c, Num m) acc' ->
       (In (Int c, Num m) acc \/ In (Int c, Num m) (map code_area rs)) /\
       (forall y, In (Int c, Num y) acc \/ In (Int c, Num y) (map code_area rs) ->
                  float_le y m)) /\
    (forall c y, In (Int c, Num y) acc \/ In (Int c, Num y) (map code_area rs) ->
       exists m, In (Int c, Num m) acc').
Proof.
  induction 1 as [|lr rs (c0 & x0 & E0) _ IH]; intros acc Hin Hs; cbv zeta.
  - simpl. refine (conj Hin (conj Hs (conj _ _))).
    + intros c m H. split; [now left|]. intros y [Hy | []].
      (* two values of one group of a sorted list are the same entry *)
      clear -Hs H Hy. induction Hs as [|[k q] r Hs IH Hlt]; [contradiction|].
      rewrite Forall_forall in Hlt.
      destruct H as [H | H], Hy as [Hy | Hy].
      * injection H as -> ->. injection Hy as ->. apply float_le_refl.
      * injection H as -> ->. apply Hlt in Hy. unfold key_lt in Hy.
        simpl in Hy. lia.
      * injection Hy as -> ->. apply Hlt in H. unfold key_lt in H.
        simpl in H. lia.
      * now apply IH.
    + intros c y [H | []]. eauto.
  - unfold code_area in E0. injection E0 as Ec Ex.
    cbn [fold_left]. rewrite Ec, Ex. cbn [isna].
    destruct (group_insert_spec c0 x0 Hin Hs) as (G1 & G2 & G3 & G4 & G5).
    specialize (IH _ G1 G2). cbv zeta in IH.
    destruct IH as (I1 & I2 & I3 & I4).
    refine (conj I1 (conj I2 (conj _ _))).
    + intros c m H. destruct (I3 _ _ H) as (Hsrc & Hmax).
      cbn [map]. unfold code_area at 1 3. rewrite Ec, Ex.
      split.
      * destruct Hsrc as [Hsrc | Hsrc]; [|right; now right].
        destruct (Z.eq_dec c c0) as [-> | Hne].
        -- destruct (G4 _ Hsrc) as ([-> | Hm] & _); [right; now left | now left].
        -- left. now apply (G3 _ _ Hne).
      * intros y Hy.
        destruct Hy as [Hy | [Hy | Hy]]; [| |apply Hmax; now right].
        -- destruct (Z.eq_dec c c0) as [-> | Hne].
           ++ destruct G5 as (m1 & Hm1).
              apply float_le_trans with m1; [|apply Hmax; now left].
              exact (proj2 (proj2 (G4 _ Hm1)) _ Hy).
           ++ apply Hmax. left. now apply (G3 _ _ Hne).
        -- injection Hy as -> ->. destruct G5 as (m1 & Hm1).
           apply float_le_trans with m1; [|apply Hmax; now left].
           exact (proj1 (proj2 (G4 _ Hm1))).
    + intros c y Hy. cbn [map] in Hy. unfold code_area at 1 in Hy.
      rewrite Ec, Ex in Hy.
      destruct Hy as [Hy | [Hy | Hy]]; [| |apply (I4 c y); now right].
      * destruct (Z.eq_dec c c0) as [-> | Hne].
        -- destruct G5 as (m1 & Hm1). apply (I4 c0 m1). now left.
        -- apply (I4 c y). left. now apply (G3 _ _ Hne).
      * injection Hy as -> ->. destruct G5 as (m1 & Hm1).
        apply (I4 c m1). now left.
Qed.

Lemma sorted_keys_NoDup (acc : list (cell * cell)) :
  StronglySorted key_lt acc -> NoDup (map fst acc).
Proof.
  induction 1 as [|[k q] r Hs IH Hlt]; simpl; constructor; [|assumption].
  intros Hin. apply in_map_iff in Hin. destruct Hin as ([k' q'] & E & Hin).
  simpl in E. subst k'. rewrite Forall_forall in Hlt. apply Hlt in Hin.
  unfold key_lt in Hin. simpl in Hin. destruct k; try contradiction. lia.
Qed.

Lemma tidy_row_inv (r : list cell) :
  tidy_row r ->
  exists c m a x, r = [c; m; a; Num x] /\ int_or_na c /\ int_or_na a.
Proof.
  destruct r as [|c [|m [|a [|x [|y r]]]]]; simpl; try contradiction;
    destruct x; try contradiction.
  intros (Hc & Ha). now exists c, m, a, f.
Qed.

Lemma of_records_map {B : Type} (f : list cell -> B) (cols : list string)
  (recs : list (list cell)) :
  map (fun lr : Z * list cell => f (snd lr)) (rows (pd.of_records cols recs))
  = map f recs.
Proof.
  unfold pd.of_records, pd.RangeIndex. cbn [rows].
  generalize 0%nat. induction recs as [|r recs IH]; intros n; simpl;
    [reflexivity | now rewrite IH].
Qed.

(** The aggregated area of a tidy area table. *)
Lemma area_agg_spec (area : DataFrame) :
  tidy "area" area ->
  exists agg, area_agg area = Ok agg /\ max_area_per_code area agg.
Proof.
  intros (Ec & Hrows). destruct area as [cols rs]. cbn [columns rows] in *.
  subst cols. unfold area_agg, pd.dropna, pd.groupby_max.
  cbn [map_result pd.position pd.col_pos columns rows String.eqb Ascii.eqb
       Bool.eqb bind option_map forallb andb].
  set (kept := filter _ rs).
  assert (Hkept : Forall (fun lr => int_num (code_area lr)) kept).
  { apply Forall_forall. intros lr Hin. apply filter_In in Hin.
    destruct Hin as (Hin & Hna). rewrite Forall_forall in Hrows.
    specialize (Hrows _ Hin). unfold code_area.
    destruct (tidy_row_inv _ Hrows) as (c & m & a & x & E & Hc & _).
    rewrite E in *. cbn [pd.at_ nth] in *.
    destruct c; try contradiction; simpl in Hna; try discriminate.
    now exists z, x. }
  destruct (fold_group_spec Hkept (acc := [])) as (F1 & F2 & F3 & F4);
    [constructor | constructor|].
  cbv zeta in F1, F2, F3, F4.
  set (groups := fold_left _ kept []) in *.
  assert (Ecv : code_values "area"
                  (pd.of_records ["code_muni"; "area"]
                     (map (fun kv : cell * cell => [fst kv; snd kv]) groups))
                = groups).
  { unfold code_values, cell_of. cbn [columns].
    cbn [pd.col_pos String.eqb Ascii.eqb Bool.eqb option_map].
    rewrite (of_records_map (fun r => (pd.at_ 0 r, pd.at_ 1 r))), map_map.
    cbn [pd.at_ nth]. rewrite <- (map_id groups) at 2.
    apply map_ext. now intros [k q]. }
  assert (Esrc : forall c y,
             In (Int c, Num y) (map code_area kept) <->
             In (Int c, Num y) (code_values "area" (mkDF ["code_muni"; "municipio"; "ano"; "area"] rs))).
  { intros c y. unfold code_values, cell_of. cbn [columns rows].
    cbn [pd.col_pos String.eqb Ascii.eqb Bool.eqb option_map].
    fold code_area. unfold kept. rewrite !in_map_iff. split.
    - intros (lr & E & Hin). apply filter_In in Hin. exists lr. tauto.
    - intros (lr & E & Hin). exists lr. split; [exact E|].
      apply filter_In. split; [exact Hin|].
      unfold code_area in E. injection E as E _. simpl. now rewrite E. }
  eexists. split; [reflexivity|]. unfold max_area_per_code.
  split; [reflexivity|]. rewrite Ecv.
  refine (conj _ (conj _ (conj _ _))).
  - unfold pd.of_records. cbn [rows]. apply Forall_forall. intros [l r] Hin.
    apply in_combine_r in Hin. apply in_map_iff in Hin.
    destruct Hin as ([k q] & <- & Hin). rewrite Forall_forall in F1.
    destruct (F1 _ Hin) as (c & m & E). injection E as -> ->.
    now exists c, m.
  - now apply sorted_keys_NoDup.
  - intros c m H. destruct (F3 _ _ H) as ([[] | Hs] & Hmax). split.
    + now apply Esrc.
    + intros y Hy. apply Hmax. right. now apply Esrc.
  - intros c y Hy. apply (F4 c y). right. now apply Esrc.
Qed.

(** C9.  [build_panel] collapses the normalised area table with
    [area_agg]: the rows with a missing code are dropped and the others
    grouped by code, each group keeping its largest area.  The result
    has one row per municipality code of the area table, with the
    maximum of the areas observed for that code.  The area rows
    (10, 5.0), (10, 8.0), (11, 3.0), with a row without a code beside
    them, aggregate to 10: 8.0 and 11: 3.0. *)
Theorem C9_area_aggregation :
  (forall area_raw area,
      rectangular area_raw ->
      normalize_sidra_table area_raw "area" false = Ok area ->
      exists agg, area_agg area = Ok agg /\ max_area_per_code area agg) /\
  area_agg
    (pd.of_records ["code_muni"; "municipio"; "ano"; "area"]
       [[Int 10; Str "A"; Int 2022; Num (Fin 5)];
        [Int 10; Str "A"; Int 2010; Num (Fin 8)];
        [NA; Str "?"; Int 2022; Num (Fin 99)];
        [Int 11; Str "B"; Int 2022; Num (Fin 3)]])
  = Ok (pd.of_records ["code_muni"; "area"]
          [[Int 10; Num (Fin 8)]; [Int 11; Num (Fin 3)]]).
Proof.
  split; [|reflexivity].
  intros area_raw area Hrect H. apply area_agg_spec.
  apply (normalize_tidy Hrect) in H; [exact H|].
  simpl. intros [E | [E | [E | []]]]; discriminate.
Qed.

Lemma C9_area_aggregation_witness :
  let area_raw :=
    pd.of_records ["Município (Código)"; "Município"; "Ano"; "V"]
      [[Str "Município (Código)"; Str "Município"; Str "Ano"; Str "Valor"];
       [Str "10"; Str "A"; Str "2022"; Str "5,0"];
       [Str "10"; Str "A"; Str "2010"; Str "8,0"];
       [Str "11"; Str "B"; Str "2022"; Str "3,0"]] in
  let area :=
    mkDF ["code_muni"; "municipio"; "ano"; "area"]
      [(1%Z, [Int 10; Str "A"; Int 2022; Num (Fin 5)]);
       (2%Z, [Int 10; Str "A"; Int 2010; Num (Fin 8)]);
       (3%Z, [Int 11; Str "B"; Int 2022; Num (Fin 3)])] in
  rectangular area_raw /\
  normalize_sidra_table area_raw "area" false = Ok area /\
  exists agg, area_agg area = Ok agg /\ max_area_per_code area agg.
Proof.
  intros area_raw area.
  assert (Hrect : rectangular area_raw) by (repeat constructor).
  assert (Hnorm : normalize_sidra_table area_raw "area" false = Ok area)
    by (vm_compute; reflexivity).
  split; [exact Hrect|]. split; [exact Hnorm|].
  exact (proj1 C9_area_aggregation area_raw area Hrect Hnorm).
Defined.

(* ------------------------------------------------------------------ *)
(** ** The panel in closed form *)

Lemma combine_map_map {A B C : Type} (f : A -> B) (g : A -> C) (l : list A) :
  combine (map f l) (map g l) = map (fun x => (f x, g x)) l.
Proof. induction l as [|x r IH]; simpl; [reflexivity | now rewrite IH]. Qed.

Lemma of_records_rows (cols : list string) (recs : list (list cell)) :
  map snd (rows (pd.of_records cols recs)) = recs.
Proof.
  rewrite (of_records_map (fun r => r)). apply map_id.
Qed.

Lemma select_cols_Ok (df names : DataFrame) (cs : list string) :
  pd.select_cols df cs = Ok names -> columns names = cs.
Proof.
  unfold pd.select_cols. intros H. inv_bind H. now injection H as <-.
Qed.

Lemma series_div_rows (f g : Z * list cell -> cell) (rs : list (Z * list cell)) :
  pd.series_div (map (fun lr => (fst lr, f lr)) rs)
                (map (fun lr => (fst lr, g lr)) rs)
  = map (fun lr => (fst lr, cell_div (f lr) (g lr))) rs.
Proof.
  unfold pd.series_div. rewrite combine_map_map, map_map. reflexivity.
Qed.

(** [df[name] = s] for a series computed row by row from [df]. *)
Lemma setitem_rowwise (cols : list string) (rs : list (Z * list cell))
  (name : string) (h : Z * list cell -> cell) :
  pd.setitem (mkDF cols rs) name (map (fun lr => (fst lr, h lr)) rs)
  = Ok (mkDF (pd.with_col cols name)
          (map (fun lr : Z * list cell =>
                  (fst lr, pd.put cols name (h lr) (snd lr))) rs)).
Proof.
  rewrite setitem_same_index
    by (unfold pd.index; rewrite map_map; reflexivity).
  cbn [columns rows]. now rewrite combine_map_self, map_map.
Qed.

Lemma setitem_values_rowwise (cols : list string) (rs : list (Z * list cell))
  (name : string) (h : Z * list cell -> cell) :
  pd.setitem_values (mkDF cols rs) name (map h rs)
  = Ok (mkDF (pd.with_col cols name)
          (map (fun lr : Z * list cell =>
                  (fst lr, pd.put cols name (h lr) (snd lr))) rs)).
Proof.
  unfold pd.setitem_values, pd.len. cbn [columns rows].
  rewrite length_map, Nat.eqb_refl.
  now rewrite combine_map_self, map_map.
Qed.

Lemma per_km2_rows (f g : Z * list cell -> cell) (rs : list (Z * list cell)) :
  per_km2 (map (fun lr => (fst lr, f lr)) rs)
          (map (fun lr => (fst lr, g lr)) rs)
  = map (fun lr => if notna (g lr) && cell_gt0 (g lr)
                   then cell_div (f lr) (g lr) else NA) rs.
Proof.
  unfold per_km2, pd.np_where. rewrite series_div_rows, !map_map.
  rewrite combine_map_map, map_map. reflexivity.
Qed.

(** The derived columns on a frame whose columns are the eight merged
    ones. *)
Lemma derived_features (rs : list (Z * list cell)) :
  let panel :=
    mkDF ["code_muni"; "municipio_x"; "ano"; "pib"; "municipio_pop"; "pop";
          "municipio_y"; "area"] rs in
  (pib_s <- pd.getitem panel "pib" ;;
   pop_s <- pd.getitem panel "pop" ;;
   panel <- pd.setitem panel "pib_pc" (pd.series_div pib_s pop_s) ;;
   area_s <- pd.getitem panel "area" ;;
   pib_s <- pd.getitem panel "pib" ;;
   pd.setitem_values panel "pib_km2" (per_km2 pib_s area_s))
  = Ok (mkDF panel_columns
          (map (fun lr : Z * list cell => (fst lr, add_km2 (add_pc (snd lr)))) rs)).
Proof.
  intros panel. unfold panel.
  cbn [pd.getitem pd.position columns rows pd.col_pos String.eqb Ascii.eqb
       Bool.eqb option_map bind].
  rewrite (series_div_rows (fun lr => pd.at_ 3 (snd lr))
             (fun lr => pd.at_ 5 (snd lr))).
  rewrite (setitem_rowwise _ rs "pib_pc"
             (fun lr => cell_div (pd.at_ 3 (snd lr)) (pd.at_ 5 (snd lr)))).
  cbn [bind]. unfold pd.with_col, pd.put.
  cbn [pd.col_pos String.eqb Ascii.eqb Bool.eqb option_map app].
  set (rs' := map _ rs).
  cbn [pd.getitem pd.position columns rows pd.col_pos String.eqb Ascii.eqb
       Bool.eqb option_map bind].
  rewrite (per_km2_rows (fun lr => pd.at_ 3 (snd lr))
             (fun lr => pd.at_ 7 (snd lr)) rs').
  rewrite (setitem_values_rowwise _ rs' "pib_km2"
             (fun lr => if notna (pd.at_ 7 (snd lr)) && cell_gt0 (pd.at_ 7 (snd lr))
                        then cell_div (pd.at_ 3 (snd lr)) (pd.at_ 7 (snd lr))
                        else NA)).
  unfold pd.with_col, pd.put.
  cbn [pd.col_pos String.eqb Ascii.eqb Bool.eqb option_map app].
  unfold rs'. rewrite map_map. reflexivity.
Qed.

Lemma combine_map_snd {A B C : Type} (f : B -> C) (l : list A) (r : list B) :
  map (fun p : A * B => (fst p, f (snd p))) (combine l r)
  = combine l (map f r).
Proof.
  revert r. induction l as [|x l IH]; intros [|y r]; simpl; try reflexivity.
  now rewrite IH.
Qed.

Lemma not_reserved (v : string) :
  v = "pib" \/ v = "pop" \/ v = "area" ->
  ~ In v ["code_muni"; "municipio"; "ano"].
Proof.
  intros [-> | [-> | ->]]; simpl; intros [E | [E | [E | []]]]; discriminate.
Qed.

Lemma dropna_keys_tidy (v : string) (df : DataFrame) :
  tidy v df ->
  pd.dropna df ["code_muni"; "ano"] = Ok (mkDF (columns df) (keyed df)).
Proof.
  intros (Ec & _). unfold pd.dropna, pd.position. rewrite Ec.
  cbn [map_result pd.col_pos String.eqb Ascii.eqb Bool.eqb option_map bind].
  reflexivity.
Qed.

(** Evaluates the column labels and key positions of the joins. *)
Ltac eval_columns :=
  repeat match goal with
         | |- context [pd.merge_columns ?a ?b ?c ?d] =>
             let v := eval vm_compute in (pd.merge_columns a b c d) in
             change (pd.merge_columns a b c d) with v
         | |- context [pd.non_key_pos ?a ?b] =>
             let v := eval vm_compute in (pd.non_key_pos a b) in
             change (pd.non_key_pos a b) with v
         end.

(** [build_panel] before its sort, in closed form. *)
Lemma build_panel_unsorted_closed (mun_uf pib_raw pop_raw area_raw : DataFrame) :
  rectangular pib_raw -> rectangular pop_raw -> rectangular area_raw ->
  build_panel_unsorted mun_uf pib_raw pop_raw area_raw =
  (mun <- reference mun_uf ;;
   pib <- normalize_sidra_table pib_raw "pib" false ;;
   pop <- normalize_sidra_table pop_raw "pop" false ;;
   area <- normalize_sidra_table area_raw "area" false ;;
   agg <- area_agg area ;;
   names <- pd.select_cols mun ["code_muni"; "municipio"] ;;
   Ok (pd.of_records panel_columns (panel_rows pib pop names agg))).
Proof.
  intros Hpib Hpop Harea. unfold build_panel_unsorted.
  destruct (reference mun_uf) as [mun|e]; [cbn [bind] | reflexivity].
  destruct (normalize_sidra_table pib_raw "pib" false) as [pib|e] eqn:Epib;
    [cbn [bind] | reflexivity].
  destruct (normalize_sidra_table pop_raw "pop" false) as [pop|e] eqn:Epop;
    [cbn [bind] | reflexivity].
  destruct (normalize_sidra_table area_raw "area" false) as [area|e] eqn:Earea;
    [cbn [bind] | reflexivity].
  apply (normalize_tidy Hpib) in Epib; [|apply not_reserved; auto].
  apply (normalize_tidy Hpop) in Epop; [|apply not_reserved; auto].
  apply (normalize_tidy Harea) in Earea; [|apply not_reserved; auto].
  destruct (area_agg_spec Earea) as (agg & -> & Ecagg & _). cbn [bind].
  rewrite (dropna_keys_tidy Epib), (dropna_keys_tidy Epop). cbn [bind].
  destruct Epib as (Ecpib & _). destruct Epop as (Ecpop & _).
  rewrite Ecpib, Ecpop.
  destruct (pd.select_cols mun ["code_muni"; "municipio"]) as [names|e] eqn:En.
  2:{ unfold pd.merge.
      cbn [map_result pd.position columns pd.col_pos String.eqb Ascii.eqb
           Bool.eqb option_map bind]. reflexivity. }
  apply select_cols_Ok in En.
  destruct agg as [cagg ragg]. destruct names as [cnames rnames].
  cbn [columns] in Ecagg, En. subst cagg cnames.
  unfold pd.merge.
  cbn [map_result pd.position columns rows pd.col_pos String.eqb Ascii.eqb
       Bool.eqb option_map bind].
  eval_columns.
  rewrite of_records_rows.
  cbn [map_result pd.position columns rows pd.col_pos String.eqb Ascii.eqb
       Bool.eqb option_map bind pd.of_records].
  eval_columns.
  change (map snd (combine ?i ?r)) with (map snd (rows (pd.of_records [] r))).
  rewrite of_records_rows.
  fold (merged_rows pib pop (mkDF ["code_muni"; "municipio"] rnames)
          (mkDF ["code_muni"; "area"] ragg)).
  unfold panel_rows.
  set (m := merged_rows pib pop _ _). unfold pd.of_records.
  refine (eq_trans (derived_features (combine (pd.RangeIndex (length m)) m)) _).
  f_equal. f_equal.
  rewrite (combine_map_snd (fun row => add_km2 (add_pc row))).
  now rewrite length_map.
Qed.

(* ------------------------------------------------------------------ *)
(** ** Rows of the joins *)

Lemma join_row_Inner (lk rk rrest : list nat) (R : list (list cell))
  (l row : list cell) :
  In row (pd.join_row pd.Inner lk rk rrest R l) <->
  exists r, In r R /\ pd.keys_eqb lk rk l r = true /\
            row = (l ++ map (fun i => pd.at_ i r) rrest)%list.
Proof.
  unfold pd.join_row.
  assert (H : In row (map (fun r => (l ++ map (fun i => pd.at_ i r) rrest)%list)
                          (filter (pd.keys_eqb lk rk l) R)) <->
              exists r, In r R /\ pd.keys_eqb lk rk l r = true /\
                        row = (l ++ map (fun i => pd.at_ i r) rrest)%list).
  { rewrite in_map_iff. split.
    - intros (r & <- & Hin). apply filter_In in Hin. exists r. tauto.
    - intros (r & Hin & Hk & ->). exists r. split; [reflexivity|].
      apply filter_In. tauto. }
  destruct (filter (pd.keys_eqb lk rk l) R); exact H.
Qed.

Lemma join_row_Left (lk rk rrest : list nat) (R : list (list cell))
  (l row : list cell) :
  In row (pd.join_row pd.Left lk rk rrest R l) <->
  (exists r, In r R /\ pd.keys_eqb lk rk l r = true /\
             row = (l ++ map (fun i => pd.at_ i r) rrest)%list) \/
  ((forall r, In r R -> pd.keys_eqb lk rk l r = false) /\
   row = (l ++ repeat NA (length rrest))%list).
Proof.
  unfold pd.join_row.
  destruct (filter (pd.keys_eqb lk rk l) R) as [|r0 ms] eqn:E.
  - split.
    + intros [<- | []]. right. split; [|reflexivity].
      intros r Hin. destruct (pd.keys_eqb lk rk l r) eqn:Ek; [|reflexivity].
      assert (Hf : In r (filter (pd.keys_eqb lk rk l) R))
        by (apply filter_In; tauto).
      rewrite E in Hf. contradiction.
    + intros [(r & Hin & Hk & _) | (_ & ->)]; [|now left].
      assert (Hf : In r (filter (pd.keys_eqb lk rk l) R))
        by (apply filter_In; tauto).
      rewrite E in Hf. contradiction.
  - rewrite <- E. rewrite in_map_iff. split.
    + intros (r & <- & Hin). apply filter_In in Hin. left. exists r. tauto.
    + intros [(r & Hin & Hk & ->) | (Hno & _)].
      * exists r. split; [reflexivity|]. apply filter_In. tauto.
      * assert (Hf : In r0 (filter (pd.keys_eqb lk rk l) R))
          by (rewrite E; now left).
        apply filter_In in Hf. destruct Hf as (Hin & Hk).
        rewrite (Hno _ Hin) in Hk. discriminate.
Qed.

(** A left join keeps every row of its left side. *)
Lemma join_row_Left_nonempty (lk rk rrest : list nat) (R : list (list cell))
  (l : list cell) :
  exists suf, In (l ++ suf)%list (pd.join_row pd.Left lk rk rrest R l).
Proof.
  unfold pd.join_row.
  destruct (filter (pd.keys_eqb lk rk l) R) as [|r0 ms].
  - eexists. now left.
  - eexists. now left.
Qed.

Lemma keyed_row (v : string) (df : DataFrame) (lr : Z * list cell) :
  tidy v df -> In lr (keyed df) ->
  In lr (rows df) /\
  exists c m a x, snd lr = [Int c; m; Int a; Num x].
Proof.
  intros (_ & Ht) Hin. unfold keyed in Hin. apply filter_In in Hin.
  destruct Hin as (Hin & Hk). split; [exact Hin|].
  rewrite Forall_forall in Ht.
  destruct (tidy_row_inv _ (Ht _ Hin)) as (c & m & a & x & E & Hc & Ha).
  rewrite E in *. cbn [pd.at_ nth] in Hk.
  destruct c; try contradiction; try discriminate;
    destruct a; try contradiction; try discriminate.
  now exists z, m, z0, x.
Qed.

Lemma keyed_In (df : DataFrame) (lr : Z * list cell)
  (c a : Z) (m x : cell) :
  In lr (rows df) -> snd lr = [Int c; m; Int a; x] -> In lr (keyed df).
Proof.
  intros Hin E. unfold keyed. apply filter_In. split; [exact Hin|].
  now rewrite E.
Qed.

Lemma keys_eqb_code_year (c a c' a' : Z) (m x m' x' : cell) :
  pd.keys_eqb [0%nat; 2%nat] [0%nat; 2%nat]
    [Int c; m; Int a; x] [Int c'; m'; Int a'; x'] = true
  <-> c = c' /\ a = a'.
Proof.
  unfold pd.keys_eqb. cbn [combine forallb fst snd pd.at_ nth cell_eqb].
  rewrite !andb_true_iff, !Z.eqb_eq. tauto.
Qed.

Lemma keys_eqb_code (l r : list cell) :
  pd.keys_eqb [0%nat] [0%nat] l r = cell_eqb (pd.at_ 0 l) (pd.at_ 0 r).
Proof. unfold pd.keys_eqb. simpl. apply andb_true_r. Qed.

Lemma left_join_code (R : list (list cell)) (l row : list cell) :
  In row (pd.join_row pd.Left [0%nat] [0%nat] [1%nat] R l) <->
  exists v, attached (pd.at_ 0 l) R v /\ row = (l ++ [v])%list.
Proof.
  rewrite join_row_Left. unfold attached. cbn [map repeat length].
  split.
  - intros [(r & Hin & Hk & ->) | (Hno & ->)].
    + exists (pd.at_ 1 r). split; [|reflexivity]. left. exists r.
      rewrite keys_eqb_code in Hk. auto.
    + exists NA. split; [|reflexivity]. right. split; [|reflexivity].
      intros r Hin. rewrite <- keys_eqb_code. auto.
  - intros (v & [(r & Hin & Hk & ->) | (Hno & ->)] & ->).
    + left. exists r. rewrite keys_eqb_code. auto.
    + right. split; [|reflexivity]. intros r Hin.
      rewrite keys_eqb_code. auto.
Qed.

(** The rows of the merged table, one by one. *)
Lemma merged_rows_spec (pib pop names agg : DataFrame) (row : list cell) :
  tidy "pib" pib -> tidy "pop" pop ->
  (In row (merged_rows pib pop names agg) <->
   exists c a m x m' y nm ar,
     row = [Int c; m; Int a; Num x; m'; Num y; nm; ar] /\
     In [Int c; m; Int a; Num x] (map snd (rows pib)) /\
     In [Int c; m'; Int a; Num y] (map snd (rows pop)) /\
     attached (Int c) (map snd (rows names)) nm /\
     attached (Int c) (map snd (rows agg)) ar).
Proof.
  intros Hpib Hpop. unfold merged_rows. rewrite in_flat_map. split.
  - intros (r7 & H7 & Hrow). apply in_flat_map in H7.
    destruct H7 as (r6 & H6 & H7). apply in_flat_map in H6.
    destruct H6 as (l & Hl & H6). apply join_row_Inner in H6.
    destruct H6 as (r & Hr & Hk & ->).
    apply in_map_iff in Hl. destruct Hl as (ll & <- & Hl).
    apply in_map_iff in Hr. destruct Hr as (rr & <- & Hr).
    destruct (keyed_row _ Hpib Hl) as (Hl' & c & m & a & x & El).
    destruct (keyed_row _ Hpop Hr) as (Hr' & c' & m' & a' & y & Er).
    rewrite El, Er in *. apply keys_eqb_code_year in Hk.
    destruct Hk as (<- & <-).
    cbn [map pd.at_ nth app] in H7. apply left_join_code in H7.
    destruct H7 as (nm & Hnm & ->). cbn [app pd.at_ nth] in *.
    apply left_join_code in Hrow. destruct Hrow as (ar & Har & ->).
    cbn [app pd.at_ nth] in *.
    exists c, a, m, x, m', y, nm, ar. repeat split; try assumption.
    + rewrite <- El. now apply in_map.
    + rewrite <- Er. now apply in_map.
  - intros (c & a & m & x & m' & y & nm & ar & -> & Hl & Hr & Hnm & Har).
    apply in_map_iff in Hl. destruct Hl as (ll & El & Hl).
    apply in_map_iff in Hr. destruct Hr as (rr & Er & Hr).
    exists [Int c; m; Int a; Num x; m'; Num y; nm]. split.
    + apply in_flat_map. exists [Int c; m; Int a; Num x; m'; Num y]. split.
      * apply in_flat_map. exists [Int c; m; Int a; Num x]. split.
        -- rewrite <- El. apply in_map. eapply keyed_In; eauto.
        -- apply join_row_Inner. exists [Int c; m'; Int a; Num y].
           split; [|split; [|reflexivity]].
           ++ rewrite <- Er. apply in_map. eapply keyed_In; eauto.
           ++ now apply keys_eqb_code_year.
      * apply left_join_code. exists nm. split; [exact Hnm | reflexivity].
    + apply left_join_code. exists ar. split; [exact Har | reflexivity].
Qed.

(* ------------------------------------------------------------------ *)
(** ** The stable sort *)

Lemma insert_row_perm (keys : list (nat * bool)) (x : Z * list cell)
  (l : list (Z * list cell)) :
  Permutation (pd.insert_row keys x l) (x :: l).
Proof.
  induction l as [|y r IH]; simpl; [reflexivity|].
  destruct (pd.row_leb keys x y); [reflexivity|].
  rewrite IH. apply perm_swap.
Qed.

Lemma sort_rows_perm (keys : list (nat * bool)) (l : list (Z * list cell)) :
  Permutation (pd.sort_rows keys l) l.
Proof.
  induction l as [|x r IH]; simpl; [reflexivity|].
  rewrite insert_row_perm. now constructor.
Qed.

Section SortRows.

Variable keys : list (nat * bool).
Variable P : Z * list cell -> Prop.

Let leb (a b : Z * list cell) : Prop := pd.row_leb keys a b = true.

Hypothesis leb_total : forall a b, P a -> P b -> leb a b \/ leb b a.
Hypothesis leb_trans :
  forall a b c, P a -> P b -> P c -> leb a b -> leb b c -> leb a c.

Lemma insert_row_sorted (x : Z * list cell) (l : list (Z * list cell)) :
  P x -> Forall P l ->
  StronglySorted leb l -> StronglySorted leb (pd.insert_row keys x l).
Proof.
  intros Hx HP Hs. induction Hs as [|y r Hs IH Hy]; simpl.
  - repeat constructor.
  - inversion HP as [|? ? Py Pr]; subst.
    destruct (pd.row_leb keys x y) eqn:E.
    + constructor; [now constructor|]. constructor; [exact E|].
      rewrite Forall_forall in *. intros z Hz.
      apply (leb_trans Hx Py (Pr z Hz) E (Hy z Hz)).
    + constructor; [now apply IH|].
      assert (Hyx : leb y x).
      { destruct (leb_total Hx Py) as [H | H]; [|exact H].
        unfold leb in H. congruence. }
      rewrite Forall_forall in *. intros z Hz.
      apply (Permutation_in _ (insert_row_perm keys x r)) in Hz.
      destruct Hz as [<- | Hz]; [exact Hyx | now apply Hy].
Qed.

Lemma sort_rows_sorted (l : list (Z * list cell)) :
  Forall P l -> StronglySorted leb (pd.sort_rows keys l).
Proof.
  induction 1 as [|x r Hx Hr IH]; simpl; [constructor|].
  apply insert_row_sorted; [exact Hx | | exact IH].
  rewrite Forall_forall in *. intros z Hz. apply Hr.
  now apply (Permutation_in _ (sort_rows_perm keys r)).
Qed.

(** Rows that the keys do not tell apart stay in their order. *)
Variable p : Z * list cell -> bool.
Hypothesis p_class :
  forall a b, P a -> P b -> p a = true -> p b = true -> leb a b.

Lemma insert_row_stable (x : Z * list cell) (l : list (Z * list cell)) :
  P x -> Forall P l ->
  filter p (pd.insert_row keys x l) = filter p (x :: l).
Proof.
  intros Hx HP. induction HP as [|y r Py Pr IH]; [reflexivity|].
  cbn [pd.insert_row]. destruct (pd.row_leb keys x y) eqn:E; [reflexivity|].
  cbn [filter] in *. rewrite IH.
  destruct (p x) eqn:Ex, (p y) eqn:Ey; try reflexivity.
  pose proof (p_class Hx Py Ex Ey) as H. unfold leb in H. congruence.
Qed.

Lemma sort_rows_stable (l : list (Z * list cell)) :
  Forall P l -> filter p (pd.sort_rows keys l) = filter p l.
Proof.
  induction 1 as [|x r Hx Hr IH]; [reflexivity|].
  cbn [pd.sort_rows]. rewrite insert_row_stable.
  - cbn [filter]. now rewrite IH.
  - exact Hx.
  - rewrite Forall_forall in *. intros z Hz. apply Hr.
    now apply (Permutation_in _ (sort_rows_perm keys r)).
Qed.

End SortRows.

(** The order of two rows with a year and a value. *)
Lemma row_cmp_panel (r1 r2 : list cell) (a1 a2 : Z) (x1 x2 : float64) :
  pd.at_ 2 r1 = Int a1 -> pd.at_ 3 r1 = Num x1 ->
  pd.at_ 2 r2 = Int a2 -> pd.at_ 3 r2 = Num x2 ->
  pd.row_cmp panel_keys r1 r2 =
  match (a1 ?= a2)%Z with
  | Eq => CompOpp (pd.float_cmp x1 x2)
  | c => c
  end.
Proof.
  intros E1 E2 E3 E4. unfold panel_keys. cbn [pd.row_cmp].
  rewrite E1, E2, E3, E4. cbn [isna orb]. rewrite cell_cmp_Int.
  destruct (a1 ?= a2)%Z; try reflexivity.
  cbn [pd.cell_cmp as_float]. now destruct (pd.float_cmp x1 x2).
Qed.

Lemma row_leb_panel (r1 r2 : Z * list cell) (a1 a2 : Z) (x1 x2 : float64) :
  pd.at_ 2 (snd r1) = Int a1 -> pd.at_ 3 (snd r1) = Num x1 ->
  pd.at_ 2 (snd r2) = Int a2 -> pd.at_ 3 (snd r2) = Num x2 ->
  (pd.row_leb panel_keys r1 r2 = true <->
   (a1 < a2)%Z \/ (a1 = a2 /\ float_le x2 x1)).
Proof.
  intros E1 E2 E3 E4. unfold pd.row_leb.
  rewrite (row_cmp_panel _ _ E1 E2 E3 E4). unfold float_le.
  rewrite (float_cmp_antisym x1 x2).
  destruct (Z.compare_spec a1 a2) as [-> | H | H].
  - destruct (pd.float_cmp x1 x2); simpl; split; intros H;
      try discriminate; try reflexivity.
    + right. split; [reflexivity | discriminate].
    + destruct H as [H | (_ & H)]; [lia | congruence].
    + right. split; [reflexivity | discriminate].
  - split; [intros _; now left | reflexivity].
  - split; [discriminate | intros [H' | (H' & _)]; lia].
Qed.

Lemma row_leb_panel_total (a b : Z * list cell) :
  year_value a -> year_value b ->
  pd.row_leb panel_keys a b = true \/ pd.row_leb panel_keys b a = true.
Proof.
  intros (a1 & x1 & E1 & E2) (a2 & x2 & E3 & E4).
  rewrite (row_leb_panel _ _ E1 E2 E3 E4), (row_leb_panel _ _ E3 E4 E1 E2).
  destruct (Z.lt_total a1 a2) as [H | [H | H]]; auto.
  subst. destruct (float_le_total x1 x2); auto.
Qed.

Lemma row_leb_panel_trans (a b c : Z * list cell) :
  year_value a -> year_value b -> year_value c ->
  pd.row_leb panel_keys a b = true -> pd.row_leb panel_keys b c = true ->
  pd.row_leb panel_keys a c = true.
Proof.
  intros (a1 & x1 & E1 & E2) (a2 & x2 & E3 & E4) (a3 & x3 & E5 & E6).
  rewrite (row_leb_panel _ _ E1 E2 E3 E4), (row_leb_panel _ _ E3 E4 E5 E6),
    (row_leb_panel _ _ E1 E2 E5 E6).
  intros [H1 | (-> & H1)] [H2 | (-> & H2)]; try (left; lia).
  right. split; [reflexivity|]. now apply float_le_trans with x2.
Qed.

(* ------------------------------------------------------------------ *)
(** ** The panel, row by row *)

Lemma sort_values_panel (recs : list (list cell)) :
  pd.sort_values (pd.of_records panel_columns recs) ["ano"; "pib"] [true; false]
  = Ok (mkDF panel_columns
          (pd.sort_rows panel_keys (rows (pd.of_records panel_columns recs)))).
Proof. reflexivity. Qed.

(** What a returned panel is made of. *)
Lemma build_panel_Ok (mun_uf pib_raw pop_raw area_raw panel : DataFrame) :
  rectangular pib_raw -> rectangular pop_raw -> rectangular area_raw ->
  build_panel mun_uf pib_raw pop_raw area_raw = Ok panel ->
  exists mun pib pop area agg names,
    reference mun_uf = Ok mun /\
    normalize_sidra_table pib_raw "pib" false = Ok pib /\
    normalize_sidra_table pop_raw "pop" false = Ok pop /\
    normalize_sidra_table area_raw "area" false = Ok area /\
    area_agg area = Ok agg /\
    pd.select_cols mun ["code_muni"; "municipio"] = Ok names /\
    tidy "pib" pib /\ tidy "pop" pop /\
    build_panel_unsorted mun_uf pib_raw pop_raw area_raw
    = Ok (pd.of_records panel_columns (panel_rows pib pop names agg)) /\
    panel = pd.of_records panel_columns
              (map snd
                 (pd.sort_rows panel_keys
                    (rows (pd.of_records panel_columns
                             (panel_rows pib pop names agg))))).
Proof.
  intros Hpib Hpop Harea H. unfold build_panel in H.
  pose proof (build_panel_unsorted_closed mun_uf Hpib Hpop Harea) as Hc.
  destruct (build_panel_unsorted mun_uf pib_raw pop_raw area_raw)
    as [u|e] eqn:Eu; [|discriminate].
  symmetry in Hc. do 6 inv_bind Hc. injection Hc as <-.
  cbn [bind] in H. rewrite sort_values_panel in H. cbn [bind] in H.
  injection H as <-.
  exists x, x0, x1, x2, x3, x4. do 6 (split; [assumption|]).
  split; [apply (normalize_tidy Hpib) in E0; [exact E0|apply not_reserved; auto]|].
  split; [apply (normalize_tidy Hpop) in E1; [exact E1|apply not_reserved; auto]|].
  split; reflexivity.
Qed.

Lemma panel_rows_In (keys : list (nat * bool)) (cols : list string)
  (recs : list (list cell)) (row : list cell) :
  In row (map snd (pd.sort_rows keys (rows (pd.of_records cols recs))))
  <-> In row recs.
Proof.
  rewrite <- (of_records_rows cols recs) at 2.
  split; apply Permutation_in; [|symmetry];
    apply Permutation_map, sort_rows_perm.
Qed.

(** Every row of a returned panel, cell by cell. *)
Lemma panel_row_spec (pib pop names agg : DataFrame) (row : list cell) :
  tidy "pib" pib -> tidy "pop" pop ->
  (In row (panel_rows pib pop names agg) <->
   exists c a m x m' y nm ar,
     row = [Int c; m; Int a; Num x; m'; Num y; nm; ar;
            cell_div (Num x) (Num y);
            if notna ar && cell_gt0 ar then cell_div (Num x) ar else NA] /\
     In [Int c; m; Int a; Num x] (map snd (rows pib)) /\
     In [Int c; m'; Int a; Num y] (map snd (rows pop)) /\
     attached (Int c) (map snd (rows names)) nm /\
     attached (Int c) (map snd (rows agg)) ar).
Proof.
  intros Hpib Hpop. unfold panel_rows. rewrite in_map_iff. split.
  - intros (r8 & <- & H). apply (merged_rows_spec _ _ _ Hpib Hpop) in H.
    destruct H as (c & a & m & x & m' & y & nm & ar & -> & H).
    exists c, a, m, x, m', y, nm, ar. split; [reflexivity | exact H].
  - intros (c & a & m & x & m' & y & nm & ar & -> & H).
    exists [Int c; m; Int a; Num x; m'; Num y; nm; ar]. split; [reflexivity|].
    apply (merged_rows_spec _ _ _ Hpib Hpop).
    exists c, a, m, x, m', y, nm, ar. split; [reflexivity | exact H].
Qed.

Lemma attached_exists (c : cell) (R : list (list cell)) :
  exists v, attached c R v.
Proof.
  unfold attached.
  destruct (find (fun r => cell_eqb c (pd.at_ 0 r)) R) as [r|] eqn:E.
  - apply find_some in E. exists (pd.at_ 1 r). left. exists r. tauto.
  - exists NA. right. split; [|reflexivity].
    intros r Hin. now apply (find_none _ _ E).
Qed.

Lemma keys_tidy (v : string) (df : DataFrame) (c a : Z) :
  tidy v df ->
  (In (Int c, Int a) (keys df) <->
   exists m x, In [Int c; m; Int a; Num x] (map snd (rows df))).
Proof.
  intros (Ec & Ht). unfold keys, cell_of. rewrite Ec.
  cbn [pd.col_pos String.eqb Ascii.eqb Bool.eqb option_map].
  rewrite Forall_forall in Ht. rewrite in_map_iff. split.
  - intros (lr & E & Hin).
    destruct (tidy_row_inv _ (Ht _ Hin)) as (c' & m & a' & x & Er & _).
    rewrite Er in E. cbn [pd.at_ nth] in E. injection E as -> ->.
    exists m, x. rewrite <- Er. now apply in_map.
  - intros (m & x & Hin). apply in_map_iff in Hin.
    destruct Hin as (lr & E & Hin). exists lr. now rewrite E.
Qed.

Lemma keys_panel (recs : list (list cell)) :
  keys (pd.of_records panel_columns recs)
  = map (fun row => (pd.at_ 0 row, pd.at_ 2 row)) recs.
Proof.
  unfold keys, cell_of. cbn [columns].
  cbn [panel_columns pd.col_pos String.eqb Ascii.eqb Bool.eqb option_map].
  apply (of_records_map (fun row => (pd.at_ 0 row, pd.at_ 2 row))).
Qed.

(** C5.  The panel has a row for a pair (code_muni, ano) exactly when
    both the normalised value series and the normalised population
    series have a row with that code and that year, neither missing:
    an inner join on the two keys after the rows with a missing key are
    dropped, which the later left joins and the sort neither shrink nor
    extend.  No row of the panel has a missing code or year.  With
    value rows for the codes 1 and 2 and population rows for the codes
    2 and 3, all of 2020, the panel has the code 2 only. *)
Theorem C5_inner_join_on_code_and_year :
  (forall mun_uf pib_raw pop_raw area_raw panel pib pop,
      rectangular pib_raw -> rectangular pop_raw -> rectangular area_raw ->
      build_panel mun_uf pib_raw pop_raw area_raw = Ok panel ->
      normalize_sidra_table pib_raw "pib" false = Ok pib ->
      normalize_sidra_table pop_raw "pop" false = Ok pop ->
      (forall k, In k (keys panel) -> exists c a, k = (Int c, Int a)) /\
      (forall c a,
          In (Int c, Int a) (keys panel) <->
          In (Int c, Int a) (keys pib) /\ In (Int c, Int a) (keys pop))) /\
  (let cols := ["Município (Código)"; "Município"; "Ano"; "V"] in
   let mun_uf :=
     pd.of_records ["id_municipio"; "municipio"]
       [[Int 1; Str "Um"]; [Int 2; Str "Dois"]; [Int 3; Str "Três"]] in
   let pib_raw :=
     pd.of_records cols
       [[Str "1"; Str "Um"; Str "2020"; Str "10"];
        [Str "2"; Str "Dois"; Str "2020"; Str "20"]] in
   let pop_raw :=
     pd.of_records cols
       [[Str "2"; Str "Dois"; Str "2020"; Str "200"];
        [Str "3"; Str "Três"; Str "2020"; Str "300"]] in
   let area_raw :=
     pd.of_records cols [[Str "2"; Str "Dois"; Str "2022"; Str "7"]] in
   exists panel,
     build_panel mun_uf pib_raw pop_raw area_raw = Ok panel /\
     keys panel = [(Int 2, Int 2020)]).
Proof.
  split.
  - intros mun_uf pib_raw pop_raw area_raw panel pib pop Hpib Hpop Harea
      H Epib Epop.
    apply (build_panel_Ok _ Hpib Hpop Harea) in H.
    destruct H as (mun & pib' & pop' & area & agg & names & _ & Epib' & Epop'
                   & _ & _ & _ & Tpib & Tpop & _ & ->).
    rewrite Epib in Epib'. injection Epib' as <-.
    rewrite Epop in Epop'. injection Epop' as <-.
    rewrite keys_panel.
    assert (Hrow : forall k,
               In k (map (fun row => (pd.at_ 0 row, pd.at_ 2 row))
                       (map snd
                          (pd.sort_rows panel_keys
                             (rows (pd.of_records panel_columns
                                      (panel_rows pib pop names agg)))))) <->
               exists c a m x m' y,
                 k = (Int c, Int a) /\
                 In [Int c; m; Int a; Num x] (map snd (rows pib)) /\
                 In [Int c; m'; Int a; Num y] (map snd (rows pop))).
    { intros k. rewrite in_map_iff. split.
      - intros (row & <- & Hin). apply panel_rows_In in Hin.
        apply (panel_row_spec _ _ _ Tpib Tpop) in Hin.
        destruct Hin as (c & a & m & x & m' & y & nm & ar & -> & Hl & Hr & _).
        exists c, a, m, x, m', y. auto.
      - intros (c & a & m & x & m' & y & -> & Hl & Hr).
        destruct (attached_exists (Int c) (map snd (rows names))) as (nm & Hnm).
        destruct (attached_exists (Int c) (map snd (rows agg))) as (ar & Har).
        eexists. split; [|apply panel_rows_In, (panel_row_spec _ _ _ Tpib Tpop)].
        2:{ exists c, a, m, x, m', y, nm, ar. split; [reflexivity|]. auto. }
        reflexivity. }
    split.
    + intros k Hk. apply Hrow in Hk.
      destruct Hk as (c & a & _ & _ & _ & _ & -> & _). eauto.
    + intros c a. rewrite Hrow, (keys_tidy c a Tpib), (keys_tidy c a Tpop).
      split.
      * intros (c' & a' & m & x & m' & y & E & Hl & Hr).
        injection E as <- <-. split; eauto.
      * intros ((m & x & Hl) & (m' & y & Hr)).
        exists c, a, m, x, m', y. auto.
  - cbv zeta. eexists. split; [vm_compute; reflexivity | reflexivity].
Qed.

Lemma C5_inner_join_on_code_and_year_witness :
  let cols := ["Município (Código)"; "Município"; "Ano"; "V"] in
  let mun_uf :=
    pd.of_records ["id_municipio"; "municipio"]
      [[Int 1; Str "Um"]; [Int 2; Str "Dois"]; [Int 3; Str "Três"]] in
  let pib_raw :=
    pd.of_records cols
      [[Str "Município (Código)"; Str "Município"; Str "Ano"; Str "Valor"];
       [Str "1"; Str "Um"; Str "2020"; Str "10"];
       [Str "2"; Str "Dois"; Str "2020"; Str "20"];
       [Str "2"; Str "Dois"; Str "2021"; Str "..."]] in
  let pop_raw :=
    pd.of_records cols
      [[Str "2"; Str "Dois"; Str "2020"; Str "200"];
       [Str "3"; Str "Três"; Str "2020"; Str "300"]] in
  let area_raw :=
    pd.of_records cols [[Str "2"; Str "Dois"; Str "2022"; Str "7"]] in
  let pib :=
    mkDF ["code_muni"; "municipio"; "ano"; "pib"]
      [(1%Z, [Int 1; Str "Um"; Int 2020; Num (Fin 10)]);
       (2%Z, [Int 2; Str "Dois"; Int 2020; Num (Fin 20)])] in
  let pop :=
    mkDF ["code_muni"; "municipio"; "ano"; "pop"]
      [(0%Z, [Int 2; Str "Dois"; Int 2020; Num (Fin 200)]);
       (1%Z, [Int 3; Str "Três"; Int 2020; Num (Fin 300)])] in
  let panel :=
    mkDF panel_columns
      [(0%Z, [Int 2; Str "Dois"; Int 2020; Num (Fin 20); Str "Dois";
              Num (Fin 200); Str "Dois"; Num (Fin 7); Num (Fin (1 # 10));
              Num (Fin (20 # 7))])] in
  rectangular pib_raw /\ rectangular pop_raw /\ rectangular area_raw /\
  build_panel mun_uf pib_raw pop_raw area_raw = Ok panel /\
  normalize_sidra_table pib_raw "pib" false = Ok pib /\
  normalize_sidra_table pop_raw "pop" false = Ok pop /\
  (forall k, In k (keys panel) -> exists c a, k = (Int c, Int a)) /\
  (forall c a,
      In (Int c, Int a) (keys panel) <->
      In (Int c, Int a) (keys pib) /\ In (Int c, Int a) (keys pop)).
Proof.
  intros cols mun_uf pib_raw pop_raw area_raw pib pop panel.
  assert (H1 : rectangular pib_raw) by (repeat constructor).
  assert (H2 : rectangular pop_raw) by (repeat constructor).
  assert (H3 : rectangular area_raw) by (repeat constructor).
  assert (H4 : build_panel mun_uf pib_raw pop_raw area_raw = Ok panel)
    by (vm_compute; reflexivity).
  assert (H5 : normalize_sidra_table pib_raw "pib" false = Ok pib)
    by (vm_compute; reflexivity).
  assert (H6 : normalize_sidra_table pop_raw "pop" false = Ok pop)
    by (vm_compute; reflexivity).
  do 6 (split; [assumption|]).
  exact (proj1 C5_inner_join_on_code_and_year
           mun_uf pib_raw pop_raw area_raw panel pib pop H1 H2 H3 H4 H5 H6).
Defined.

(** C3.  In every row of the panel [pib_pc] is the value divided by the
    population, without any guard: a zero population gives an infinite
    or undefined quotient, a missing one a missing quotient.  [pib_km2]
    is the value divided by the area when the area is known and
    positive, and is missing otherwise.  A row with value 100,
    population 20 and area 10 has [pib_pc] 5 and [pib_km2] 10; with
    area 0 it has no [pib_km2] and still [pib_pc] 5; with population 0
    its [pib_pc] is infinite. *)
Theorem C3_derived_metrics :
  (forall mun_uf pib_raw pop_raw area_raw panel,
      rectangular pib_raw -> rectangular pop_raw -> rectangular area_raw ->
      build_panel mun_uf pib_raw pop_raw area_raw = Ok panel ->
      forall lr, In lr (rows panel) ->
        let pib := cell_of panel "pib" (snd lr) in
        let pop := cell_of panel "pop" (snd lr) in
        let area := cell_of panel "area" (snd lr) in
        cell_of panel "pib_pc" (snd lr) = cell_div pib pop /\
        cell_of panel "pib_km2" (snd lr) =
          (if notna area && cell_gt0 area then cell_div pib area else NA)) /\
  (cell_div (Num (Fin 100)) (Num (Fin 0)) = Num PInf /\
   cell_div (Num (Fin 0)) (Num (Fin 0)) = NA /\
   forall x, cell_div x NA = NA) /\
  (let cols := ["Município (Código)"; "Ano"; "V"] in
   let mun_uf := pd.of_records ["id_municipio"; "municipio"] [[Int 1; Str "Um"]] in
   let pib_raw := pd.of_records cols [[Str "1"; Str "2020"; Str "100"]] in
   let metrics area pop :=
     match build_panel mun_uf pib_raw
             (pd.of_records cols [[Str "1"; Str "2020"; Str pop]])
             (pd.of_records cols [[Str "1"; Str "2020"; Str area]]) with
     | Ok panel =>
         map (fun lr : Z * list cell =>
                (cell_of panel "pib_pc" (snd lr), cell_of panel "pib_km2" (snd lr)))
             (rows panel)
     | Raise _ => []
     end in
   metrics "10" "20" = [(Num (Fin 5), Num (Fin 10))] /\
   metrics "0" "20" = [(Num (Fin 5), NA)] /\
   metrics "10" "0" = [(Num PInf, Num (Fin 10))]).
Proof.
  split; [|split].
  - intros mun_uf pib_raw pop_raw area_raw panel Hpib Hpop Harea H lr Hin.
    apply (build_panel_Ok _ Hpib Hpop Harea) in H.
    destruct H as (mun & pib & pop & area & agg & names & _ & _ & _
                   & _ & _ & _ & Tpib & Tpop & _ & ->).
    apply (in_map snd) in Hin. rewrite of_records_rows in Hin.
    apply panel_rows_In in Hin. apply (panel_row_spec _ _ _ Tpib Tpop) in Hin.
    destruct Hin as (c & a & m & x & m' & y & nm & ar & -> & _).
    cbv zeta. unfold cell_of. cbn [columns].
    cbn [panel_columns pd.col_pos String.eqb Ascii.eqb Bool.eqb option_map
         pd.at_ nth].
    split; reflexivity.
  - split; [reflexivity|]. split; [reflexivity|].
    intros x. unfold cell_div. now destruct (as_float x).
  - cbv zeta. repeat split; vm_compute; reflexivity.
Qed.

Lemma C3_derived_metrics_witness :
  let cols := ["Município (Código)"; "Ano"; "V"] in
  let mun_uf := pd.of_records ["id_municipio"; "municipio"] [[Int 1; Str "Um"]] in
  let pib_raw := pd.of_records cols [[Str "1"; Str "2020"; Str "100"]] in
  let pop_raw := pd.of_records cols [[Str "1"; Str "2020"; Str "20"]] in
  let area_raw := pd.of_records cols [[Str "1"; Str "2020"; Str "10"]] in
  let row := [Int 1; Str ""; Int 2020; Num (Fin 100); Str ""; Num (Fin 20);
              Str "Um"; Num (Fin 10); Num (Fin 5); Num (Fin 10)] in
  let panel := mkDF panel_columns [(0%Z, row)] in
  rectangular pib_raw /\ rectangular pop_raw /\ rectangular area_raw /\
  build_panel mun_uf pib_raw pop_raw area_raw = Ok panel /\
  In (0%Z, row) (rows panel) /\
  cell_of panel "pib_pc" row
  = cell_div (cell_of panel "pib" row) (cell_of panel "pop" row) /\
  cell_of panel "pib_km2" row
  = (if notna (cell_of panel "area" row) && cell_gt0 (cell_of panel "area" row)
     then cell_div (cell_of panel "pib" row) (cell_of panel "area" row)
     else NA).
Proof.
  intros cols mun_uf pib_raw pop_raw area_raw row panel.
  assert (H1 : rectangular pib_raw) by (repeat constructor).
  assert (H2 : rectangular pop_raw) by (repeat constructor).
  assert (H3 : rectangular area_raw) by (repeat constructor).
  assert (H4 : build_panel mun_uf pib_raw pop_raw area_raw = Ok panel)
    by (vm_compute; reflexivity).
  assert (H5 : In (0%Z, row) (rows panel)) by (left; reflexivity).
  do 5 (split; [assumption|]).
  exact (proj1 C3_derived_metrics
           mun_uf pib_raw pop_raw area_raw panel H1 H2 H3 H4 (0%Z, row) H5).
Defined.

(* ------------------------------------------------------------------ *)
(** ** The order of the panel *)

Lemma StronglySorted_map_on {A B : Type} (R : A -> A -> Prop)
  (R' : B -> B -> Prop) (P : A -> Prop) (f : A -> B) (l : list A) :
  (forall a b, P a -> P b -> R a b -> R' (f a) (f b)) ->
  Forall P l -> StronglySorted R l -> StronglySorted R' (map f l).
Proof.
  intros HR HP Hs. induction Hs as [|x r Hs IH Hx]; simpl; [constructor|].
  inversion HP as [|? ? Px Pr]; subst.
  constructor; [now apply IH|].
  rewrite Forall_forall in *. intros y Hy. apply in_map_iff in Hy.
  destruct Hy as (z & <- & Hz). apply HR; auto.
Qed.

Lemma filter_map {A B : Type} (p : B -> bool) (f : A -> B) (l : list A) :
  filter p (map f l) = map f (filter (fun a => p (f a)) l).
Proof.
  induction l as [|x r IH]; simpl; [reflexivity|].
  destruct (p (f x)); simpl; now rewrite IH.
Qed.

Lemma float_eqb_le (x1 x2 x : float64) :
  float_eqb x1 x = true -> float_eqb x2 x = true -> float_le x2 x1.
Proof.
  unfold float_le. destruct x1, x2, x; simpl; try discriminate.
  intros H1 H2. apply Qeq_bool_eq in H1, H2.
  rewrite <- Qle_alt. rewrite H1, H2. apply Qle_refl.
Qed.

Lemma panel_rows_year_value (pib pop names agg : DataFrame) :
  tidy "pib" pib -> tidy "pop" pop ->
  Forall year_value (rows (pd.of_records panel_columns
                             (panel_rows pib pop names agg))).
Proof.
  intros Tpib Tpop. apply Forall_forall. intros lr Hin.
  apply (in_map snd) in Hin. rewrite of_records_rows in Hin.
  apply (panel_row_spec _ _ _ Tpib Tpop) in Hin.
  destruct Hin as (c & a & m & x & m' & y & nm & ar & E & _).
  exists a, x. rewrite E. split; reflexivity.
Qed.

Lemma cell_of_panel (recs : list (list cell)) (row : list cell) :
  cell_of (pd.of_records panel_columns recs) "ano" row = pd.at_ 2 row /\
  cell_of (pd.of_records panel_columns recs) "pib" row = pd.at_ 3 row.
Proof. split; reflexivity. Qed.

(** C4.  The rows of the panel are in ascending order of the year and,
    within a year, in descending order of the value: of two rows, the
    earlier one has the smaller year or, in the same year, a value that
    is not smaller.  The rows are those of the merged table, and the
    sort is stable: rows with the same year and the same value keep the
    order they have in the merged table.  With the values 50 and 80 in
    2021 and 999 in 2020, the row of 2020 comes first, then 80, then
    50. *)
Theorem C4_ordering :
  (forall mun_uf pib_raw pop_raw area_raw panel,
      rectangular pib_raw -> rectangular pop_raw -> rectangular area_raw ->
      build_panel mun_uf pib_raw pop_raw area_raw = Ok panel ->
      StronglySorted (precedes panel) (map snd (rows panel)) /\
      exists merged,
        build_panel_unsorted mun_uf pib_raw pop_raw area_raw = Ok merged /\
        Permutation (map snd (rows panel)) (map snd (rows merged)) /\
        forall a x,
          filter (has_key panel a x) (map snd (rows panel))
          = filter (has_key panel a x) (map snd (rows merged))) /\
  (let cols := ["Município (Código)"; "Ano"; "V"] in
   let mun_uf := pd.of_records ["id_municipio"; "municipio"] [[Int 1; Str "Um"]] in
   let pib_raw :=
     pd.of_records cols
       [[Str "1"; Str "2021"; Str "50"]; [Str "2"; Str "2021"; Str "80"];
        [Str "1"; Str "2020"; Str "999"]] in
   let pop_raw :=
     pd.of_records cols
       [[Str "1"; Str "2021"; Str "7"]; [Str "2"; Str "2021"; Str "7"];
        [Str "1"; Str "2020"; Str "7"]] in
   let area_raw := pd.of_records cols [] in
   exists panel,
     build_panel mun_uf pib_raw pop_raw area_raw = Ok panel /\
     map (fun lr : Z * list cell =>
            (cell_of panel "ano" (snd lr), cell_of panel "pib" (snd lr)))
         (rows panel)
     = [(Int 2020, Num (Fin 999)); (Int 2021, Num (Fin 80));
        (Int 2021, Num (Fin 50))]).
Proof.
  split.
  - intros mun_uf pib_raw pop_raw area_raw panel Hpib Hpop Harea H.
    apply (build_panel_Ok _ Hpib Hpop Harea) in H.
    destruct H as (mun & pib & pop & area & agg & names & _ & _ & _
                   & _ & _ & _ & Tpib & Tpop & Eu & ->).
    rewrite of_records_rows.
    pose proof (panel_rows_year_value names agg Tpib Tpop) as Hyv.
    set (L := rows (pd.of_records panel_columns (panel_rows pib pop names agg)))
      in *.
    assert (Hyv' : Forall year_value (pd.sort_rows panel_keys L)).
    { rewrite Forall_forall in *. intros z Hz. apply Hyv.
      now apply (Permutation_in _ (sort_rows_perm panel_keys L)). }
    split.
    + apply (@StronglySorted_map_on _ _
               (fun a b => pd.row_leb panel_keys a b = true) _
               year_value snd); [| exact Hyv' |].
      * intros r1 r2 (a1 & x1 & E1 & E2) (a2 & x2 & E3 & E4) Hle.
        apply (row_leb_panel _ _ E1 E2 E3 E4) in Hle.
        exists a1, a2, x1, x2.
        rewrite !(proj1 (cell_of_panel _ _)), !(proj2 (cell_of_panel _ _)).
        auto.
      * apply (@sort_rows_sorted panel_keys year_value);
          [apply row_leb_panel_total | apply row_leb_panel_trans | exact Hyv].
    + exists (pd.of_records panel_columns (panel_rows pib pop names agg)).
      split; [exact Eu|]. fold L. split.
      * apply Permutation_map, sort_rows_perm.
      * intros a x. rewrite !filter_map. f_equal.
        apply (@sort_rows_stable panel_keys year_value); [|exact Hyv].
        intros r1 r2 (a1 & x1 & E1 & E2) (a2 & x2 & E3 & E4) K1 K2.
        apply (row_leb_panel _ _ E1 E2 E3 E4).
        unfold has_key in K1, K2.
        rewrite (proj1 (cell_of_panel _ (snd r1))),
          (proj2 (cell_of_panel _ (snd r1))) in K1.
        rewrite (proj1 (cell_of_panel _ (snd r2))),
          (proj2 (cell_of_panel _ (snd r2))) in K2.
        rewrite E1, E2 in K1. rewrite E3, E4 in K2.
        apply andb_true_iff in K1, K2. cbn [cell_eqb as_float] in K1, K2.
        destruct K1 as (K1 & K1'), K2 as (K2 & K2').
        apply Z.eqb_eq in K1, K2. subst a1 a2.
        right. split; [reflexivity|]. now apply float_eqb_le with x.
  - cbv zeta. eexists. split; [vm_compute; reflexivity | reflexivity].
Qed.

Lemma C4_ordering_witness :
  let cols := ["Município (Código)"; "Ano"; "V"] in
  let mun_uf := pd.of_records ["id_municipio"; "municipio"] [[Int 1; Str "Um"]] in
  let pib_raw :=
    pd.of_records cols
      [[Str "1"; Str "2021"; Str "50"]; [Str "2"; Str "2021"; Str "80"];
       [Str "1"; Str "2020"; Str "999"]] in
  let pop_raw :=
    pd.of_records cols
      [[Str "1"; Str "2021"; Str "7"]; [Str "2"; Str "2021"; Str "7"];
       [Str "1"; Str "2020"; Str "7"]] in
  let area_raw := pd.of_records cols [] in
  let panel :=
    mkDF panel_columns
      [(0%Z, [Int 1; Str ""; Int 2020; Num (Fin 999); Str ""; Num (Fin 7);
              Str "Um"; NA; Num (Fin (999 # 7)); NA]);
       (1%Z, [Int 2; Str ""; Int 2021; Num (Fin 80); Str ""; Num (Fin 7);
              NA; NA; Num (Fin (80 # 7)); NA]);
       (2%Z, [Int 1; Str ""; Int 2021; Num (Fin 50); Str ""; Num (Fin 7);
              Str "Um"; NA; Num (Fin (50 # 7)); NA])] in
  rectangular pib_raw /\ rectangular pop_raw /\ rectangular area_raw /\
  build_panel mun_uf pib_raw pop_raw area_raw = Ok panel /\
  StronglySorted (precedes panel) (map snd (rows panel)) /\
  exists merged,
    build_panel_unsorted mun_uf pib_raw pop_raw area_raw = Ok merged /\
    Permutation (map snd (rows panel)) (map snd (rows merged)) /\
    forall a x,
      filter (has_key panel a x) (map snd (rows panel))
      = filter (has_key panel a x) (map snd (rows merged)).
Proof.
  intros cols mun_uf pib_raw pop_raw area_raw panel.
  assert (H1 : rectangular pib_raw) by (repeat constructor).
  assert (H2 : rectangular pop_raw) by (repeat constructor).
  assert (H3 : rectangular area_raw) by (repeat constructor).
  assert (H4 : build_panel mun_uf pib_raw pop_raw area_raw = Ok panel)
    by (vm_compute; reflexivity).
  do 4 (split; [assumption|]).
  exact (proj1 C4_ordering mun_uf pib_raw pop_raw area_raw panel H1 H2 H3 H4).
Defined.

(* ------------------------------------------------------------------ *)
(** ** Where the values of a tidy table come from *)

(** The [__value__] column of the working copy, label by label. *)
Lemma value_column_source (df1 df2 : DataFrame) (vs vv : Series) :
  rectangular df1 ->
  pd.getitem df1 "V" = Ok vs ->
  pd.setitem df1 "__value__" (_coerce_numeric vs) = Ok df2 ->
  pd.getitem df2 "__value__" = Ok vv ->
  Forall (fun lv : Z * cell =>
            exists r, In (fst lv, r) (rows df1) /\
                      snd lv = _coerce_numeric_cell (cell_of df1 "V" r)) vv.
Proof.
  intros Hrect Hvs H2 Hvv.
  apply getitem_Ok in Hvs. destruct Hvs as (iV & EV & ->).
  unfold _coerce_numeric, pd.series_map in H2. rewrite map_map in H2.
  cbn [fst snd] in H2.
  destruct df1 as [cols rs]. cbn [columns rows] in *.
  rewrite (setitem_rowwise cols rs "__value__"
             (fun lr => _coerce_numeric_cell (pd.at_ iV (snd lr)))) in H2.
  injection H2 as <-. apply getitem_Ok in Hvv. cbn [columns rows] in Hvv.
  destruct Hvv as (i & Ei & ->). rewrite map_map. cbn [fst snd].
  apply Forall_forall. intros lv Hin. apply in_map_iff in Hin.
  destruct Hin as ([l r] & <- & Hin). cbn [fst snd].
  unfold rectangular in Hrect. rewrite Forall_forall in Hrect.
  pose proof (Hrect _ Hin) as Hlen. cbn [snd columns] in Hlen.
  rewrite (at_put _ _ _ _ Hlen Ei).
  exists r. split; [exact Hin|]. unfold cell_of. cbn [columns]. now rewrite EV.
Qed.

Lemma normalize_value_source (raw out : DataFrame) (v : string) :
  rectangular raw ->
  ~ In v ["code_muni"; "municipio"; "ano"] ->
  normalize_sidra_table raw v false = Ok out ->
  Forall (fun lr : Z * list cell =>
            exists r, In (fst lr, r) (rows raw) /\
                      cell_of out v (snd lr)
                      = _coerce_numeric_cell (cell_of raw "V" r))
         (rows out).
Proof.
  intros Hrect Hv H. pose proof (normalize_tidy Hrect Hv H) as (Eco & Tout).
  apply normalize_steps in H.
  destruct H as (df1 & vs & df2 & s1 & o1 & s2 & o2 & s3 & o3 & vv & o4 & o5
                 & w & o6 & Hd & _ & Hvs & Hdf2 & _ & Ho1 & _ & Ho2 & _
                 & Ho3 & Hvv & Ho4 & Ho5 & Hw & H6 & Hout).
  apply drop_header_rows in Hd. destruct Hd as (Ec1 & Hincl).
  assert (Hrect1 : rectangular df1).
  { unfold rectangular in *. rewrite Ec1. rewrite Forall_forall in *.
    intros lr Hin. now apply Hrect, Hincl. }
  pose proof (value_column_source Hrect1 Hvs Hdf2 Hvv) as Hsrc.
  (* the columns before the value is assigned *)
  apply setitem_rows in Ho1. destruct Ho1 as (E1 & _).
  apply setitem_rows in Ho2. destruct Ho2 as (E2 & _).
  apply setitem_rows in Ho3. destruct Ho3 as (E3 & _).
  rewrite E1 in E2. rewrite E2 in E3. cbn in E3.
  apply setitem_rows in Ho4. destruct Ho4 as (E4 & Hr4).
  assert (Hpos : pd.col_pos (columns o3) v = None)
    by (rewrite E3; now apply col_pos_None).
  unfold pd.with_col in E4. rewrite Hpos, E3 in E4. cbn [app] in E4.
  cbn [extra_dims fold_result] in Ho5. injection Ho5 as <-.
  rewrite (loc_notna _ _ Hw) in H6.
  apply retype_Int64_Ok in H6. destruct H6 as (i & Ei & Ec6 & Er6 & _).
  cbn [columns rows] in *. rewrite E4 in Ei.
  cbn [pd.col_pos String.eqb Ascii.eqb Bool.eqb] in Ei. injection Ei as <-.
  apply retype_Int64_Ok in Hout. destruct Hout as (j & Ej & _ & Ero & _).
  rewrite Ec6, E4 in Ej.
  cbn [pd.col_pos String.eqb Ascii.eqb Bool.eqb option_map] in Ej.
  injection Ej as <-.
  assert (E3v : pd.col_pos ["code_muni"; "municipio"; "ano"; v] v = Some 3%nat).
  { change ["code_muni"; "municipio"; "ano"; v]
      with (["code_muni"; "municipio"; "ano"] ++ [v])%list.
    apply col_pos_app_new. now apply col_pos_None. }
  rewrite Forall_forall in Tout. apply Forall_forall. intros lr Hin.
  pose proof (Tout _ Hin) as Hshape. apply tidy_row_inv in Hshape.
  destruct Hshape as (c & m & a & x & Erow & _).
  rewrite Ero, Er6 in Hin. rewrite map_map in Hin. apply in_map_iff in Hin.
  destruct Hin as (lr4 & <- & Hin). cbn [fst snd] in *.
  apply filter_In in Hin. destruct Hin as (Hin & _).
  rewrite Forall_forall in Hr4.
  destruct (Hr4 _ Hin) as (val & old & Hval & _ & E).
  unfold pd.put in E. rewrite Hpos in E.
  unfold cell_of. rewrite Eco, E3v.
  rewrite !at_replace_nth_other by discriminate.
  (* the row has four cells, so the value is the fourth *)
  assert (Hlen : length (snd lr4) = 4%nat).
  { apply (f_equal (@length cell)) in Erow.
    now rewrite !length_replace_nth in Erow. }
  rewrite E in Hlen |- *. rewrite length_app in Hlen. cbn [length] in Hlen.
  assert (E3o : pd.at_ 3 (old ++ [val]) = val).
  { unfold pd.at_. replace 3%nat with (length old) by lia. apply nth_middle. }
  rewrite E3o.
  assert (Hx : val = Num x).
  { apply (f_equal (pd.at_ 3)) in Erow.
    rewrite !at_replace_nth_other in Erow by discriminate.
    rewrite E, E3o in Erow. exact Erow. }
  destruct Hval as [Hval | ->]; [|discriminate].
  rewrite Forall_forall in Hsrc. destruct (Hsrc _ Hval) as (r & Hr & Es).
  cbn [fst snd] in *. exists r. split; [now apply Hincl|].
  rewrite Es. unfold cell_of. now rewrite Ec1.
Qed.

(** The series behind [code_muni] and [ano]: plain numeric parsing of
    a column, cast to Int64, or missing values. *)
Lemma code_series_plain (df : DataFrame) (mc : option string) (s : Series) :
  code_series df mc = Ok s ->
  s = all_missing df \/
  exists col t, pd.getitem df col = Ok t /\
                pd.astype_Int64 (pd.to_numeric t) = Ok s.
Proof.
  unfold code_series, int_column. intros H.
  destruct (chosen mc) as [c|].
  - inv_bind H. right. eauto.
  - cbv zeta in H. destruct (chosen (_find_col _ _ _)) as [c|].
    + inv_bind H. right. eauto.
    + injection H as <-. now left.
Qed.

Lemma time_series_plain (df : DataFrame) (tc : option string) (s : Series) :
  time_series df tc = Ok s ->
  s = all_missing df \/
  exists col t, pd.getitem df col = Ok t /\
                pd.astype_Int64 (pd.to_numeric t) = Ok s.
Proof.
  unfold time_series, int_column. intros H.
  destruct (chosen tc) as [c|].
  - inv_bind H. right. eauto.
  - injection H as <-. now left.
Qed.

(** C6 (as amended).  The coercion of [_coerce_numeric] reads the raw
    value as text, removes every [.], turns every [,] into [.] and
    parses the result as a number; a text that is not a number becomes
    a missing value, never an exception.  It is applied to the value
    column: every value of a tidy table is the coercion of the [V] of
    the raw row with the same label.  The code and year columns are not
    rewritten: they are parsed as plain numbers and cast to nullable
    integers.  ["1.234,56"] coerces to 1234.56, ["12,5"] to 12.5 and a
    non-numeric text to a missing value. *)
Theorem C6_numeric_coercion :
  (forall s,
      _coerce_numeric_cell (Str s)
      = Parse.to_numeric_str
          (replace_char ","%char "."%char (remove_char "."%char s))) /\
  (exists q, _coerce_numeric_cell (Str "1.234,56") = Num (Fin q) /\
             Qeq q (123456 # 100)) /\
  (exists q, _coerce_numeric_cell (Str "12,5") = Num (Fin q) /\
             Qeq q (125 # 10)) /\
  _coerce_numeric_cell (Str "Valor") = NA /\
  _coerce_numeric_cell (Str "...") = NA /\
  (forall raw v out,
      rectangular raw ->
      ~ In v ["code_muni"; "municipio"; "ano"] ->
      normalize_sidra_table raw v false = Ok out ->
      Forall (fun lr : Z * list cell =>
                exists r, In (fst lr, r) (rows raw) /\
                          cell_of out v (snd lr)
                          = _coerce_numeric_cell (cell_of raw "V" r))
             (rows out)) /\
  (forall df col s,
      (code_series df col = Ok s \/ time_series df col = Ok s) ->
      s = all_missing df \/
      exists c t, pd.getitem df c = Ok t /\
                  pd.astype_Int64 (pd.to_numeric t) = Ok s).
Proof.
  split; [reflexivity|].
  split; [eexists; split; [vm_compute; reflexivity | reflexivity]|].
  split; [eexists; split; [vm_compute; reflexivity | reflexivity]|].
  split; [reflexivity|]. split; [reflexivity|].
  split; [intros raw v out; apply normalize_value_source|].
  intros df col s [H | H];
    [now apply code_series_plain in H | now apply time_series_plain in H].
Qed.

Lemma C6_numeric_coercion_witness :
  let raw :=
    pd.of_records ["Município (Código)"; "Ano"; "V"]
      [[Str "Município (Código)"; Str "Ano"; Str "Valor"];
       [Str "5208707"; Str "2020"; Str "1.234,56"]] in
  let out :=
    mkDF ["code_muni"; "municipio"; "ano"; "pib"]
      [(1%Z, [Int 5208707; NA; Int 2020; Num (Fin (30864 # 25))])] in
  rectangular raw /\
  ~ In "pib" ["code_muni"; "municipio"; "ano"] /\
  normalize_sidra_table raw "pib" false = Ok out /\
  Forall (fun lr : Z * list cell =>
            exists r, In (fst lr, r) (rows raw) /\
                      cell_of out "pib" (snd lr)
                      = _coerce_numeric_cell (cell_of raw "V" r))
         (rows out).
Proof.
  intros raw out.
  assert (H1 : rectangular raw) by (repeat constructor).
  assert (H2 : ~ In "pib" ["code_muni"; "municipio"; "ano"])
    by (apply not_reserved; auto).
  assert (H3 : normalize_sidra_table raw "pib" false = Ok out)
    by (vm_compute; reflexivity).
  do 3 (split; [assumption|]).
  exact (proj1 (proj2 (proj2 (proj2 (proj2 (proj2 C6_numeric_coercion)))))
           raw "pib" out H1 H2 H3).
Defined.

(** C6 as stated fails on the code and year columns: with the code
    ["52,0"] and the year ["2020,0"] the stated coercion would give the
    code 52 and the year 2020, while the tidy table has both missing
    (a comma is no part of a plain number). *)
Lemma C6_counterexample :
  let raw :=
    pd.of_records ["Município (Código)"; "Ano"; "V"]
      [[Str "52,0"; Str "2020,0"; Str "1.234,56"]] in
  let stated col :=
    s <- pd.getitem raw col ;; pd.astype_Int64 (_coerce_numeric s) in
  let found col :=
    out <- normalize_sidra_table raw "pib" false ;; pd.getitem out col in
  stated "Município (Código)" = Ok [(0%Z, Int 52)] /\
  found "code_muni" = Ok [(0%Z, NA)] /\
  stated "Ano" = Ok [(0%Z, Int 2020)] /\
  found "ano" = Ok [(0%Z, NA)] /\
  found "code_muni" <> stated "Município (Código)" /\
  found "ano" <> stated "Ano".
Proof.
  cbv zeta. repeat split; try (vm_compute; reflexivity);
    vm_compute; discriminate.
Qed.

(** C2 fails on the code: a table that has its [V] column makes
    [normalize_sidra_table] raise as soon as the code column or the
    time column it discovers holds a number that is not an integer: the
    plain parse succeeds and the cast to the nullable integer type
    refuses the value. *)
Theorem C2_non_integral_code_or_year_raises :
  let year_raw :=
    pd.of_records ["Município (Código)"; "Ano"; "V"]
      [[Str "5208707"; Str "2020.5"; Str "10"]] in
  let code_raw :=
    pd.of_records ["Município (Código)"; "Ano"; "V"]
      [[Str "1.5"; Str "2020"; Str "10"]] in
  In "V" (columns year_raw) /\
  normalize_sidra_table year_raw "pib" false = Raise pd.unsafe_cast /\
  In "V" (columns code_raw) /\
  normalize_sidra_table code_raw "pib" false = Raise pd.unsafe_cast.
Proof.
  cbv zeta. repeat split; try (vm_compute; reflexivity); simpl; auto.
Qed.

(** C1 fails on the code: the panel has no column named [municipio].
    The join with the reference meets the name column that the value
    table brought, so the two are renamed [municipio_x] (the spelling of
    the value table) and [municipio_y] (the spelling of the reference),
    beside the [municipio_pop] of the population table.  A code absent
    from the reference keeps its row, with a missing [municipio_y]. *)
Theorem C1_panel_name_columns :
  let cols := ["Município (Código)"; "Município"; "Ano"; "V"] in
  let mun_uf :=
    pd.of_records ["id_municipio"; "municipio"] [[Int 5208707; Str "Goiânia"]] in
  let pib_raw :=
    pd.of_records cols
      [[Str "5208707"; Str "Goiânia (GO)"; Str "2020"; Str "100"];
       [Str "5300108"; Str "Brasília (DF)"; Str "2020"; Str "300"]] in
  let pop_raw :=
    pd.of_records cols
      [[Str "5208707"; Str "Goiânia - GO"; Str "2020"; Str "20"];
       [Str "5300108"; Str "Brasília - DF"; Str "2020"; Str "30"]] in
  let area_raw :=
    pd.of_records cols [[Str "5208707"; Str "Goiânia"; Str "2022"; Str "10"]] in
  build_panel mun_uf pib_raw pop_raw area_raw
  = Ok (mkDF ["code_muni"; "municipio_x"; "ano"; "pib"; "municipio_pop";
              "pop"; "municipio_y"; "area"; "pib_pc"; "pib_km2"]
          [(0%Z, [Int 5300108; Str "Brasília (DF)"; Int 2020; Num (Fin 300);
                  Str "Brasília - DF"; Num (Fin 30); NA; NA;
                  Num (Fin 10); NA]);
           (1%Z, [Int 5208707; Str "Goiânia (GO)"; Int 2020; Num (Fin 100);
                  Str "Goiânia - GO"; Num (Fin 20); Str "Goiânia";
                  Num (Fin 10); Num (Fin 5); Num (Fin 10)])]) /\
  (forall mun pib pop area panel,
      rectangular pib -> rectangular pop -> rectangular area ->
      build_panel mun pib pop area = Ok panel ->
      columns panel = panel_columns /\ ~ In "municipio" (columns panel)).
Proof.
  cbv zeta. split; [vm_compute; reflexivity|].
  intros mun pib pop area panel Hpib Hpop Harea H.
  apply (build_panel_Ok _ Hpib Hpop Harea) in H.
  destruct H as (? & ? & ? & ? & ? & ? & _ & _ & _ & _ & _ & _ & _ & _ & _ & ->).
  split; [reflexivity|]. cbn [columns pd.of_records panel_columns In].
  intros H. repeat (destruct H as [H | H]; [discriminate|]). exact H.
Qed.

Lemma C1_panel_name_columns_witness :
  let cols := ["Município (Código)"; "Município"; "Ano"; "V"] in
  let mun_uf :=
    pd.of_records ["id_municipio"; "municipio"] [[Int 5208707; Str "Goiânia"]] in
  let pib_raw :=
    pd.of_records cols
      [[Str "5208707"; Str "Goiânia (GO)"; Str "2020"; Str "100"]] in
  let pop_raw :=
    pd.of_records cols
      [[Str "5208707"; Str "Goiânia - GO"; Str "2020"; Str "20"]] in
  let area_raw :=
    pd.of_records cols [[Str "5208707"; Str "Goiânia"; Str "2022"; Str "10"]] in
  let panel :=
    mkDF panel_columns
      [(0%Z, [Int 5208707; Str "Goiânia (GO)"; Int 2020; Num (Fin 100);
              Str "Goiânia - GO"; Num (Fin 20); Str "Goiânia";
              Num (Fin 10); Num (Fin 5); Num (Fin 10)])] in
  rectangular pib_raw /\ rectangular pop_raw /\ rectangular area_raw /\
  build_panel mun_uf pib_raw pop_raw area_raw = Ok panel /\
  columns panel = panel_columns /\ ~ In "municipio" (columns panel).
Proof.
  intros cols mun_uf pib_raw pop_raw area_raw panel.
  assert (H1 : rectangular pib_raw) by (repeat constructor).
  assert (H2 : rectangular pop_raw) by (repeat constructor).
  assert (H3 : rectangular area_raw) by (repeat constructor).
  assert (H4 : build_panel mun_uf pib_raw pop_raw area_raw = Ok panel)
    by (vm_compute; reflexivity).
  do 4 (split; [assumption|]).
  exact (proj2 C1_panel_name_columns
           mun_uf pib_raw pop_raw area_raw panel H1 H2 H3 H4).
Defined.

(* ------------------------------------------------------------------ *)
(** ** Frames of the store computations *)

Section Frames.

Variable n : nat.

Lemma frames_ret {A : Type} (a : A) (Q : A -> Prop) :
  Q a -> frames n (Store.ret a) Q.
Proof.
  intros HQ h Hn. cbn. repeat split; auto. intros a' E. now injection E as <-.
Qed.

Lemma frames_raise {A : Type} (e : exn) (Q : A -> Prop) :
  frames n (Store.raise e) Q.
Proof. intros h Hn. cbn. repeat split; auto. discriminate. Qed.

Lemma frames_lift {A : Type} (r : result A) :
  frames n (Store.lift r) (fun _ => True).
Proof. intros h Hn. cbn. auto. Qed.

Lemma frames_weaken {A : Type} (m : Store.M A) (Q Q' : A -> Prop) :
  (forall a, Q a -> Q' a) -> frames n m Q -> frames n m Q'.
Proof.
  intros HQ Hm h Hn. destruct (Hm h Hn) as (H1 & H2 & H3). auto.
Qed.

Lemma frames_bind {A B : Type} (m : Store.M A) (k : A -> Store.M B)
  (Q : A -> Prop) (R : B -> Prop) :
  frames n m Q -> (forall a, Q a -> frames n (k a) R) ->
  frames n (Store.mbind m k) R.
Proof.
  intros Hm Hk h Hn. unfold Store.mbind.
  destruct (Hm h Hn) as (H1 & H2 & H3).
  destruct (m h) as [[a|e] h'] eqn:E; cbn [fst snd] in *.
  - destruct (Hk a (H3 a eq_refl) h' H1) as (K1 & K2 & K3).
    repeat split; [exact K1 | congruence | exact K3].
  - repeat split; auto. discriminate.
Qed.

Lemma frames_alloc (df : DataFrame) : frames n (Store.alloc df) (fresh n).
Proof.
  intros h Hn. unfold Store.alloc. cbn [fst snd]. repeat split.
  - rewrite length_app. lia.
  - rewrite firstn_app. replace (n - length h)%nat with 0%nat by lia.
    cbn [firstn]. apply app_nil_r.
  - intros a E. injection E as <-. exact Hn.
Qed.

Lemma frames_deref (l : Store.ref) : frames n (Store.deref l) (fun _ => True).
Proof. intros h Hn. cbn. auto. Qed.

Lemma length_update (l : Store.ref) (df : DataFrame) (h : Store.store) :
  length (Store.update l df h) = length h.
Proof.
  revert l. induction h as [|x h IH]; intros [|l]; simpl; auto.
Qed.

Lemma firstn_update (l : Store.ref) (df : DataFrame) (h : Store.store) :
  (n <= l)%nat -> firstn n (Store.update l df h) = firstn n h.
Proof.
  revert l h. induction n as [|m IH]; intros l h Hl; [reflexivity|].
  destruct h as [|x h]; [now destruct l|].
  destruct l as [|l]; [lia|]. simpl. f_equal. apply IH. lia.
Qed.

Lemma frames_assign (l : Store.ref) (df : DataFrame) :
  fresh n l -> frames n (Store.assign l df) (fun _ => True).
Proof.
  intros Hl h Hn. unfold Store.assign. cbn [fst snd]. repeat split.
  - now rewrite length_update.
  - now apply firstn_update.
Qed.

Lemma frames_copy (l : Store.ref) : frames n (Store.copy l) (fresh n).
Proof.
  unfold Store.copy. eapply frames_bind; [apply frames_deref|].
  intros df _. apply frames_alloc.
Qed.

Lemma frames_getitem (l : Store.ref) (name : string) :
  frames n (Store.getitem l name) (fun _ => True).
Proof.
  unfold Store.getitem. eapply frames_bind; [apply frames_deref|].
  intros df _. apply frames_lift.
Qed.

Lemma frames_setitem (l : Store.ref) (name : string) (s : Series) :
  fresh n l -> frames n (Store.setitem l name s) (fun _ => True).
Proof.
  intros Hl. unfold Store.setitem.
  eapply frames_bind; [apply frames_deref|]. intros df _.
  eapply frames_bind; [apply frames_lift|]. intros df' _.
  now apply frames_assign.
Qed.

Lemma frames_setitem_values (l : Store.ref) (name : string)
  (values : list cell) :
  fresh n l -> frames n (Store.setitem_values l name values) (fun _ => True).
Proof.
  intros Hl. unfold Store.setitem_values.
  eapply frames_bind; [apply frames_deref|]. intros df _.
  eapply frames_bind; [apply frames_lift|]. intros df' _.
  now apply frames_assign.
Qed.

Lemma frames_merge (left right : Store.ref) (on : list string) (h : pd.how)
  (suffixes : string * string) :
  frames n (Store.merge left right on h suffixes) (fresh n).
Proof.
  unfold Store.merge.
  eapply frames_bind; [apply frames_deref|]. intros l _.
  eapply frames_bind; [apply frames_deref|]. intros r _.
  eapply frames_bind; [apply frames_lift|]. intros m _.
  apply frames_alloc.
Qed.

Lemma frames_dropna (df : Store.ref) (subset : list string) :
  frames n (Store.dropna df subset) (fresh n).
Proof.
  unfold Store.dropna.
  eapply frames_bind; [apply frames_deref|]. intros d _.
  eapply frames_bind; [apply frames_lift|]. intros d' _.
  apply frames_alloc.
Qed.

Lemma frames_drop_header (df : Store.ref) :
  frames n (Store._drop_header_like_rows df) (fresh n).
Proof.
  unfold Store._drop_header_like_rows.
  eapply frames_bind; [apply frames_deref|]. intros d _.
  destruct (pd.has_col d "V"); [|apply frames_copy].
  eapply frames_bind; [apply frames_getitem|]. intros s _.
  eapply frames_bind; [apply frames_alloc|]. intros kept _.
  apply frames_copy.
Qed.

Lemma frames_for_each {A : Type} (f : A -> Store.M unit) (l : list A) :
  (forall x, frames n (f x) (fun _ => True)) ->
  frames n (Store.for_each f l) (fun _ => True).
Proof.
  intros Hf. induction l as [|x r IH]; simpl.
  - now apply frames_ret.
  - eapply frames_bind; [apply Hf|]. intros _ _. exact IH.
Qed.

Lemma frames_retype (out : Store.ref) (name : string) :
  fresh n out -> frames n (Store.retype_Int64 out name) (fun _ => True).
Proof.
  intros Hl. unfold Store.retype_Int64.
  eapply frames_bind; [apply frames_getitem|]. intros s _.
  eapply frames_bind; [apply frames_lift|]. intros i _.
  now apply frames_setitem.
Qed.

Lemma frames_read {A : Type} (l : Store.ref) (f : DataFrame -> result A) :
  frames n (Store.mbind (Store.deref l) (fun d => Store.lift (f d)))
         (fun _ => True).
Proof.
  eapply frames_bind; [apply frames_deref|]. intros d _. apply frames_lift.
Qed.

Lemma frames_normalize (df_raw : Store.ref) (v : string) (k : bool) :
  frames n (Store.normalize_sidra_table df_raw v k) (fresh n).
Proof.
  unfold Store.normalize_sidra_table.
  eapply frames_bind; [apply frames_copy|]. intros df0 _.
  eapply frames_bind; [apply frames_drop_header|]. intros df Hdf.
  eapply frames_bind; [apply frames_deref|]. intros d _.
  destruct (_extract_muni_cols d) as [mc mn].
  destruct (pd.has_col d "V"); cbn [negb]; [|apply frames_raise].
  eapply frames_bind; [apply frames_getitem|]. intros vs _.
  eapply frames_bind; [now apply frames_setitem|]. intros _ _.
  eapply frames_bind; [apply frames_alloc|]. intros out Hout.
  eapply frames_bind; [apply frames_read|]. intros s1 _.
  eapply frames_bind; [now apply frames_setitem|]. intros _ _.
  eapply frames_bind; [apply frames_read|]. intros s2 _.
  eapply frames_bind; [now apply frames_setitem|]. intros _ _.
  eapply frames_bind; [apply frames_read|]. intros s3 _.
  eapply frames_bind; [now apply frames_setitem|]. intros _ _.
  eapply frames_bind; [apply frames_getitem|]. intros vv _.
  eapply frames_bind; [now apply frames_setitem|]. intros _ _.
  eapply frames_bind; [apply frames_deref|]. intros d2 _.
  eapply frames_bind.
  { apply frames_for_each. intros c.
    eapply frames_bind; [apply frames_getitem|]. intros s _.
    now apply frames_setitem. }
  intros _ _.
  eapply frames_bind; [apply frames_getitem|]. intros w _.
  eapply frames_bind; [apply frames_deref|]. intros o _.
  eapply frames_bind.
  { eapply frames_bind; [apply frames_alloc|]. intros kept _.
    apply frames_copy. }
  intros out' Hout'.
  eapply frames_bind; [now apply frames_retype|]. intros _ _.
  eapply frames_bind; [now apply frames_retype|]. intros _ _.
  now apply frames_ret.
Qed.

Lemma frames_area_agg (area : Store.ref) :
  frames n (Store.area_agg area) (fresh n).
Proof.
  unfold Store.area_agg.
  eapply frames_bind; [apply frames_dropna|]. intros a _.
  eapply frames_bind; [apply frames_deref|]. intros d _.
  eapply frames_bind; [apply frames_lift|]. intros g _.
  apply frames_alloc.
Qed.

Lemma frames_reference (mun_uf : Store.ref) :
  frames n (Store.reference mun_uf) (fresh n).
Proof.
  unfold Store.reference.
  eapply frames_bind; [apply frames_copy|]. intros mun Hmun.
  eapply frames_bind; [apply frames_deref|]. intros d _.
  eapply frames_bind with (Q := fresh n).
  { destruct (pd.has_col d "id_municipio");
      [apply frames_alloc | now apply frames_ret]. }
  intros mun' Hmun'.
  eapply frames_bind; [apply frames_read|]. intros s _.
  eapply frames_bind; [now apply frames_setitem|]. intros _ _.
  now apply frames_ret.
Qed.

Lemma frames_build_panel (mun_uf pib_raw pop_raw area_raw : Store.ref) :
  frames n (Store.build_panel mun_uf pib_raw pop_raw area_raw) (fresh n).
Proof.
  unfold Store.build_panel.
  eapply frames_bind; [apply frames_reference|]. intros mun _.
  eapply frames_bind; [apply frames_normalize|]. intros pib _.
  eapply frames_bind; [apply frames_normalize|]. intros pop _.
  eapply frames_bind; [apply frames_normalize|]. intros area _.
  eapply frames_bind; [apply frames_area_agg|]. intros agg _.
  eapply frames_bind; [apply frames_dropna|]. intros l _.
  eapply frames_bind; [apply frames_dropna|]. intros r _.
  eapply frames_bind; [apply frames_merge|]. intros p1 _.
  eapply frames_bind.
  { eapply frames_bind; [apply frames_deref|]. intros d _.
    eapply frames_bind; [apply frames_lift|]. intros nm _.
    apply frames_alloc. }
  intros names _.
  eapply frames_bind; [apply frames_merge|]. intros p2 _.
  eapply frames_bind; [apply frames_merge|]. intros panel Hpanel.
  eapply frames_bind; [apply frames_getitem|]. intros pib_s _.
  eapply frames_bind; [apply frames_getitem|]. intros pop_s _.
  eapply frames_bind; [now apply frames_setitem|]. intros _ _.
  eapply frames_bind; [apply frames_getitem|]. intros area_s _.
  eapply frames_bind; [apply frames_getitem|]. intros pib_s' _.
  eapply frames_bind; [now apply frames_setitem_values|]. intros _ _.
  eapply frames_bind.
  { eapply frames_bind; [apply frames_deref|]. intros d _.
    eapply frames_bind; [apply frames_lift|]. intros sd _.
    apply frames_alloc. }
  intros sorted _.
  eapply frames_bind; [apply frames_deref|]. intros d _.
  apply frames_alloc.
Qed.

End Frames.

Lemma frames_prefix {A : Type} (m : Store.M A) (Q : A -> Prop) (h : Store.store) :
  frames (length h) m Q -> exists ext, snd (m h) = (h ++ ext)%list.
Proof.
  intros Hm. destruct (Hm h (Nat.le_refl _)) as (H1 & H2 & _).
  rewrite firstn_all in H2. exists (skipn (length h) (snd (m h))).
  rewrite <- (firstn_skipn (length h) (snd (m h))) at 1. now rewrite H2.
Qed.

Lemma prefix_nth_error {A : Type} (h ext : list A) (l : nat) (x : A) :
  nth_error h l = Some x -> nth_error (h ++ ext) l = Some x.
Proof.
  intros H. rewrite nth_error_app1; [exact H|].
  apply nth_error_Some. congruence.
Qed.

(** C10.  Neither function changes an object it is given.  Run from any
    store, [normalize_sidra_table] and [build_panel] only add objects
    to it: every frame that was in the store before the call, the raw
    table and the municipality reference among them, is the same frame
    after the call, whether the call returns or raises; the frame
    returned is a new object.  (The item assignments of the two
    functions all go to the copy or to frames built inside the call.) *)
Theorem C10_inputs_unchanged :
  (forall h df_raw v k,
      let run := Store.normalize_sidra_table df_raw v k h in
      (exists new, snd run = (h ++ new)%list) /\
      (forall l df, nth_error h l = Some df -> nth_error (snd run) l = Some df) /\
      (forall out, fst run = Ok out -> (length h <= out)%nat)) /\
  (forall h mun_uf pib_raw pop_raw area_raw,
      let run := Store.build_panel mun_uf pib_raw pop_raw area_raw h in
      (exists new, snd run = (h ++ new)%list) /\
      (forall l df, nth_error h l = Some df -> nth_error (snd run) l = Some df) /\
      (forall out, fst run = Ok out -> (length h <= out)%nat)).
Proof.
  split.
  - intros h df_raw v k run.
    pose proof (@frames_normalize (length h) df_raw v k) as Hf.
    destruct (@frames_prefix _ _ _ h Hf) as (new & E).
    split; [now exists new|]. split.
    + intros l df Hl. unfold run. rewrite E. now apply prefix_nth_error.
    + intros out Hout. now apply (Hf h (Nat.le_refl _)).
  - intros h mun_uf pib_raw pop_raw area_raw run.
    pose proof (@frames_build_panel (length h) mun_uf pib_raw pop_raw area_raw)
      as Hf.
    destruct (@frames_prefix _ _ _ h Hf) as (new & E).
    split; [now exists new|]. split.
    + intros l df Hl. unfold run. rewrite E. now apply prefix_nth_error.
    + intros out Hout. now apply (Hf h (Nat.le_refl _)).
Qed.

Lemma C10_inputs_unchanged_witness :
  let cols := ["Município (Código)"; "Município"; "Ano"; "V"] in
  let mun_uf :=
    pd.of_records ["id_municipio"; "municipio"] [[Str "5208707"; Str "Goiânia"]] in
  let pib_raw :=
    pd.of_records cols
      [[Str "Município (Código)"; Str "Município"; Str "Ano"; Str "Valor"];
       [Str "5208707"; Str "Goiânia (GO)"; Str "2020"; Str "100"]] in
  let pop_raw :=
    pd.of_records cols
      [[Str "5208707"; Str "Goiânia - GO"; Str "2020"; Str "20"]] in
  let area_raw :=
    pd.of_records cols [[Str "5208707"; Str "Goiânia"; Str "2022"; Str "10"]] in
  let h := [mun_uf; pib_raw; pop_raw; area_raw] in
  (nth_error h 1 = Some pib_raw /\
   nth_error (snd (Store.normalize_sidra_table 1%nat "pib" false h)) 1
   = Some pib_raw) /\
  (nth_error h 0 = Some mun_uf /\
   nth_error (snd (Store.build_panel 0%nat 1%nat 2%nat 3%nat h)) 0
   = Some mun_uf) /\
  (fst (Store.build_panel 0%nat 1%nat 2%nat 3%nat h) = Ok 33%nat /\
   (length h <= 33)%nat).
Proof.
  intros cols mun_uf pib_raw pop_raw area_raw h.
  assert (H1 : nth_error h 1 = Some pib_raw) by reflexivity.
  assert (H0 : nth_error h 0 = Some mun_uf) by reflexivity.
  assert (H2 : fst (Store.build_panel 0%nat 1%nat 2%nat 3%nat h) = Ok 33%nat)
    by (vm_compute; reflexivity).
  split; [|split].
  - split; [exact H1|].
    exact (proj1 (proj2 (proj1 C10_inputs_unchanged h 1%nat "pib" false))
             1%nat pib_raw H1).
  - split; [exact H0|].
    exact (proj1 (proj2 (proj2 C10_inputs_unchanged h 0%nat 1%nat 2%nat 3%nat))
             0%nat mun_uf H0).
  - split; [exact H2|].
    exact (proj2 (proj2 (proj2 C10_inputs_unchanged h 0%nat 1%nat 2%nat 3%nat))
             33%nat H2).
Defined.

(* ------------------------------------------------------------------ *)
(** ** The store-level functions compute what the value-level ones do *)

Open Scope list_scope.

Lemma nth_app_fresh {A : Type} (old new : list A) (i : nat) (e : A) :
  nth (length old + i) (old ++ new) e = nth i new e.
Proof.
  rewrite app_nth2 by lia. f_equal. lia.
Qed.

Lemma update_app_fresh (old new : Store.store) (i : nat) (d : DataFrame) :
  Store.update (length old + i) d (old ++ new)
  = (old ++ Store.update i d new)%list.
Proof.
  induction old as [|x old IH]; simpl; [reflexivity|]. now rewrite IH.
Qed.

Lemma nth_app_old {A : Type} (old new : list A) (l : nat) (e : A) :
  (l < length old)%nat -> nth l (old ++ new) e = nth l old e.
Proof. intros H. now apply app_nth1. Qed.

Lemma nth_update_same (new : Store.store) (j : nat) (d : DataFrame) :
  (j < length new)%nat -> nth j (Store.update j d new) pd.empty = d.
Proof.
  revert j. induction new as [|x new IH]; intros [|j] H; simpl in *;
    try lia; [reflexivity | apply IH; lia].
Qed.

Lemma nth_update_other (new : Store.store) (i j : nat) (d : DataFrame) :
  i <> j -> nth i (Store.update j d new) pd.empty = nth i new pd.empty.
Proof.
  revert i j. induction new as [|x new IH]; intros [|i] [|j] H; simpl;
    try reflexivity; try congruence. apply IH. congruence.
Qed.

Lemma refines_raise (h new : Store.store) (e : exn) :
  refines (Raise e, h ++ new) h (Raise e).
Proof. exists new. split; reflexivity. Qed.

Lemma refines_ok (h new : Store.store) (j : nat) (d : DataFrame) :
  (j < length new)%nat -> nth j new pd.empty = d ->
  refines (Ok (length h + j)%nat, h ++ new) h (Ok d).
Proof.
  intros Hj E. exists new. split; [reflexivity|]. cbn [fst]. split; [|lia].
  split; [rewrite length_app; lia | now rewrite nth_app_fresh].
Qed.

Lemma refines_extend (run : result Store.ref * Store.store)
  (h new : Store.store) (p : result DataFrame) :
  refines run (h ++ new) p -> refines run h p.
Proof.
  intros (new' & E & H). exists (new ++ new'). rewrite app_assoc.
  split; [exact E|].
  destruct (fst run), p; try exact H. destruct H as (H & Hl).
  split; [exact H|]. rewrite length_app in Hl. lia.
Qed.

(** *** Running the primitives on a store [old ++ new] *)

Lemma run_assoc {A B C : Type} (m : Store.M A) (f : A -> Store.M B)
  (g : B -> Store.M C) (h : Store.store) :
  Store.mbind (Store.mbind m f) g h
  = Store.mbind m (fun a => Store.mbind (f a) g) h.
Proof. unfold Store.mbind. now destruct (m h) as [[a|e] h']. Qed.

Lemma run_deref_new {B : Type} (k : DataFrame -> Store.M B)
  (old new : Store.store) (i : nat) :
  Store.mbind (Store.deref (length old + i)) k (old ++ new)
  = k (nth i new pd.empty) (old ++ new).
Proof. unfold Store.mbind, Store.deref. now rewrite nth_app_fresh. Qed.

Lemma run_deref_old {B : Type} (k : DataFrame -> Store.M B)
  (old new : Store.store) (l : nat) (d : DataFrame) :
  holds l d old ->
  Store.mbind (Store.deref l) k (old ++ new) = k d (old ++ new).
Proof.
  intros (Hl & <-). unfold Store.mbind, Store.deref.
  now rewrite nth_app_old.
Qed.

Lemma run_lift {A B : Type} (r : result A) (k : A -> Store.M B)
  (h : Store.store) :
  Store.mbind (Store.lift r) k h
  = match r with Ok a => k a h | Raise e => (Raise e, h) end.
Proof. reflexivity. Qed.

Lemma run_alloc {B : Type} (d : DataFrame) (k : Store.ref -> Store.M B)
  (old new : Store.store) :
  Store.mbind (Store.alloc d) k (old ++ new)
  = k (length old + length new)%nat (old ++ (new ++ [d])).
Proof.
  unfold Store.mbind, Store.alloc. now rewrite length_app, app_assoc.
Qed.

Lemma run_assign {B : Type} (d : DataFrame) (k : unit -> Store.M B)
  (old new : Store.store) (i : nat) :
  Store.mbind (Store.assign (length old + i) d) k (old ++ new)
  = k tt (old ++ Store.update i d new).
Proof. unfold Store.mbind, Store.assign. now rewrite update_app_fresh. Qed.

Lemma run_ret {A B : Type} (a : A) (k : A -> Store.M B) (h : Store.store) :
  Store.mbind (Store.ret a) k h = k a h.
Proof. reflexivity. Qed.

Lemma refines_alloc (old new : Store.store) (d : DataFrame) :
  refines (Store.alloc d (old ++ new)) old (Ok d).
Proof.
  unfold Store.alloc. exists (new ++ [d]). rewrite length_app, <- app_assoc.
  split; [reflexivity|]. cbn [fst]. split; [|lia].
  split; [rewrite !length_app; cbn [length]; lia|].
  rewrite nth_app_fresh. rewrite app_nth2 by lia.
  now rewrite Nat.sub_diag.
Qed.

(** One step of symbolic evaluation of a store computation that runs
    on [old ++ new], the [new] part being an explicit list.  A lifted
    pandas call is the same call on the value side: both sides split on
    its outcome. *)
Ltac store_norm :=
  cbn [length app nth Store.update Nat.add bind negb].

Ltac store_step :=
  lazymatch goal with
  | |- refines (Store.mbind ?m ?k ?H) _ _ =>
      lazymatch m with
      | Store.mbind _ _ => rewrite (run_assoc _ _ _ H)
      | Store.deref (length _ + _) => rewrite run_deref_new
      | Store.deref _ => erewrite run_deref_old by eassumption
      | Store.alloc _ => rewrite run_alloc
      | Store.assign _ _ => rewrite run_assign
      | Store.ret _ => rewrite run_ret
      | Store.lift ?r =>
          rewrite run_lift;
          let a := fresh "a" in
          let e := fresh "e" in
          destruct r as [a|e]; [|apply refines_raise]
      | Store.copy _ => unfold Store.copy at 1
      | Store.getitem _ _ => unfold Store.getitem at 1
      | Store.setitem _ _ _ => unfold Store.setitem at 1
      | Store.setitem_values _ _ _ => unfold Store.setitem_values at 1
      | Store.retype_Int64 _ _ => unfold Store.retype_Int64 at 1
      | Store.merge _ _ _ _ _ => unfold Store.merge at 1
      | Store.dropna _ _ => unfold Store.dropna at 1
      | Store._drop_header_like_rows _ =>
          unfold Store._drop_header_like_rows at 1
      | (if ?b then _ else _) => destruct b
      end; store_norm
  | |- refines ((let '(_, _) := ?x in _) _) _ _ => destruct x; store_norm
  | |- refines ((if ?b then _ else _) _) _ _ => destruct b; store_norm
  | |- refines (Store.raise _ _) _ _ => apply refines_raise
  | |- refines (Store.alloc _ (_ ++ _)) _ _ => apply refines_alloc
  | |- refines (Store.ret (length _ + _)%nat (_ ++ _)) _ _ =>
      apply refines_ok; [cbn [length]; lia | reflexivity]
  end.


Lemma update_update (new : Store.store) (j : nat) (d d' : DataFrame) :
  Store.update j d' (Store.update j d new) = Store.update j d' new.
Proof.
  revert j. induction new as [|x new IH]; intros [|j]; simpl;
    try reflexivity. now rewrite IH.
Qed.

Lemma update_nth_same (new : Store.store) (j : nat) :
  Store.update j (nth j new pd.empty) new = new.
Proof.
  revert j. induction new as [|x new IH]; intros [|j]; simpl;
    try reflexivity. now rewrite IH.
Qed.

(** One turn of the loop over the extra dimensions: it reads the
    working copy at [i] and assigns to the output frame at [j]. *)
Lemma run_for_each_cons {B : Type} (c : string) (cols : list string)
  (k : unit -> Store.M B) (old new : Store.store) (i j : nat) :
  let f := fun c =>
    Store.mbind (Store.getitem (length old + i) c)
      (fun s => Store.setitem (length old + j) c s) in
  Store.mbind (Store.for_each f (c :: cols)) k (old ++ new)
  = match pd.getitem (nth i new pd.empty) c with
    | Ok s =>
        match pd.setitem (nth j new pd.empty) c s with
        | Ok o =>
            Store.mbind (Store.for_each f cols) k
              (old ++ Store.update j o new)
        | Raise e => (Raise e, old ++ new)
        end
    | Raise e => (Raise e, old ++ new)
    end.
Proof.
  intros f. cbn [Store.for_each]. unfold f at 1.
  unfold Store.getitem at 1, Store.setitem at 1.
  repeat rewrite (run_assoc _ _ _ (old ++ new)).
  rewrite run_deref_new, run_lift.
  destruct (pd.getitem (nth i new pd.empty) c) as [s|e]; [|reflexivity].
  repeat rewrite (run_assoc _ _ _ (old ++ new)).
  rewrite run_deref_new.
  repeat rewrite (run_assoc _ _ _ (old ++ new)).
  rewrite run_lift.
  destruct (pd.setitem (nth j new pd.empty) c s) as [o|e]; [|reflexivity].
  repeat rewrite (run_assoc _ _ _ (old ++ new)).
  now rewrite run_assign.
Qed.

Lemma run_for_each {B : Type} (cols : list string) (k : unit -> Store.M B)
  (old new : Store.store) (i j : nat) :
  i <> j -> (j < length new)%nat ->
  let f := fun c =>
    Store.mbind (Store.getitem (length old + i) c)
      (fun s => Store.setitem (length old + j) c s) in
  match
    fold_result
      (fun out c => s <- pd.getitem (nth i new pd.empty) c ;; pd.setitem out c s)
      cols (nth j new pd.empty)
  with
  | Ok out =>
      Store.mbind (Store.for_each f cols) k (old ++ new)
      = k tt (old ++ Store.update j out new)
  | Raise e =>
      exists new',
        Store.mbind (Store.for_each f cols) k (old ++ new)
        = (Raise e, old ++ new')
  end.
Proof.
  intros Hij Hj f. revert new Hj.
  induction cols as [|c cols IH]; intros new Hj.
  - cbn [fold_result Store.for_each]. rewrite run_ret.
    now rewrite update_nth_same.
  - unfold f. rewrite run_for_each_cons. fold f. cbn [fold_result].
    destruct (pd.getitem (nth i new pd.empty) c) as [s|e]; cbn [bind];
      [|now exists new].
    destruct (pd.setitem (nth j new pd.empty) c s) as [o|e]; cbn [bind];
      [|now exists new].
    specialize (IH (Store.update j o new)).
    rewrite length_update, nth_update_other, nth_update_same in IH by auto.
    specialize (IH Hj).
    destruct (fold_result _ cols o) as [o'|e].
    + rewrite IH. now rewrite update_update.
    + exact IH.
Qed.

(** The loop over the extra dimensions, in a goal. *)
Ltac store_loop i j :=
  lazymatch goal with
  | |- refines (Store.mbind (Store.for_each _ ?cols) ?k (?old ++ ?new)) _ _ =>
      let H := fresh "Hloop" in
      pose proof (@run_for_each _ cols k old new i j) as H;
      cbn [nth length] in H;
      specialize (H ltac:(discriminate) ltac:(lia)); cbv zeta in H;
      let o := fresh "o" in
      let e := fresh "e" in
      destruct (fold_result _ cols _) as [o|e];
      [ rewrite H; clear H; store_norm
      | let n := fresh "new" in
        destruct H as (n & ->); apply refines_raise ]
  end.

Lemma normalize_refines (h : Store.store) (l : Store.ref) (v : string)
  (k : bool) :
  refines (Store.normalize_sidra_table l v k h) h
          (normalize_sidra_table (nth l h pd.empty) v k).
Proof.
  unfold Store.normalize_sidra_table, normalize_sidra_table, retype_Int64.
  set (D := nth l h pd.empty).
  (* df = df_raw.copy() *)
  unfold Store.copy at 1. rewrite run_assoc.
  unfold Store.mbind at 1, Store.deref at 1. fold D.
  rewrite <- (app_nil_r h) at 1. rewrite run_alloc. store_norm.
  do 3 store_step.
  unfold _drop_header_like_rows.
  destruct (pd.has_col D "V") eqn:EV.
  - repeat store_step. store_loop 2%nat 3%nat. repeat store_step.
  - repeat store_step. store_loop 1%nat 2%nat. repeat store_step.
Qed.

Lemma holds_extend (l : Store.ref) (d : DataFrame) (h new : Store.store) :
  holds l d h -> holds l d (h ++ new).
Proof.
  intros (Hl & E). split; [rewrite length_app; lia | now rewrite nth_app_old].
Qed.

Lemma bind_assoc {A B C : Type} (m : result A) (f : A -> result B)
  (g : B -> result C) :
  bind (bind m f) g = bind m (fun a => bind (f a) g).
Proof. now destruct m. Qed.

(** A call of a function that returns a new frame, followed by the rest
    of the caller. *)
Lemma refines_call (m : Store.M Store.ref) (k : Store.ref -> Store.M Store.ref)
  (h : Store.store) (p : result DataFrame)
  (q : DataFrame -> result DataFrame) :
  refines (m h) h p ->
  (forall l d new,
      holds l d (h ++ new) ->
      refines (k l (h ++ new)) (h ++ new) (q d)) ->
  refines (Store.mbind m k h) h (bind p q).
Proof.
  intros (new & E & H) Hk. unfold Store.mbind.
  destruct (m h) as [[l|e] h'] eqn:Em; cbn [fst snd] in *; subst h'.
  - destruct p as [d|e']; [|contradiction]. destruct H as (H & _).
    cbn [bind]. apply refines_extend with new. now apply Hk.
  - destruct p as [d|e']; [contradiction|]. subst e'. apply refines_raise.
Qed.

Lemma normalize_refines_at (h : Store.store) (l : Store.ref) (d : DataFrame)
  (v : string) (k : bool) :
  holds l d h ->
  refines (Store.normalize_sidra_table l v k h) h (normalize_sidra_table d v k).
Proof. intros (_ & <-). apply normalize_refines. Qed.

Lemma reference_refines (h : Store.store) (l : Store.ref) (d : DataFrame) :
  holds l d h ->
  refines (Store.reference l h) h (reference d).
Proof.
  intros Hl. unfold Store.reference, reference, int_column.
  rewrite <- (app_nil_r h) at 1.
  repeat store_step.
Qed.

Lemma area_agg_refines (h : Store.store) (l : Store.ref) (d : DataFrame) :
  holds l d h ->
  refines (Store.area_agg l h) h (area_agg d).
Proof.
  intros Hl. unfold Store.area_agg, area_agg.
  rewrite <- (app_nil_r h) at 1.
  repeat store_step.
Qed.

(** After a call the store has grown: what the earlier references stand
    for is unchanged, and the grown store is the new base. *)
Ltac rebase new :=
  repeat match goal with
         | H : holds _ _ ?h |- refines _ (?h ++ new) _ =>
             apply (@holds_extend _ _ h new) in H
         end;
  match goal with
  | |- refines _ (?h ++ new) _ =>
      let h' := fresh "h" in
      set (h' := h ++ new) in *; clearbody h'
  end.

Ltac store_call lem :=
  rewrite ?bind_assoc;
  apply refines_call; [now apply lem|];
  let l := fresh "l" in
  let d := fresh "d" in
  let new := fresh "new" in
  let H := fresh "H" in
  intros l d new H; rebase new.

Lemma build_panel_refines (h : Store.store)
  (mun_uf pib_raw pop_raw area_raw : Store.ref) (M P Q A : DataFrame) :
  holds mun_uf M h -> holds pib_raw P h ->
  holds pop_raw Q h -> holds area_raw A h ->
  refines (Store.build_panel mun_uf pib_raw pop_raw area_raw h) h
          (build_panel M P Q A).
Proof.
  intros HM HP HQ HA.
  unfold Store.build_panel, build_panel, build_panel_unsorted.
  store_call reference_refines.
  store_call normalize_refines_at.
  store_call normalize_refines_at.
  store_call normalize_refines_at.
  store_call area_agg_refines.
  match goal with
  | |- refines (_ ?h) ?h _ => rewrite <- (app_nil_r h) at 1
  end.
  repeat store_step.
Qed.

(** The panel read in the store [Store.build_panel] leaves is the panel
    [build_panel] computes from the four frames; an exception of the one
    is the same exception of the other. *)
Lemma build_panel_outcome (h : Store.store)
  (mun_uf pib_raw pop_raw area_raw : Store.ref) (M P Q A : DataFrame) :
  holds mun_uf M h -> holds pib_raw P h ->
  holds pop_raw Q h -> holds area_raw A h ->
  Store.outcome (Store.build_panel mun_uf pib_raw pop_raw area_raw h)
  = build_panel M P Q A.
Proof.
  intros HM HP HQ HA.
  destruct (build_panel_refines HM HP HQ HA) as (new & E & H).
  destruct (Store.build_panel mun_uf pib_raw pop_raw area_raw h)
    as [[l|e] h'].
  - cbn [fst snd] in *. subst h'. unfold Store.outcome.
    destruct (build_panel M P Q A) as [d|e]; [|contradiction].
    destruct H as ((_ & ->) & _). reflexivity.
  - cbn [fst snd] in *. unfold Store.outcome.
    destruct (build_panel M P Q A) as [d|e']; [contradiction|].
    now subst.
Qed.

(* ================================================================== *)
(** * Further properties of the column discovery *)
(* ================================================================== *)

Unset Implicit Arguments.

(** ** Normalised labels *)

Lemma string_ind2 (P : string -> Prop) :
  P EmptyString ->
  (forall c, P (String c EmptyString)) ->
  (forall c d r, P r -> P (String d r) -> P (String c (String d r))) ->
  forall s, P s.
Proof.
  intros H0 H1 H2.
  assert (H : forall s, P s /\ forall c, P (String c s)).
  { induction s as [|d r IH].
    - split; [exact H0 | exact H1].
    - destruct IH as (Hr & Hc). split; [apply Hc|].
      intros c. apply H2; [exact Hr | apply Hc]. }
  intros s. apply H.
Qed.

Lemma is_space_lower_ascii (c : ascii) :
  is_space (lower_ascii c) = is_space c.
Proof. destruct c as [[] [] [] [] [] [] [] []]; reflexivity. Qed.

Lemma is_space_lower_latin1 (c : ascii) :
  is_space (lower_latin1 c) = is_space c.
Proof. destruct c as [[] [] [] [] [] [] [] []]; reflexivity. Qed.

Lemma lower_ascii_space (c : ascii) :
  is_space c = true -> lower_ascii c = c.
Proof. destruct c as [[] [] [] [] [] [] [] []]; intros H; try reflexivity; discriminate. Qed.

Lemma lower_latin1_space (c : ascii) :
  is_space c = true -> lower_latin1 c = c.
Proof. destruct c as [[] [] [] [] [] [] [] []]; intros H; try reflexivity; discriminate. Qed.

Lemma lower_ascii_idem (c : ascii) : lower_ascii (lower_ascii c) = lower_ascii c.
Proof. destruct c as [[] [] [] [] [] [] [] []]; reflexivity. Qed.

Lemma lower_latin1_idem (c : ascii) :
  lower_latin1 (lower_latin1 c) = lower_latin1 c.
Proof. destruct c as [[] [] [] [] [] [] [] []]; reflexivity. Qed.

Lemma lower_ascii_lead (c : ascii) :
  (code (lower_ascii c) =? 195)%nat = (code c =? 195)%nat.
Proof. destruct c as [[] [] [] [] [] [] [] []]; reflexivity. Qed.

Lemma lead_not_space (c : ascii) :
  (code c =? 195)%nat = true -> is_space c = false.
Proof. destruct c as [[] [] [] [] [] [] [] []]; intros H; try reflexivity; discriminate. Qed.

Lemma lower_cons2 (c d : ascii) (r : string) :
  lower (String c (String d r))
  = if (code c =? 195)%nat
    then String c (String (lower_latin1 d) (lower r))
    else String (lower_ascii c) (lower (String d r)).
Proof. reflexivity. Qed.

Lemma lower_cons1 (c : ascii) :
  lower (String c EmptyString)
  = if (code c =? 195)%nat then String c EmptyString
    else String (lower_ascii c) EmptyString.
Proof. reflexivity. Qed.

Lemma trimmed_cons (b : bool) (c : ascii) (r : string) :
  trimmed b (String c r)
  = if is_space c then negb b && Ascii.eqb c " "%char && trimmed true r
    else trimmed false r.
Proof. reflexivity. Qed.

Lemma lower_trimmed (s : string) :
  forall b, trimmed b s = true -> trimmed b (lower s) = true.
Proof.
  induction s as [|c|c d r IHr IHd] using string_ind2; intros b H.
  - exact H.
  - rewrite lower_cons1. destruct (code c =? 195)%nat eqn:E; [exact H|].
    rewrite trimmed_cons in *. rewrite is_space_lower_ascii.
    destruct (is_space c) eqn:Es; [|exact H].
    now rewrite (lower_ascii_space _ Es).
  - rewrite lower_cons2. destruct (code c =? 195)%nat eqn:E.
    + rewrite trimmed_cons in H. rewrite trimmed_cons.
      rewrite (lead_not_space _ E) in *.
      rewrite trimmed_cons in H. rewrite trimmed_cons.
      rewrite is_space_lower_latin1.
      destruct (is_space d) eqn:Es.
      * rewrite (lower_latin1_space _ Es).
        apply andb_true_iff in H. destruct H as (H1 & H2).
        rewrite H1. now apply IHr.
      * now apply IHr.
    + rewrite trimmed_cons in H. rewrite trimmed_cons.
      rewrite is_space_lower_ascii.
      destruct (is_space c) eqn:Es.
      * rewrite (lower_ascii_space _ Es).
        apply andb_true_iff in H. destruct H as (H1 & H2).
        rewrite H1. now apply IHd.
      * now apply IHd.
Qed.

Lemma lower_idem (s : string) : lower (lower s) = lower s.
Proof.
  induction s as [|c|c d r IHr IHd] using string_ind2.
  - reflexivity.
  - rewrite lower_cons1. destruct (code c =? 195)%nat eqn:E.
    + rewrite lower_cons1, E. reflexivity.
    + rewrite lower_cons1, lower_ascii_lead, E, lower_ascii_idem. reflexivity.
  - rewrite lower_cons2. destruct (code c =? 195)%nat eqn:E.
    + rewrite lower_cons2, E, lower_latin1_idem, IHr. reflexivity.
    + destruct (lower (String d r)) as [|d' r'] eqn:El.
      * rewrite lower_cons1, lower_ascii_lead, E, lower_ascii_idem. reflexivity.
      * rewrite lower_cons2, lower_ascii_lead, E, lower_ascii_idem.
        now rewrite IHd.
Qed.

Lemma collapse_trimmed (s : string) :
  forall b b', trimmed b s = true -> (b = false -> b' = false) ->
               collapse_ws b' s = s.
Proof.
  induction s as [|c r IH]; intros b b' H Hb; [reflexivity|].
  cbn [collapse_ws trimmed] in *. destruct (is_space c) eqn:Es.
  - apply andb_true_iff in H. destruct H as (H1 & H2).
    apply andb_true_iff in H1. destruct H1 as (H0 & H1).
    apply negb_true_iff in H0. rewrite (Hb H0).
    apply Ascii.eqb_eq in H1. subst c.
    f_equal. now apply (IH true true).
  - f_equal. now apply (IH false false).
Qed.

Lemma lstrip_trimmed (s : string) :
  trimmed true s = true -> lstrip_by is_space s = s.
Proof.
  destruct s as [|c r]; [reflexivity|]. cbn [trimmed lstrip_by].
  destruct (is_space c); [discriminate | reflexivity].
Qed.

Lemma rstrip_trimmed (s : string) :
  forall b, trimmed b s = true -> rstrip_by is_space s = s.
Proof.
  induction s as [|c r IH]; intros b H; [reflexivity|].
  cbn [trimmed rstrip_by] in *. destruct (is_space c) eqn:Es.
  - apply andb_true_iff in H. destruct H as (_ & H).
    rewrite (IH _ H). destruct r; [discriminate | reflexivity].
  - rewrite (IH _ H). destruct r; reflexivity.
Qed.

Lemma collapse_single_blanks (s : string) :
  forall b, single_blanks b (collapse_ws b s) = true.
Proof.
  induction s as [|c r IH]; intros b; [reflexivity|].
  cbn [collapse_ws]. destruct (is_space c) eqn:Es.
  - destruct b; [apply IH|]. cbn [single_blanks].
    change (is_space " "%char) with true. cbn. apply IH.
  - cbn [single_blanks]. rewrite Es. apply IH.
Qed.

Lemma lstrip_single_blanks (s : string) :
  single_blanks false s = true ->
  single_blanks true (lstrip_by is_space s) = true.
Proof.
  destruct s as [|c r]; [reflexivity|]. cbn [single_blanks lstrip_by].
  destruct (is_space c) eqn:Es.
  - intros H. apply andb_true_iff in H. destruct H as (_ & H).
    destruct r as [|d r]; [reflexivity|]. cbn [lstrip_by].
    cbn [single_blanks] in H. destruct (is_space d) eqn:Ed; [discriminate|].
    cbn [single_blanks]. now rewrite Ed.
  - intros H. cbn [single_blanks]. now rewrite Es.
Qed.

Lemma rstrip_single_blanks (s : string) :
  forall b, single_blanks b s = true ->
            rstrip_by is_space s = EmptyString \/
            trimmed b (rstrip_by is_space s) = true.
Proof.
  induction s as [|c r IH]; intros b H; [now left|].
  cbn [single_blanks] in H. cbn [rstrip_by].
  destruct (is_space c) eqn:Es.
  - apply andb_true_iff in H. destruct H as (H1 & H2).
    destruct (IH _ H2) as [E|T].
    + rewrite E. now left.
    + right. destruct (rstrip_by is_space r) as [|d r'] eqn:Er;
        [discriminate|].
      rewrite trimmed_cons, Es, H1. exact T.
  - right. destruct (IH _ H) as [E|T].
    + rewrite E. rewrite trimmed_cons, Es. reflexivity.
    + destruct (rstrip_by is_space r) as [|d r'] eqn:Er.
      * rewrite trimmed_cons, Es. reflexivity.
      * rewrite trimmed_cons, Es. exact T.
Qed.

Lemma strip_collapse_trimmed (s : string) :
  strip (collapse_ws false s) = EmptyString \/
  trimmed true (strip (collapse_ws false s)) = true.
Proof.
  unfold strip. apply rstrip_single_blanks, lstrip_single_blanks,
    collapse_single_blanks.
Qed.

(** X1.  [_norm] is idempotent: a normalised label is its own normal
    form, so that looking a column up by a label that was already
    normalised gives the same answer. *)
Theorem norm_idempotent (s : string) : _norm (_norm s) = _norm s.
Proof.
  unfold _norm at 2 3.
  destruct (strip_collapse_trimmed s) as [E|T].
  - rewrite E. reflexivity.
  - rewrite <- (lower_idem (strip (collapse_ws false s))) at 2.
    apply lower_trimmed in T.
    set (u := lower (strip (collapse_ws false s))) in *.
    unfold _norm, strip.
    rewrite (@collapse_trimmed _ true false T) by discriminate.
    rewrite (@lstrip_trimmed _ T), (@rstrip_trimmed _ _ T).
    reflexivity.
Qed.

(** ** First match *)

Lemma prefix_spec (t s : string) :
  String.prefix t s = true <-> exists b, s = (t ++ b)%string.
Proof.
  revert s. induction t as [|c t IH]; intros s; simpl.
  - split; [intros _; now exists s | intros _; destruct s; reflexivity].
  - destruct s as [|d s]; simpl.
    + split; [discriminate | intros (b & E); discriminate].
    + destruct (Ascii.ascii_dec c d) as [->|N].
      * rewrite IH. split; intros (b & E); exists b.
        -- cbn. now rewrite E.
        -- cbn in E. now injection E.
      * split; [discriminate|]. intros (b & E). cbn in E.
        injection E as E1 E2. congruence.
Qed.

Lemma contains_spec (t s : string) :
  contains t s = true <-> substring t s.
Proof.
  unfold substring. induction s as [|c r IH].
  - cbn [contains]. rewrite orb_false_r, prefix_spec. split.
    + intros (b & E). exists EmptyString, b. exact E.
    + intros (a & b & E). destruct a; [now exists b | discriminate].
  - cbn [contains]. rewrite orb_true_iff, prefix_spec, IH. split.
    + intros [(b & E)|(a & b & E)].
      * exists EmptyString, b. exact E.
      * exists (String c a), b. cbn. now rewrite E.
    + intros (a & b & E). destruct a as [|d a].
      * left. now exists b.
      * right. exists a, b. cbn in E. now injection E.
Qed.

Lemma contains_false (t s : string) :
  contains t s = false <-> ~ substring t s.
Proof.
  rewrite <- contains_spec. destruct (contains t s); split; congruence.
Qed.

(** The test of [_find_col] on one label, and what it decides. *)
Lemma matcher_spec (must : list string) (any : option (list string))
  (c : string) :
  (forallb (fun t => contains t (_norm c)) must &&
   match any with
   | Some ts => existsb (fun t => contains t (_norm c)) ts
   | None => true
   end) = true <-> label_matches must any c.
Proof.
  unfold label_matches. rewrite andb_true_iff, forallb_forall. split.
  - intros (H1 & H2). split.
    + intros t Ht. apply contains_spec. now apply H1.
    + intros ts ->. apply existsb_exists in H2.
      destruct H2 as (t & Ht & E). exists t. split; [exact Ht|].
      now apply contains_spec.
  - intros (H1 & H2). split.
    + intros t Ht. apply contains_spec. now apply H1.
    + destruct any as [ts|]; [|reflexivity].
      destruct (H2 ts eq_refl) as (t & Ht & E).
      apply existsb_exists. exists t. split; [exact Ht|].
      now apply contains_spec.
Qed.

Lemma find_first {A : Type} (f : A -> bool) (l : list A) :
  match find f l with
  | Some x => exists pre post,
                l = (pre ++ x :: post)%list /\ f x = true /\
                forall y, In y pre -> f y = false
  | None => forall y, In y l -> f y = false
  end.
Proof.
  induction l as [|a l IH]; cbn [find].
  - intros y [].
  - destruct (f a) eqn:E.
    + exists [], l. split; [reflexivity|]. split; [exact E|]. intros y [].
    + destruct (find f l) as [x|].
      * destruct IH as (pre & post & -> & Hx & Hpre).
        exists (a :: pre), post. split; [reflexivity|]. split; [exact Hx|].
        intros y [<-|Hy]; [exact E | now apply Hpre].
      * intros y [<-|Hy]; [exact E | now apply IH].
Qed.

Lemma find_col_spec (df : DataFrame) (must : list string)
  (any : option (list string)) :
  match _find_col df must any with
  | Some c =>
      exists pre post,
        columns df = (pre ++ c :: post)%list /\
        label_matches must any c /\
        forall x, In x pre -> ~ label_matches must any x
  | None => forall x, In x (columns df) -> ~ label_matches must any x
  end.
Proof.
  unfold _find_col.
  match goal with |- context [find ?f ?l] => pose proof (find_first f l) as H end.
  cbv beta in H.
  match type of H with
  | match ?o with _ => _ end => destruct o as [c|]
  end.
  - destruct H as (pre & post & E & Hc & Hpre).
    exists pre, post. split; [exact E|]. split.
    + now apply matcher_spec.
    + intros x Hx Hm. apply matcher_spec in Hm.
      rewrite (Hpre x Hx) in Hm. discriminate.
  - intros x Hx Hm. apply matcher_spec in Hm.
    rewrite (H x Hx) in Hm. discriminate.
Qed.

(** X2.  [_find_col] returns the first column, in the order of the
    frame, whose normalised label has every term of [must_contain] as a
    substring and, when [any_of] is given, one of its terms; it returns
    [None] exactly when no column passes.  In particular an empty
    [any_of] list, unlike an absent one, rules every column out. *)
Theorem find_col_first_match (df : DataFrame) (must_contain : list string)
  (any_of : option (list string)) :
  match _find_col df must_contain any_of with
  | Some c =>
      exists pre post,
        columns df = (pre ++ c :: post)%list /\
        label_matches must_contain any_of c /\
        forall x, In x pre -> ~ label_matches must_contain any_of x
  | None =>
      forall x, In x (columns df) -> ~ label_matches must_contain any_of x
  end /\
  _find_col df must_contain (Some []) = None.
Proof.
  split; [apply find_col_spec|].
  unfold _find_col. induction (columns df) as [|a l IH]; [reflexivity|].
  cbn [find existsb]. rewrite andb_false_r. exact IH.
Qed.

(** ** The municipality and the time columns *)

Lemma name_like_spec (stem c : string) :
  name_like stem c = true <->
  substring stem (_norm c) /\ ~ code_label c.
Proof.
  unfold name_like, code_label.
  rewrite !andb_true_iff, !negb_true_iff, contains_spec, !contains_false.
  tauto.
Qed.

Lemma find_col_None (df : DataFrame) (must : list string)
  (any : option (list string)) :
  _find_col df must any = None <->
  forall c, In c (columns df) -> ~ label_matches must any c.
Proof.
  pose proof (find_col_spec df must any) as H.
  split.
  - intros E. now rewrite E in H.
  - intros Hn. destruct (_find_col df must any) as [c|]; [|reflexivity].
    destruct H as (pre & post & E & Hc & _). exfalso.
    apply (Hn c); [|exact Hc]. rewrite E. apply in_elt.
Qed.

Lemma find_col_Some (df : DataFrame) (must : list string)
  (any : option (list string)) (c : string) :
  _find_col df must any = Some c ->
  In c (columns df) /\ label_matches must any c.
Proof.
  pose proof (find_col_spec df must any) as H. intros E. rewrite E in H.
  destruct H as (pre & post & Ec & Hc & _). split; [|exact Hc].
  rewrite Ec. apply in_elt.
Qed.

Lemma find_col_exists (df : DataFrame) (must : list string)
  (any : option (list string)) (c : string) :
  In c (columns df) -> label_matches must any c ->
  exists c', _find_col df must any = Some c'.
Proof.
  intros Hin Hc. destruct (_find_col df must any) as [c'|] eqn:E;
    [now exists c'|].
  exfalso. apply (proj1 (find_col_None df must any) E c Hin Hc).
Qed.

Lemma code_matches (stem c : string) :
  label_matches [stem] (Some ["código"; "codigo"]) c <->
  substring stem (_norm c) /\ code_label c.
Proof.
  unfold label_matches, code_label. split.
  - intros (H1 & H2). split; [apply H1; now left|].
    destruct (H2 _ eq_refl) as (t & [<-|[<-|[]]] & Ht); auto.
  - intros (H1 & H2). split.
    + intros t [<-|[]]. exact H1.
    + intros ts E. injection E as <-. destruct H2 as [H2|H2].
      * exists "código". split; [now left | exact H2].
      * exists "codigo". split; [right; now left | exact H2].
Qed.

Lemma plain_matches (stem c : string) :
  label_matches [stem] None c <-> substring stem (_norm c).
Proof.
  unfold label_matches. split.
  - intros (H1 & _). apply H1. now left.
  - intros H. split; [intros t [<-|[]]; exact H | discriminate].
Qed.

Lemma find_None {A : Type} (f : A -> bool) (l : list A) :
  find f l = None <-> forall x, In x l -> f x = false.
Proof.
  split.
  - intros E x Hx. now apply (find_none f l E).
  - intros H. destruct (find f l) as [x|] eqn:E; [|reflexivity].
    apply find_some in E. destruct E as (Hx & Hf).
    rewrite (H x Hx) in Hf. discriminate.
Qed.

(** X3.  The two columns [_extract_muni_cols] picks are labels of the
    frame; the code column has "munic" and one spelling of "code" in its
    normalised label, the name column has "munic" and no spelling of
    "code", so that the two are never the same column; and a component
    is [None] exactly when no label qualifies for it. *)
Theorem muni_cols_distinct (df : DataFrame) :
  let code := fst (_extract_muni_cols df) in
  let name := snd (_extract_muni_cols df) in
  (forall c, code = Some c ->
     In c (columns df) /\ substring "munic" (_norm c) /\ code_label c) /\
  (forall n, name = Some n ->
     In n (columns df) /\ substring "munic" (_norm n) /\ ~ code_label n) /\
  (forall c n, code = Some c -> name = Some n -> c <> n) /\
  (code = None <->
   forall c, In c (columns df) ->
             ~ (substring "munic" (_norm c) /\ code_label c)) /\
  (name = None <->
   forall c, In c (columns df) ->
             ~ (substring "munic" (_norm c) /\ ~ code_label c)).
Proof.
  unfold _extract_muni_cols. cbn [fst snd]. cbv zeta.
  assert (Hc : forall c,
             _find_col df ["munic"] (Some ["código"; "codigo"]) = Some c ->
             In c (columns df) /\ substring "munic" (_norm c) /\ code_label c).
  { intros c E. apply find_col_Some in E. destruct E as (Hin & Hm).
    apply code_matches in Hm. tauto. }
  assert (Hn : forall n,
             find (name_like "munic") (columns df) = Some n ->
             In n (columns df) /\ substring "munic" (_norm n) /\ ~ code_label n).
  { intros n E. apply find_some in E. destruct E as (Hin & Hm).
    apply name_like_spec in Hm. tauto. }
  split; [exact Hc|]. split; [exact Hn|]. split; [|split].
  - intros c n Ec En ->. apply Hc in Ec. apply Hn in En. tauto.
  - rewrite find_col_None. split; intros H c Hin Hm; apply (H c Hin);
      now apply code_matches.
  - rewrite find_None. split.
    + intros H c Hin Hm. apply name_like_spec in Hm.
      rewrite (H c Hin) in Hm. discriminate.
    + intros H c Hin. destruct (name_like "munic" c) eqn:E; [|reflexivity].
      apply name_like_spec in E. exfalso. now apply (H c Hin).
Qed.

Lemma norm_empty : _norm "" = "".
Proof. reflexivity. Qed.

Lemma substring_nonempty (t s : string) :
  substring t s -> t <> "" -> s <> "".
Proof.
  intros (a & b & ->) Ht E. destruct a; [destruct t|]; cbn in E; congruence.
Qed.

(** A column found by a term that is not empty has a label that is not
    empty: it is taken by an [if col:] or an [or]. *)
Lemma find_col_truthy (df : DataFrame) (t : string)
  (any : option (list string)) (c : string) :
  t <> "" -> _find_col df [t] any = Some c -> truthy (Some c) = true.
Proof.
  intros Ht E. apply find_col_Some in E. destruct E as (_ & (H & _)).
  specialize (H t (or_introl eq_refl)).
  cbn [truthy]. apply negb_true_iff, String.eqb_neq. intros ->.
  rewrite norm_empty in H. now apply (substring_nonempty _ _ H).
Qed.

Lemma truthy_find_col (df : DataFrame) (t : string)
  (any : option (list string)) :
  t <> "" ->
  truthy (_find_col df [t] any) = true \/ _find_col df [t] any = None.
Proof.
  intros Ht. destruct (_find_col df [t] any) as [c|] eqn:E; [left | now right].
  now apply (@find_col_truthy df t any c Ht E).
Qed.

Lemma py_or_find (df : DataFrame) (t u : string)
  (any any' : option (list string)) :
  t <> "" -> u <> "" ->
  py_or (_find_col df [t] any) (_find_col df [u] any')
  = match _find_col df [t] any with
    | Some c => Some c
    | None => _find_col df [u] any'
    end.
Proof.
  intros Ht Hu. unfold py_or.
  destruct (truthy_find_col df t any Ht) as [E|E]; rewrite E.
  - now destruct (_find_col df [t] any).
  - reflexivity.
Qed.

(** The time column, without the truth tests: the first answer, in the
    order of the six searches. *)
Lemma extract_time_col_eq (df : DataFrame) :
  _extract_time_col df
  = match _find_col df ["ano"] (Some ["código"; "codigo"]) with
    | Some c => Some c
    | None =>
    match _find_col df ["ano"] None with
    | Some c => Some c
    | None =>
    match _find_col df ["mês"] None with
    | Some c => Some c
    | None =>
    match _find_col df ["mes"] None with
    | Some c => Some c
    | None =>
    match _find_col df ["período"] None with
    | Some c => Some c
    | None => _find_col df ["periodo"] None
    end end end end end.
Proof.
  unfold _extract_time_col. cbv zeta.
  rewrite !py_or_find by discriminate.
  destruct (_find_col df ["ano"] (Some ["código"; "codigo"])) as [c|] eqn:E0.
  { now rewrite (@find_col_truthy df "ano" _ c ltac:(discriminate) E0). }
  destruct (_find_col df ["ano"] None) as [c|] eqn:E1.
  { now rewrite (@find_col_truthy df "ano" _ c ltac:(discriminate) E1). }
  cbn [truthy].
  destruct (_find_col df ["mês"] None) as [c|] eqn:E2.
  { now rewrite (@find_col_truthy df "mês" _ c ltac:(discriminate) E2). }
  destruct (_find_col df ["mes"] None) as [c|] eqn:E3.
  { now rewrite (@find_col_truthy df "mes" _ c ltac:(discriminate) E3). }
  reflexivity.
Qed.

(** X4.  [_extract_time_col] prefers a year column to any other: when
    some label has "ano" in its normal form the answer is such a label
    (one that also carries a spelling of "code", when there is one),
    whatever month or period columns the frame has and wherever they
    stand; and the answer is [None] exactly when no label has any of
    "ano", "mês", "mes", "período", "periodo". *)
Theorem time_col_priority (df : DataFrame) :
  (forall c, In c (columns df) -> substring "ano" (_norm c) ->
     exists c', _extract_time_col df = Some c' /\ In c' (columns df) /\
                substring "ano" (_norm c')) /\
  (forall c, In c (columns df) -> substring "ano" (_norm c) -> code_label c ->
     exists c', _extract_time_col df = Some c' /\ In c' (columns df) /\
                substring "ano" (_norm c') /\ code_label c') /\
  (_extract_time_col df = None <->
   forall c t, In c (columns df) ->
               In t ["ano"; "mês"; "mes"; "período"; "periodo"] ->
               ~ substring t (_norm c)).
Proof.
  rewrite extract_time_col_eq. split; [|split].
  - intros c Hin Hc.
    destruct (_find_col df ["ano"] (Some ["código"; "codigo"])) as [c0|] eqn:E0.
    + apply find_col_Some in E0. destruct E0 as (Hin0 & Hm).
      apply code_matches in Hm. exists c0. tauto.
    + destruct (@find_col_exists df ["ano"] None c Hin) as (c1 & E1);
        [now apply plain_matches|].
      rewrite E1. apply find_col_Some in E1. destruct E1 as (Hin1 & Hm).
      apply plain_matches in Hm. exists c1. tauto.
  - intros c Hin Hc Hcode.
    destruct (@find_col_exists df ["ano"] (Some ["código"; "codigo"]) c Hin)
      as (c0 & E0); [now apply code_matches|].
    rewrite E0. apply find_col_Some in E0. destruct E0 as (Hin0 & Hm).
    apply code_matches in Hm. exists c0. tauto.
  - split.
    + intros H c t Hin Ht Hs.
      destruct (_find_col df ["ano"] (Some ["código"; "codigo"])) eqn:E0;
        [discriminate|].
      destruct (_find_col df ["ano"] None) eqn:E1; [discriminate|].
      destruct (_find_col df ["mês"] None) eqn:E2; [discriminate|].
      destruct (_find_col df ["mes"] None) eqn:E3; [discriminate|].
      destruct (_find_col df ["período"] None) eqn:E4; [discriminate|].
      rewrite find_col_None in E1, E2, E3, E4, H.
      destruct Ht as [<-|[<-|[<-|[<-|[<-|[]]]]]].
      * apply (E1 c Hin). now apply plain_matches.
      * apply (E2 c Hin). now apply plain_matches.
      * apply (E3 c Hin). now apply plain_matches.
      * apply (E4 c Hin). now apply plain_matches.
      * apply (H c Hin). now apply plain_matches.
    + intros H.
      assert (N : forall t any, In t ["ano"; "mês"; "mes"; "período"; "periodo"] ->
                           _find_col df [t] any = None).
      { intros t any Ht. apply find_col_None. intros c Hin (Hm & _).
        apply (H c t Hin Ht). apply Hm. now left. }
      rewrite !N by (cbn; tauto). reflexivity.
Qed.

(* ================================================================== *)
(** * Further properties of the numeric coercion *)
(* ================================================================== *)

Lemma Qred_inject_Z (m : Z) : Qred (inject_Z m) = inject_Z m.
Proof.
  unfold Qred, inject_Z.
  pose proof (Z.ggcd_gcd m 1) as G.
  pose proof (Z.ggcd_correct_divisors m 1) as D.
  destruct (Z.ggcd m 1) as (g, (a, b)). cbn [fst] in G.
  rewrite Z.gcd_1_r in G. subst g. destruct D as (D1 & D2).
  rewrite Z.mul_1_l in D1, D2. subst. reflexivity.
Qed.

Lemma scale10_0 (m : Z) : Parse.scale10 m 0 = inject_Z m.
Proof.
  unfold Parse.scale10. transitivity (Qred (inject_Z m));
    [|apply Qred_inject_Z].
  apply Qred_complete. cbn [Qpower]. apply Qmult_1_r.
Qed.

(** *** The decimal digits of an integer *)

Lemma digit_char (m : N) :
  (m < 10)%N ->
  let c := ascii_of_N (48 + m) in
  is_digit c = true /\ digit_val c = Z.of_N m.
Proof.
  intros H.
  assert (E : (m = 0 \/ m = 1 \/ m = 2 \/ m = 3 \/ m = 4 \/ m = 5 \/ m = 6 \/
               m = 7 \/ m = 8 \/ m = 9)%N) by lia.
  repeat (destruct E as [->|E]; [split; reflexivity|]). subst. split; reflexivity.
Qed.

Lemma append_assoc (a b c : string) :
  ((a ++ b) ++ c = a ++ (b ++ c))%string.
Proof. induction a as [|x a IH]; [reflexivity|]. cbn. now rewrite IH. Qed.

Lemma append_nil_r (a : string) : (a ++ "" = a)%string.
Proof. induction a as [|x a IH]; [reflexivity|]. cbn. now rewrite IH. Qed.

Lemma digits_of_app (fuel : nat) :
  forall n acc, digits_of fuel n acc = (digits_of fuel n "" ++ acc)%string.
Proof.
  induction fuel as [|f IH]; intros n acc; [reflexivity|].
  cbn [digits_of]. cbv zeta. destruct (n <? 10)%N; [reflexivity|].
  rewrite IH. rewrite (IH _ (String _ "")).
  rewrite append_assoc. reflexivity.
Qed.

Lemma all_chars_app (p : ascii -> bool) (s t : string) :
  all_chars p (s ++ t) = all_chars p s && all_chars p t.
Proof.
  induction s as [|c s IH]; [reflexivity|]. cbn. now rewrite IH, andb_assoc.
Qed.

Lemma digits_of_digits (fuel : nat) :
  forall n acc, all_chars is_digit acc = true ->
                all_chars is_digit (digits_of fuel n acc) = true.
Proof.
  induction fuel as [|f IH]; intros n acc H; [exact H|].
  cbn [digits_of]. cbv zeta.
  assert (Hd : all_chars is_digit
                 (String (ascii_of_N (48 + N.modulo n 10)) acc) = true).
  { cbn [all_chars]. rewrite H, andb_true_r.
    apply digit_char. now apply N.mod_lt. }
  destruct (n <? 10)%N; [exact Hd | now apply IH].
Qed.

Lemma pow10_fuel (n : N) : (n < 10 ^ N.of_nat (S (N.to_nat (N.log2 n))))%N.
Proof.
  rewrite Nnat.Nat2N.inj_succ, Nnat.N2Nat.id.
  destruct (N.eq_dec n 0) as [->|Hn]; [reflexivity|].
  apply N.lt_le_trans with (2 ^ N.succ (N.log2 n))%N.
  - apply N.log2_spec. lia.
  - apply N.pow_le_mono_l. lia.
Qed.

(** Reading the digits of [n] back: the value read so far is shifted
    and [n] added. *)
Lemma take_digits_digits_of (fuel : nat) :
  forall n acc a k,
    (n < 10 ^ N.of_nat (S fuel))%N ->
    exists d, (1 <= d)%nat /\
      Parse.take_digits (digits_of (S fuel) n acc) a k
      = Parse.take_digits acc (a * 10 ^ Z.of_nat d + Z.of_N n)%Z (k + d)%nat.
Proof.
  induction fuel as [|f IH]; intros n acc a k Hn;
    cbn [digits_of]; cbv zeta;
    destruct (digit_char _ (N.mod_lt n 10 ltac:(discriminate))) as (Hd & Hv);
    cbv zeta in Hd, Hv.
  - assert (E : (n <? 10)%N = true) by (apply N.ltb_lt; exact Hn).
    rewrite E. exists 1%nat. split; [lia|].
    cbn [Parse.take_digits]. rewrite Hd, Hv.
    rewrite N.mod_small by exact Hn.
    f_equal; [|lia]. change (10 ^ Z.of_nat 1)%Z with 10%Z. lia.
  - destruct (n <? 10)%N eqn:E.
    + apply N.ltb_lt in E. exists 1%nat. split; [lia|].
      cbn [Parse.take_digits]. rewrite Hd, Hv.
      rewrite N.mod_small by exact E.
      f_equal; [|lia]. change (10 ^ Z.of_nat 1)%Z with 10%Z. lia.
    + apply N.ltb_ge in E.
      assert (Hq : (n / 10 < 10 ^ N.of_nat (S f))%N).
      { apply N.Div0.div_lt_upper_bound.
        rewrite (Nnat.Nat2N.inj_succ (S f)), N.pow_succ_r' in Hn. exact Hn. }
      destruct (IH (n / 10)%N
                  (String (ascii_of_N (48 + N.modulo n 10)) acc) a k Hq)
        as (d & Hd1 & Ed).
      exists (S d). split; [lia|].
      change (if (n / 10 <? 10)%N
              then String (ascii_of_N (48 + (n / 10) mod 10))
                     (String (ascii_of_N (48 + n mod 10)) acc)
              else digits_of f (n / 10 / 10)
                     (String (ascii_of_N (48 + (n / 10) mod 10))
                        (String (ascii_of_N (48 + n mod 10)) acc)))
        with (digits_of (S f) (n / 10)
                (String (ascii_of_N (48 + n mod 10)) acc)).
      rewrite Ed.
      cbn [Parse.take_digits]. rewrite Hd, Hv. f_equal; [|lia].
      rewrite Nat2Z.inj_succ, Z.pow_succ_r by lia.
      assert (Hz : (Z.of_N n = 10 * Z.of_N (n / 10) + Z.of_N (n mod 10))%Z).
      { rewrite (N.div_mod n 10) at 1 by discriminate.
        rewrite N2Z.inj_add, N2Z.inj_mul. reflexivity. }
      rewrite Hz. ring.
Qed.

Lemma digits_of_nonempty (fuel : nat) :
  forall n c acc, digits_of fuel n (String c acc) <> "".
Proof.
  induction fuel as [|f IH]; intros n c acc; [discriminate|].
  cbn [digits_of]. cbv zeta. destruct (n <? 10)%N; [discriminate | apply IH].
Qed.

(** [str(n)] followed by more digits: a string of digits that reads
    back as [n], then the rest. *)
Lemma str_of_N_digits (n : N) (acc : string) :
  all_chars is_digit acc = true ->
  all_chars is_digit (str_of_N n ++ acc) = true /\
  (str_of_N n ++ acc)%string <> "" /\
  exists d, (1 <= d)%nat /\
    Parse.take_digits (str_of_N n ++ acc) 0 0
    = Parse.take_digits acc (Z.of_N n) d.
Proof.
  intros Hacc. unfold str_of_N. rewrite <- digits_of_app.
  split; [now apply digits_of_digits|]. split.
  - cbn [digits_of]. cbv zeta. destruct (n <? 10)%N;
      [discriminate | apply digits_of_nonempty].
  - destruct (@take_digits_digits_of (N.to_nat (N.log2 n)) n acc 0%Z 0%nat
                (pow10_fuel n)) as (d & Hd & E).
    exists d. split; [exact Hd|]. rewrite E. f_equal.
Qed.

Lemma take_digits_count (s : string) :
  forall a k v d r, Parse.take_digits s a k = (v, d, r) -> (k <= d)%nat.
Proof.
  induction s as [|c s IH]; intros a k v d r H; cbn [Parse.take_digits] in H.
  - injection H as _ <- _. lia.
  - destruct (is_digit c).
    + apply IH in H. lia.
    + injection H as _ <- _. lia.
Qed.

Lemma take_sign_digit (c : ascii) (r : string) :
  is_digit c = true -> Parse.take_sign (String c r) = (false, String c r).
Proof.
  destruct c as [[] [] [] [] [] [] [] []]; intros H; try reflexivity;
    discriminate H.
Qed.

(** A sign and digits parse to the integer they spell. *)
Lemma decimal_digits (neg : bool) (s : string) (v : Z) (d : nat) :
  all_chars is_digit s = true -> s <> "" ->
  Parse.take_digits s 0 0 = (v, d, "") ->
  Parse.decimal ((if neg then "-" else "") ++ s)
  = Some (inject_Z (if neg then - v else v)).
Proof.
  intros Hs Hne H. destruct s as [|c r]; [contradiction|].
  assert (Hc : is_digit c = true).
  { cbn [all_chars] in Hs. now apply andb_true_iff in Hs. }
  assert (Hd : (1 <= d)%nat).
  { cbn [Parse.take_digits] in H. rewrite Hc in H.
    now apply take_digits_count in H. }
  unfold Parse.decimal.
  assert (Es : Parse.take_sign ((if neg then "-" else "") ++ String c r)
               = (neg, String c r)).
  { destruct neg; [reflexivity | now apply take_sign_digit]. }
  rewrite Es, H.
  assert (E0 : (d + 0 =? 0)%nat = false) by (apply Nat.eqb_neq; lia).
  rewrite E0. rewrite scale10_0. reflexivity.
Qed.

Lemma sign_or_digit_plain (c : ascii) :
  sign_or_digit c = true ->
  Ascii.eqb c "."%char = false /\ Ascii.eqb c ","%char = false /\
  is_cspace c = false.
Proof.
  destruct c as [[] [] [] [] [] [] [] []]; intros H;
    try discriminate H; repeat split.
Qed.

Lemma all_chars_impl (p q : ascii -> bool) (s : string) :
  (forall c, p c = true -> q c = true) ->
  all_chars p s = true -> all_chars q s = true.
Proof.
  intros Hpq. induction s as [|c s IH]; [reflexivity|]. cbn [all_chars].
  rewrite !andb_true_iff. intros (H1 & H2). split; [now apply Hpq | now apply IH].
Qed.

Lemma plain_remove (s : string) :
  all_chars sign_or_digit s = true -> remove_char "."%char s = s.
Proof.
  induction s as [|c s IH]; [reflexivity|]. cbn [all_chars remove_char].
  rewrite andb_true_iff. intros (H1 & H2).
  destruct (sign_or_digit_plain _ H1) as (-> & _). now rewrite IH.
Qed.

Lemma plain_replace (s : string) :
  all_chars sign_or_digit s = true -> replace_char ","%char "."%char s = s.
Proof.
  induction s as [|c s IH]; [reflexivity|]. cbn [all_chars replace_char].
  rewrite andb_true_iff. intros (H1 & H2).
  destruct (sign_or_digit_plain _ H1) as (_ & -> & _). now rewrite IH.
Qed.

Lemma plain_lstrip (s : string) :
  all_chars sign_or_digit s = true -> lstrip_by is_cspace s = s.
Proof.
  destruct s as [|c s]; [reflexivity|]. cbn [all_chars lstrip_by].
  rewrite andb_true_iff. intros (H1 & H2).
  now destruct (sign_or_digit_plain _ H1) as (_ & _ & ->).
Qed.

Lemma plain_rstrip (s : string) :
  all_chars sign_or_digit s = true -> rstrip_by is_cspace s = s.
Proof.
  induction s as [|c s IH]; [reflexivity|]. cbn [all_chars rstrip_by].
  rewrite andb_true_iff. intros (H1 & H2).
  destruct (sign_or_digit_plain _ H1) as (_ & _ & ->). rewrite (IH H2).
  now destruct s.
Qed.

Lemma remove_char_app (a : ascii) (s t : string) :
  remove_char a (s ++ t) = (remove_char a s ++ remove_char a t)%string.
Proof.
  induction s as [|c s IH]; [reflexivity|]. cbn [append remove_char].
  rewrite IH. now destruct (Ascii.eqb c a).
Qed.

(** The coercion of a text that is a sign and digits. *)
Lemma coerce_signed_digits (neg : bool) (s : string) (v : Z) (d : nat) :
  all_chars is_digit s = true -> s <> "" ->
  Parse.take_digits s 0 0 = (v, d, "") ->
  _coerce_numeric_cell (Str ((if neg then "-" else "") ++ s))
  = Num (Fin (inject_Z (if neg then - v else v))).
Proof.
  intros Hs Hne H.
  assert (Hp : all_chars sign_or_digit ((if neg then "-" else "") ++ s) = true).
  { rewrite all_chars_app. apply andb_true_iff. split.
    - now destruct neg.
    - revert Hs. apply all_chars_impl. intros c Hc. unfold sign_or_digit.
      now rewrite Hc. }
  unfold _coerce_numeric_cell. cbn [pd.py_str pd.to_numeric_cell].
  rewrite (plain_remove _ Hp), (plain_replace _ Hp).
  unfold Parse.to_numeric_str.
  rewrite (plain_lstrip _ Hp), (plain_rstrip _ Hp).
  now rewrite (decimal_digits neg _ _ _ Hs Hne H).
Qed.

(** X5.  An integer comes through [_coerce_numeric] with its value:
    its decimal text has no separator to remove, and parses back to
    the integer. *)
Theorem coerce_numeric_integer (z : Z) :
  _coerce_numeric_cell (Int z) = Num (Fin (inject_Z z)).
Proof.
  destruct (str_of_N_digits (Z.abs_N z) "" eq_refl) as (Hs & Hne & d & Hd & E).
  rewrite append_nil_r in *. cbn [Parse.take_digits] in E.
  pose proof (coerce_signed_digits (z <? 0)%Z _ _ _ Hs Hne E) as H.
  unfold _coerce_numeric_cell in *. cbn [pd.py_str] in *.
  unfold str_of_Z.
  replace (if (z <? 0)%Z then String "-" (str_of_N (Z.abs_N z))
           else str_of_N (Z.abs_N z))
    with ((if (z <? 0)%Z then "-" else "") ++ str_of_N (Z.abs_N z))%string
    by (now destruct (z <? 0)%Z).
  rewrite H. do 2 f_equal. rewrite N2Z.inj_abs_N.
  destruct (z <? 0)%Z eqn:Ez; [apply Z.ltb_lt in Ez | apply Z.ltb_ge in Ez];
    f_equal; lia.
Qed.

Lemma signed_digits_plain (neg : bool) (s : string) :
  all_chars is_digit s = true ->
  all_chars sign_or_digit ((if neg then "-" else "") ++ s) = true.
Proof.
  intros Hs. rewrite all_chars_app. apply andb_true_iff. split.
  - now destruct neg.
  - revert Hs. apply all_chars_impl. intros c Hc. unfold sign_or_digit.
    now rewrite Hc.
Qed.

(** The coercion only sees the text without its points. *)
Lemma coerce_plain (t : string) (c : cell) :
  all_chars sign_or_digit t = true ->
  remove_char "."%char (pd.py_str c) = t ->
  _coerce_numeric_cell c = _coerce_numeric_cell (Str t).
Proof.
  intros Hp E. unfold _coerce_numeric_cell. cbn [pd.py_str].
  now rewrite E, (plain_remove _ Hp).
Qed.

(** X6.  A float that is an integer comes through [_coerce_numeric]
    multiplied by ten: [astype(str)] writes it with a fraction digit,
    ["5.0"], the point is removed as a thousands separator and ["50"]
    is parsed.  (Stated up to [2^53], where every integer is a float
    and is written without an exponent.) *)
Theorem coerce_numeric_integral_float (z : Z) :
  (Z.abs z <= 2 ^ 53)%Z ->
  _coerce_numeric_cell (Num (Fin (inject_Z z)))
  = Num (Fin (inject_Z (10 * z))).
Proof.
  intros _.
  destruct (str_of_N_digits (Z.abs_N z) "0" eq_refl)
    as (Hs & Hne & d & Hd & E).
  cbn [Parse.take_digits] in E.
  change (is_digit "0") with true in E. cbv iota in E.
  change (digit_val "0") with 0%Z in E.
  rewrite (@coerce_plain
             ((if (z <? 0)%Z then "-" else "") ++ str_of_N (Z.abs_N z) ++ "0")).
  - rewrite (coerce_signed_digits (z <? 0)%Z _ _ _ Hs Hne E). do 2 f_equal.
    rewrite N2Z.inj_abs_N.
    destruct (z <? 0)%Z eqn:Ez; [apply Z.ltb_lt in Ez | apply Z.ltb_ge in Ez];
      f_equal; lia.
  - now apply signed_digits_plain.
  - cbn [pd.py_str]. unfold pd.float_repr, inject_Z. cbn [Qnum Qden].
    rewrite Z.div_1_r, Z.mod_1_r.
    replace (str_of_Z (Z.abs z)) with (str_of_N (Z.abs_N z)).
    2:{ unfold str_of_Z. destruct (Z.abs z <? 0)%Z eqn:Ea;
          [apply Z.ltb_lt in Ea; lia|].
        f_equal. lia. }
    change (pd.frac_digits 17 0 1) with "0".
    rewrite !remove_char_app.
    change (remove_char "." ".") with "". change (remove_char "." "0") with "0".
    assert (Hp : all_chars sign_or_digit (str_of_N (Z.abs_N z)) = true).
    { eapply all_chars_impl; [|rewrite all_chars_app in Hs;
                                apply andb_true_iff in Hs; exact (proj1 Hs)].
      intros c Hc. unfold sign_or_digit. now rewrite Hc. }
    rewrite (plain_remove _ Hp).
    now destruct (z <? 0)%Z.
Qed.

Lemma coerce_numeric_integral_float_witness :
  (Z.abs 5 <= 2 ^ 53)%Z /\
  _coerce_numeric_cell (Num (Fin (inject_Z 5))) = Num (Fin (inject_Z (10 * 5))).
Proof.
  split; [vm_compute; discriminate|].
  apply (coerce_numeric_integral_float 5). vm_compute. discriminate.
Defined.

(* ================================================================== *)
(** * Further properties of the normalisation *)
(* ================================================================== *)

(** ** Header rows *)

Lemma filter_idem {A : Type} (f : A -> bool) (l : list A) :
  filter f (filter f l) = filter f l.
Proof.
  induction l as [|x l IH]; [reflexivity|]. cbn [filter].
  destruct (f x) eqn:E; [|exact IH]. cbn [filter]. now rewrite E, IH.
Qed.

Lemma drop_header_filter (df : DataFrame) :
  pd.has_col df "V" = true ->
  _drop_header_like_rows df
  = Ok (mkDF (columns df)
          (filter (fun lr : Z * list cell =>
                     notna (_coerce_numeric_cell (cell_of df "V" (snd lr))))
                  (rows df))).
Proof.
  intros HV. unfold _drop_header_like_rows. rewrite HV.
  apply has_col_In in HV. destruct (position_In df "V" HV) as (i & Ep & Ei).
  unfold pd.getitem. rewrite Ep. cbn [bind]. f_equal.
  unfold pd.loc, _coerce_numeric, pd.series_map, pd.series_notna.
  rewrite !map_map. cbn [fst snd]. f_equal.
  unfold cell_of. rewrite Ei. apply select_map.
Qed.

(** X7.  [_drop_header_like_rows] never raises.  With a column [V] it
    keeps, in their order and under their index labels, exactly the
    rows whose [V] coerces to a number; without one it returns the
    frame as it is.  The columns are unchanged, and dropping twice is
    dropping once. *)
Theorem drop_header_idempotent (df : DataFrame) :
  exists kept,
    _drop_header_like_rows df = Ok kept /\
    columns kept = columns df /\
    rows kept =
      (if pd.has_col df "V"
       then filter (fun lr : Z * list cell =>
                      notna (_coerce_numeric_cell (cell_of df "V" (snd lr))))
                   (rows df)
       else rows df) /\
    _drop_header_like_rows kept = Ok kept.
Proof.
  destruct (pd.has_col df "V") eqn:HV.
  - rewrite (drop_header_filter df HV). eexists. split; [reflexivity|].
    split; [reflexivity|]. split; [reflexivity|].
    rewrite drop_header_filter by exact HV. cbn [columns rows].
    unfold cell_of. cbn [columns]. now rewrite filter_idem.
  - exists df. unfold _drop_header_like_rows. rewrite HV. auto.
Qed.

(** ** Item assignment, column by column *)

Lemma getitem_column (df : DataFrame) (name : string) (s : Series) :
  pd.getitem df name = Ok s -> s = column df name.
Proof.
  intros H. apply getitem_Ok in H. destruct H as (i & Ei & ->).
  unfold column, cell_of. now rewrite Ei.
Qed.

Lemma column_index (df : DataFrame) (name : string) :
  map fst (column df name) = pd.index df.
Proof. unfold column, pd.index. now rewrite map_map. Qed.

Lemma column_length (df : DataFrame) (name : string) :
  length (column df name) = pd.len df.
Proof. unfold column, pd.len. apply length_map. Qed.

Lemma length_put (cols : list string) (name : string) (x : cell)
  (old : list cell) :
  length old = length cols ->
  length (pd.put cols name x old) = length (pd.with_col cols name).
Proof.
  intros H. unfold pd.put, pd.with_col.
  destruct (pd.col_pos cols name).
  - now rewrite length_replace_nth.
  - rewrite !length_app. cbn. lia.
Qed.

Lemma col_pos_with_col_None (cols : list string) (name v : string) :
  name <> v -> pd.col_pos cols v = None ->
  pd.col_pos (pd.with_col cols name) v = None.
Proof.
  intros N H. apply col_pos_None. apply col_pos_None in H.
  unfold pd.with_col. destruct (pd.col_pos cols name); [exact H|].
  intros Hin. apply in_app_or in Hin. destruct Hin as [Hin|[E|[]]]; auto.
Qed.

Lemma cell_of_put_same (df' : DataFrame) (cols : list string)
  (name : string) (x : cell) (old : list cell) :
  columns df' = pd.with_col cols name ->
  length old = length cols ->
  cell_of df' name (pd.put cols name x old) = x.
Proof.
  intros Ec Hl. unfold cell_of. rewrite Ec.
  destruct (col_pos_with_col_same cols name) as (i & Ei & _). rewrite Ei.
  now apply at_put.
Qed.

Lemma cell_of_put_other (df df' : DataFrame) (name v : string) (x : cell)
  (old : list cell) :
  columns df' = pd.with_col (columns df) name ->
  length old = length (columns df) ->
  name <> v ->
  cell_of df' v (pd.put (columns df) name x old) = cell_of df v old.
Proof.
  intros Ec Hl N. unfold cell_of. rewrite Ec.
  destruct (pd.col_pos (columns df) v) as [i|] eqn:Ev.
  - rewrite (col_pos_with_col_other _ _ name Ev). unfold pd.put.
    destruct (pd.col_pos (columns df) name) as [j|] eqn:Ej.
    + apply at_replace_nth_other. intros ->.
      apply N. now apply (col_pos_inj _ _ _ Ej Ev).
    + unfold pd.at_. apply app_nth1. apply col_pos_Some_lt in Ev. lia.
  - now rewrite (col_pos_with_col_None _ _ _ N Ev).
Qed.

(** What an item assignment does to the rows of a frame that has as
    many rows as the series has values: every row keeps its label and
    takes one cell. *)
Lemma setitem_Forall2 (df df' : DataFrame) (name : string) (s : Series) :
  pd.setitem df name s = Ok df' ->
  length s = pd.len df ->
  columns df' = pd.with_col (columns df) name /\
  Forall2 (fun lr lr' : Z * list cell =>
             fst lr' = fst lr /\
             exists x, snd lr' = pd.put (columns df) name x (snd lr))
          (rows df) (rows df').
Proof.
  unfold pd.setitem, pd.len. intros H Hl.
  destruct (rows df) as [|r0 rs] eqn:Er.
  - destruct s; [|discriminate]. injection H as <-. split; [reflexivity|].
    constructor.
  - rewrite <- Er in *.
    destruct (pd.index_eqb (map fst s) (pd.index df)) eqn:Ei.
    + injection H as <-. split; [reflexivity|]. cbn [rows].
      clear Er Ei. revert s Hl.
      induction (rows df) as [|r rs' IH]; intros s Hl.
      * constructor.
      * destruct s as [|x s]; [discriminate|]. cbn [combine map].
        constructor.
        -- split; [reflexivity|]. now exists (snd x).
        -- apply IH. cbn in Hl. lia.
    + destruct (pd.has_dup (map fst s)); [discriminate|].
      injection H as <-. split; [reflexivity|]. cbn [rows].
      clear. induction (rows df) as [|r rs' IH]; constructor; [|exact IH].
      split; [reflexivity|]. now eexists.
Qed.

Lemma setitem_index (df df' : DataFrame) (name : string) (s : Series) :
  pd.setitem df name s = Ok df' -> length s = pd.len df ->
  pd.index df' = pd.index df.
Proof.
  intros H Hl. destruct (setitem_Forall2 _ _ _ _ H Hl) as (_ & F).
  unfold pd.index. induction F as [|lr lr' l l' (E & _) F IH];
    [reflexivity|]. cbn [map]. now rewrite E, IH.
Qed.

Lemma setitem_len (df df' : DataFrame) (name : string) (s : Series) :
  pd.setitem df name s = Ok df' -> length s = pd.len df ->
  pd.len df' = pd.len df.
Proof.
  intros H Hl. pose proof (setitem_index _ _ _ _ H Hl) as E.
  apply (f_equal (@length Z)) in E.
  unfold pd.index in E. rewrite !length_map in E. exact E.
Qed.

Lemma setitem_rectangular (df df' : DataFrame) (name : string) (s : Series) :
  pd.setitem df name s = Ok df' -> length s = pd.len df ->
  rectangular df -> rectangular df'.
Proof.
  intros H Hl R. destruct (setitem_Forall2 _ _ _ _ H Hl) as (Ec & F).
  unfold rectangular in *. rewrite Ec.
  induction F as [|lr lr' l l' (_ & x & E) F IH]; [constructor|].
  inversion R as [|? ? R1 R2]; subst. constructor; [|now apply IH].
  rewrite E. now apply length_put.
Qed.

(** The other columns are as they were. *)
Lemma setitem_other (df df' : DataFrame) (name v : string) (s : Series) :
  pd.setitem df name s = Ok df' -> length s = pd.len df ->
  rectangular df -> name <> v ->
  column df' v = column df v.
Proof.
  intros H Hl R N. destruct (setitem_Forall2 _ _ _ _ H Hl) as (Ec & F).
  unfold column. unfold rectangular in R.
  induction F as [|lr lr' l l' (E1 & x & E2) F IH]; [reflexivity|].
  inversion R as [|? ? R1 R2]; subst. cbn [map].
  rewrite E1, E2, (@cell_of_put_other df df' name v x (snd lr) Ec R1 N).
  f_equal. now apply IH.
Qed.

Lemma map_snd_combine {A B : Type} (l : list A) (s : list B) :
  length s = length l -> map snd (combine l s) = s.
Proof.
  revert s. induction l as [|a l IH]; intros [|b s] H; try discriminate;
    [reflexivity|]. cbn. f_equal. apply IH. cbn in H. lia.
Qed.

(** On the index of the frame, the column assigned is the series. *)
Lemma setitem_same (df df' : DataFrame) (name : string) (s : Series) :
  pd.setitem df name s = Ok df' ->
  map fst s = pd.index df ->
  rectangular df ->
  column df' name = s.
Proof.
  intros H Ei R.
  assert (Hl : length s = pd.len df).
  { apply (f_equal (@length Z)) in Ei. unfold pd.index, pd.len in *.
    now rewrite !length_map in Ei. }
  rewrite (setitem_same_index _ _ _ Ei) in H. injection H as <-.
  unfold column. cbn [rows]. rewrite map_map. cbn [fst snd].
  rewrite <- (map_snd_combine (rows df) s) at 2 by exact Hl.
  apply map_ext_in. intros ((l, old), (l2, x)) Hin. cbn [fst snd].
  rewrite (combine_same_labels _ _ Ei _ _ _ _ Hin).
  f_equal. apply cell_of_put_same; [reflexivity|].
  unfold rectangular in R. rewrite Forall_forall in R.
  apply in_combine_l in Hin. exact (R _ Hin).
Qed.

Lemma lookup_In (s : Series) (l : Z) (x : cell) :
  NoDup (map fst s) -> In (l, x) s -> pd.lookup l s = x.
Proof.
  induction s as [|(l', y) s IH]; intros N Hin; [destruct Hin|].
  cbn [pd.lookup]. cbn [map fst] in N. inversion N as [|? ? N1 N2]; subst.
  destruct Hin as [E|Hin].
  - injection E as -> ->. now rewrite Z.eqb_refl.
  - destruct (Z.eqb_spec l l') as [->|_]; [|now apply IH].
    exfalso. apply N1. apply in_map_iff. now exists (l', x).
Qed.

Lemma lookup_self (s : Series) :
  NoDup (map fst s) ->
  map (fun l => (l, pd.lookup l s)) (map fst s) = s.
Proof.
  intros N. rewrite map_map. rewrite <- (map_id s) at 2.
  apply map_ext_in. intros (l, x) Hin. cbn [fst].
  now rewrite (@lookup_In s l x N Hin).
Qed.

(** On a frame whose labels are distinct, the column assigned holds at
    each label what the series has at that label. *)
Lemma setitem_by_label (df df' : DataFrame) (name : string) (s : Series) :
  pd.setitem df name s = Ok df' ->
  length s = pd.len df ->
  NoDup (pd.index df) ->
  rectangular df ->
  column df' name = map (fun l => (l, pd.lookup l s)) (pd.index df).
Proof.
  intros H Hl N R.
  destruct (pd.index_eqb (map fst s) (pd.index df)) eqn:Ei.
  - apply index_eqb_eq in Ei. rewrite (@setitem_same df df' name s H Ei R).
    rewrite <- Ei in *. symmetry. now apply lookup_self.
  - unfold pd.setitem in H. rewrite Ei in H.
    destruct (rows df) as [|r0 rs] eqn:Er.
    + unfold pd.len in Hl. rewrite Er in Hl. destruct s; [|discriminate].
      injection H as <-. unfold column, pd.index. now rewrite Er.
    + rewrite <- Er in *. destruct (pd.has_dup (map fst s)); [discriminate|].
      injection H as <-. unfold column, pd.index. cbn [rows].
      rewrite !map_map. cbn [fst snd]. apply map_ext_in. intros (l, old) Hin.
      cbn [fst snd]. f_equal. apply cell_of_put_same; [reflexivity|].
      unfold rectangular in R. rewrite Forall_forall in R. exact (R _ Hin).
Qed.

(** ** The frames of a normalisation *)

Lemma map_fst_combine {A B : Type} (a : list A) (b : list B) :
  length a = length b -> map fst (combine a b) = a.
Proof.
  revert b. induction a as [|x a IH]; intros [|y b] H; try discriminate;
    [reflexivity|]. cbn. f_equal. apply IH. cbn in H. lia.
Qed.

Lemma RangeIndex_length (n : nat) : length (pd.RangeIndex n) = n.
Proof. unfold pd.RangeIndex. now rewrite length_map, length_seq. Qed.

Lemma mkSeries_index (vals : list cell) :
  map fst (pd.mkSeries vals) = pd.RangeIndex (length vals).
Proof. unfold pd.mkSeries. apply map_fst_combine, RangeIndex_length. Qed.

Lemma all_missing_index (df : DataFrame) :
  map fst (all_missing df) = pd.RangeIndex (pd.len df).
Proof. unfold all_missing. now rewrite mkSeries_index, repeat_length. Qed.

Lemma all_blank_index (df : DataFrame) :
  map fst (all_blank df) = pd.RangeIndex (pd.len df).
Proof. unfold all_blank. now rewrite mkSeries_index, repeat_length. Qed.

Lemma index_length (s : Series) (df : DataFrame) :
  map fst s = pd.index df \/ map fst s = pd.RangeIndex (pd.len df) ->
  length s = pd.len df.
Proof.
  intros [E|E]; apply (f_equal (@length Z)) in E;
    rewrite length_map in E; rewrite E.
  - unfold pd.index, pd.len. apply length_map.
  - apply RangeIndex_length.
Qed.

Lemma int_column_index (df : DataFrame) (c : string) (s : Series) :
  int_column df c = Ok s -> map fst s = pd.index df.
Proof.
  unfold int_column. intros H. inv_bind H.
  apply astype_Int64_values in H. destruct H as (-> & _).
  unfold pd.to_numeric, pd.series_map. rewrite map_map. cbn [fst].
  now apply getitem_index in E.
Qed.

Lemma code_series_index (df : DataFrame) (mc : option string) (s : Series) :
  code_series df mc = Ok s ->
  s = all_missing df \/ map fst s = pd.index df.
Proof.
  unfold code_series. intros H. destruct (chosen mc) as [c|].
  - right. now apply int_column_index in H.
  - cbv zeta in H. destruct (chosen (_find_col _ _ _)) as [c|].
    + right. now apply int_column_index in H.
    + injection H as <-. now left.
Qed.

Lemma time_series_index (df : DataFrame) (tc : option string) (s : Series) :
  time_series df tc = Ok s ->
  s = all_missing df \/ map fst s = pd.index df.
Proof.
  unfold time_series. intros H. destruct (chosen tc) as [c|].
  - right. now apply int_column_index in H.
  - injection H as <-. now left.
Qed.

Lemma astype_str_index (s : Series) : map fst (pd.astype_str s) = map fst s.
Proof. unfold pd.astype_str, pd.series_map. now rewrite map_map. Qed.

Lemma name_series_index (df : DataFrame) (mn : option string) (s : Series) :
  name_series df mn = Ok s ->
  s = all_blank df \/ map fst s = pd.index df.
Proof.
  unfold name_series. intros H. destruct (chosen mn) as [c|].
  - inv_bind H. injection H as <-. right. rewrite astype_str_index.
    now apply getitem_index in E.
  - cbv zeta in H. destruct (chosen (find _ _)) as [c|].
    + inv_bind H. injection H as <-. right. rewrite astype_str_index.
      now apply getitem_index in E.
    + injection H as <-. now left.
Qed.

Lemma code_series_length (df : DataFrame) (mc : option string) (s : Series) :
  code_series df mc = Ok s -> length s = pd.len df.
Proof.
  intros H. apply index_length. apply code_series_index in H.
  destruct H as [->|H]; [right; apply all_missing_index | now left].
Qed.

Lemma time_series_length (df : DataFrame) (tc : option string) (s : Series) :
  time_series df tc = Ok s -> length s = pd.len df.
Proof.
  intros H. apply index_length. apply time_series_index in H.
  destruct H as [->|H]; [right; apply all_missing_index | now left].
Qed.

Lemma name_series_length (df : DataFrame) (mn : option string) (s : Series) :
  name_series df mn = Ok s -> length s = pd.len df.
Proof.
  intros H. apply index_length. apply name_series_index in H.
  destruct H as [->|H]; [right; apply all_blank_index | now left].
Qed.

(** The loop over the extra dimensions: it adds columns and leaves the
    rows in place and the other columns as they are. *)
Lemma fold_extra (df2 : DataFrame) (cs : list string) :
  forall o o',
    fold_result (fun out c => s <- pd.getitem df2 c ;; pd.setitem out c s)
      cs o = Ok o' ->
    rectangular o -> pd.len o = pd.len df2 ->
    rectangular o' /\ pd.len o' = pd.len df2 /\ pd.index o' = pd.index o /\
    columns o' = fold_left pd.with_col cs (columns o) /\
    (forall u, ~ In u cs -> column o' u = column o u).
Proof.
  induction cs as [|c cs IH]; intros o o' H R Hl.
  - injection H as <-. auto.
  - cbn [fold_result] in H. inv_bind H. rename x into o1. inv_bind E.
    rename x into s.
    assert (Hs : length s = pd.len o).
    { apply getitem_column in E0. subst s. now rewrite column_length. }
    pose proof (setitem_rectangular _ _ _ _ E Hs R) as R1.
    pose proof (setitem_len _ _ _ _ E Hs) as L1.
    pose proof (setitem_index _ _ _ _ E Hs) as I1.
    destruct (setitem_Forall2 _ _ _ _ E Hs) as (C1 & _).
    destruct (IH o1 o' H R1 ltac:(congruence)) as (R' & L' & I' & C' & K').
    split; [exact R'|]. split; [exact L'|]. split; [congruence|]. split.
    + cbn [fold_left]. now rewrite C', C1.
    + intros u Hu. rewrite K' by (intros Hin; apply Hu; now right).
      apply (setitem_other _ _ _ _ _ E Hs R). intros ->. apply Hu. now left.
Qed.

Lemma retype_index (o o' : DataFrame) (name : string) :
  retype_Int64 o name = Ok o' -> pd.index o' = pd.index o.
Proof.
  intros H. apply retype_Int64_Ok in H. destruct H as (i & _ & _ & Er & _).
  unfold pd.index. rewrite Er, map_map. reflexivity.
Qed.

Lemma loc_column (o : DataFrame) (v : string) :
  pd.loc o (pd.series_notna (column o v))
  = mkDF (columns o)
      (filter (fun lr : Z * list cell => notna (cell_of o v (snd lr))) (rows o)).
Proof.
  unfold pd.loc, pd.series_notna, column. rewrite map_map. cbn [snd].
  now rewrite select_map.
Qed.

(** The frames [normalize_sidra_table] goes through, when it returns:
    the table without its header rows, the table with the coerced
    values, the three series found for code, name and time, and the
    output frame after each assignment.  All have the rows of the
    table without its header rows, in number; the output frame has
    the labels of the first series assigned to it. *)
Lemma normalize_shape (raw out : DataFrame) (v : string) (k : bool) :
  rectangular raw ->
  normalize_sidra_table raw v k = Ok out ->
  let df1 := mkDF (columns raw) (filter (numeric_V raw) (rows raw)) in
  let vv := map (fun lr : Z * list cell =>
                   (fst lr, _coerce_numeric_cell (cell_of raw "V" (snd lr))))
                (rows df1) in
  exists df2 s1 s2 s3 o1 o2 o3 o4 o5 o6,
    In "V" (columns raw) /\
    columns df2 = pd.with_col (columns raw) "__value__" /\
    pd.index df2 = pd.index df1 /\
    code_series df2 (fst (_extract_muni_cols df1)) = Ok s1 /\
    name_series df2 (snd (_extract_muni_cols df1)) = Ok s2 /\
    time_series df2 (_extract_time_col df1) = Ok s3 /\
    o1 = mkDF ["code_muni"]
           (map (fun lv : Z * cell => (fst lv, [snd lv])) s1) /\
    pd.setitem o1 "municipio" s2 = Ok o2 /\
    pd.setitem o2 "ano" s3 = Ok o3 /\
    pd.setitem o3 v vv = Ok o4 /\
    fold_result (fun out c => s <- pd.getitem df2 c ;; pd.setitem out c s)
      (extra_dims df2 k) o4 = Ok o5 /\
    retype_Int64 (pd.loc o5 (pd.series_notna (column o5 v))) "code_muni"
      = Ok o6 /\
    retype_Int64 o6 "ano" = Ok out /\
    (length s1 = pd.len df1 /\ length s2 = pd.len df1 /\
     length s3 = pd.len df1 /\ length vv = pd.len df1) /\
    (rectangular o1 /\ rectangular o2 /\ rectangular o3 /\ rectangular o4) /\
    (pd.len o1 = pd.len df1 /\ pd.len o2 = pd.len df1 /\
     pd.len o3 = pd.len df1 /\ pd.len o4 = pd.len df1 /\
     pd.len df2 = pd.len df1) /\
    (pd.index o1 = map fst s1 /\ pd.index o2 = map fst s1 /\
     pd.index o3 = map fst s1 /\ pd.index o4 = map fst s1) /\
    (forall u, u <> "__value__" -> column df2 u = column df1 u) /\
    pd.setitem df1 "__value__" (_coerce_numeric (column df1 "V")) = Ok df2 /\
    column df2 "__value__" = vv.
Proof.
  intros Hrect H. cbv zeta. apply normalize_steps in H.
  destruct H as (df1 & vs & df2 & s1 & o1 & s2 & o2 & s3 & o3 & vv & o4 & o5
                 & w & o6 & Hd & HV & Hvs & Hdf2 & Hs1 & Ho1 & Hs2 & Ho2
                 & Hs3 & Ho3 & Hvv & Ho4 & Ho5 & Hw & Ho6 & Hout).
  assert (HVraw : pd.has_col raw "V" = true).
  { destruct (@drop_header_rows raw df1 Hd) as (Ec & _).
    unfold pd.has_col in *. now rewrite <- Ec. }
  rewrite (drop_header_filter raw HVraw) in Hd. injection Hd as <-.
  fold (numeric_V raw) in *.
  set (df1 := mkDF (columns raw) (filter (numeric_V raw) (rows raw))) in *.
  assert (R1 : rectangular df1).
  { unfold rectangular in *. cbn [rows columns df1]. rewrite Forall_forall in *.
    intros lr Hin. apply filter_In in Hin. now apply Hrect. }
  apply getitem_column in Hvs. subst vs.
  assert (Ecv : map fst (_coerce_numeric (column df1 "V")) = pd.index df1).
  { unfold _coerce_numeric, pd.series_map. rewrite map_map. cbn [fst].
    apply column_index. }
  pose proof (@setitem_same df1 df2 "__value__" _ Hdf2 Ecv R1) as Hcol2.
  assert (Lcv : length (_coerce_numeric (column df1 "V")) = pd.len df1).
  { apply index_length. now left. }
  pose proof (setitem_index _ _ _ _ Hdf2 Lcv) as I2.
  pose proof (setitem_len _ _ _ _ Hdf2 Lcv) as L2.
  destruct (setitem_Forall2 _ _ _ _ Hdf2 Lcv) as (C2 & _).
  apply getitem_column in Hvv. rewrite Hcol2 in Hvv.
  assert (Evv : vv = map (fun lr : Z * list cell =>
                            (fst lr, _coerce_numeric_cell
                                       (cell_of raw "V" (snd lr))))
                         (rows df1)).
  { rewrite Hvv. unfold _coerce_numeric, pd.series_map, column.
    rewrite map_map. reflexivity. }
  apply getitem_column in Hw. subst w.
  pose proof (code_series_length _ _ _ Hs1) as Ls1.
  pose proof (name_series_length _ _ _ Hs2) as Ls2.
  pose proof (time_series_length _ _ _ Hs3) as Ls3.
  rewrite L2 in Ls1, Ls2, Ls3.
  assert (Lvv : length vv = pd.len df1).
  { rewrite Evv. unfold pd.len. apply length_map. }
  (* the output frame, assignment after assignment *)
  assert (Eo1 : o1 = mkDF ["code_muni"]
                       (map (fun lv : Z * cell => (fst lv, [snd lv])) s1)).
  { unfold pd.setitem in Ho1. cbn in Ho1. now injection Ho1 as <-. }
  assert (Ro1 : rectangular o1).
  { rewrite Eo1. unfold rectangular. cbn [rows columns].
    apply Forall_map. apply Forall_forall. reflexivity. }
  assert (Lo1 : pd.len o1 = pd.len df1).
  { rewrite Eo1. unfold pd.len at 1. cbn [rows]. now rewrite length_map. }
  assert (Io1 : pd.index o1 = map fst s1).
  { rewrite Eo1. unfold pd.index. cbn [rows]. now rewrite map_map. }
  assert (Hs2' : length s2 = pd.len o1) by congruence.
  pose proof (setitem_rectangular _ _ _ _ Ho2 Hs2' Ro1) as Ro2.
  pose proof (setitem_len _ _ _ _ Ho2 Hs2') as Lo2.
  pose proof (setitem_index _ _ _ _ Ho2 Hs2') as Io2.
  assert (Hs3' : length s3 = pd.len o2) by congruence.
  pose proof (setitem_rectangular _ _ _ _ Ho3 Hs3' Ro2) as Ro3.
  pose proof (setitem_len _ _ _ _ Ho3 Hs3') as Lo3.
  pose proof (setitem_index _ _ _ _ Ho3 Hs3') as Io3.
  assert (Hvv' : length vv = pd.len o3) by congruence.
  pose proof (setitem_rectangular _ _ _ _ Ho4 Hvv' Ro3) as Ro4.
  pose proof (setitem_len _ _ _ _ Ho4 Hvv') as Lo4.
  pose proof (setitem_index _ _ _ _ Ho4 Hvv') as Io4.
  exists df2, s1, s2, s3, o1, o2, o3, o4, o5, o6.
  split; [now apply has_col_In|].
  split; [exact C2|]. split; [exact I2|].
  split; [exact Hs1|]. split; [exact Hs2|]. split; [exact Hs3|].
  split; [exact Eo1|]. split; [exact Ho2|]. split; [exact Ho3|].
  split; [now rewrite <- Evv|]. split; [exact Ho5|].
  split; [exact Ho6|]. split; [exact Hout|].
  split; [now rewrite <- Evv|].
  split; [tauto|]. split; [repeat split; congruence|].
  split; [repeat split; congruence|].
  split; [|split; [exact Hdf2 | now rewrite <- Evv, Hvv]].
  intros u Hu.
  apply (setitem_other df1 df2 "__value__" u _ Hdf2 Lcv R1).
  intros E. now apply Hu.
Qed.

(** ** Tables without a code or a time column *)

Lemma In_with_col_inv (cols : list string) (name c : string) :
  In c (pd.with_col cols name) -> In c cols \/ c = name.
Proof.
  unfold pd.with_col. destruct (pd.col_pos cols name); [now left|].
  intros H. apply in_app_or in H. destruct H as [H|[<-|[]]]; auto.
Qed.

Lemma value_label_plain :
  ~ code_label "__value__" /\ is_extra_dim "__value__" = false.
Proof.
  split; [|reflexivity]. unfold code_label.
  intros [H|H]; apply contains_spec in H; discriminate H.
Qed.

Lemma no_code_series (raw df1 df2 : DataFrame) :
  no_code_column raw ->
  columns df1 = columns raw ->
  columns df2 = pd.with_col (columns raw) "__value__" ->
  code_series df2 (fst (_extract_muni_cols df1)) = Ok (all_missing df2).
Proof.
  intros Hno E1 E2. unfold code_series, _extract_muni_cols. cbn [fst].
  assert (N1 : _find_col df1 ["munic"] (Some ["código"; "codigo"]) = None).
  { apply find_col_None. intros c Hin Hm. apply code_matches in Hm.
    rewrite E1 in Hin. destruct (Hno c Hin (proj2 Hm)) as (N & _).
    apply N, Hm. }
  assert (N2 : _find_col df2 ["territ"] (Some ["código"; "codigo"]) = None).
  { apply find_col_None. intros c Hin Hm. apply code_matches in Hm.
    rewrite E2 in Hin. apply In_with_col_inv in Hin.
    destruct Hin as [Hin| ->].
    - destruct (Hno c Hin (proj2 Hm)) as (_ & N). apply N, Hm.
    - now apply (proj1 value_label_plain). }
  rewrite N1. cbn [chosen truthy]. cbv zeta. rewrite N2. reflexivity.
Qed.

Lemma no_time_series (raw df1 df2 : DataFrame) :
  no_time_column raw ->
  columns df1 = columns raw ->
  time_series df2 (_extract_time_col df1) = Ok (all_missing df2).
Proof.
  intros Hno E1. unfold time_series.
  assert (N : _extract_time_col df1 = None).
  { rewrite extract_time_col_eq.
    assert (F : forall t any,
               In t ["ano"; "mês"; "mes"; "período"; "periodo"] ->
               _find_col df1 [t] any = None).
    { intros t any Ht. apply find_col_None. intros c Hin (Hm & _).
      rewrite E1 in Hin. apply (Hno c t Hin Ht). apply Hm. now left. }
    rewrite !F by (cbn; tauto). reflexivity. }
  rewrite N. reflexivity.
Qed.

Lemma all_missing_NA (df : DataFrame) :
  Forall (fun lv : Z * cell => snd lv = NA) (all_missing df).
Proof.
  apply Forall_forall. intros lv Hin. apply mkSeries_values in Hin.
  now apply repeat_spec in Hin.
Qed.

(** The values a column takes in an assignment are values of the
    series, or missing. *)
Lemma setitem_from (df df' : DataFrame) (name : string) (s : Series)
  (P : cell -> Prop) :
  pd.setitem df name s = Ok df' ->
  rectangular df ->
  Forall (fun lv : Z * cell => P (snd lv)) s -> P NA ->
  Forall (fun lv : Z * cell => P (snd lv)) (column df' name).
Proof.
  intros H R Hs HNA. destruct (setitem_rows _ _ _ H) as (Ec & F).
  unfold column. apply Forall_map. cbn [snd].
  eapply Forall_impl; [|exact F]. intros lr' (x & old & Hx & Hold & E).
  cbv beta. rewrite E.
  assert (Hl : length old = length (columns df)).
  { destruct Hold as [Hin|(_ & ->)]; [|apply repeat_length].
    unfold rectangular in R. rewrite Forall_forall in R. exact (R _ Hin). }
  rewrite (cell_of_put_same df' (columns df) name x old Ec Hl).
  destruct Hx as [Hin| ->]; [|exact HNA].
  rewrite Forall_forall in Hs. exact (Hs _ Hin).
Qed.

Lemma loc_rectangular (o : DataFrame) (mask : list bool) :
  rectangular o -> rectangular (pd.loc o mask).
Proof.
  unfold rectangular, pd.loc. cbn [rows columns]. intros R.
  revert mask. induction (rows o) as [|r rs IH]; intros [|b mask];
    cbn [pd.select]; try constructor.
  inversion R; subst. destruct b; [constructor|]; auto.
Qed.

Lemma column_loc (o : DataFrame) (v u : string) (P : cell -> Prop) :
  Forall (fun lv : Z * cell => P (snd lv)) (column o u) ->
  Forall (fun lv : Z * cell => P (snd lv))
         (column (pd.loc o (pd.series_notna (column o v))) u).
Proof.
  rewrite loc_column. unfold column, cell_of. cbn [rows columns].
  rewrite !Forall_map. cbn [snd]. rewrite !Forall_forall.
  intros H lr Hin. apply filter_In in Hin. now apply H.
Qed.

(** The cast of one column to Int64, column by column. *)
Lemma retype_column (o o' : DataFrame) (name u : string) :
  retype_Int64 o name = Ok o' ->
  rectangular o ->
  rectangular o' /\
  column o' u =
    if String.eqb u name
    then map (fun lv : Z * cell => (fst lv, int64_of (snd lv))) (column o name)
    else column o u.
Proof.
  intros H R. apply retype_Int64_Ok in H.
  destruct H as (i & Ei & Ec & Er & _).
  assert (Hi : forall lr, In lr (rows o) -> (i < length (snd lr))%nat).
  { intros lr Hin. unfold rectangular in R. rewrite Forall_forall in R.
    rewrite (R _ Hin). now apply col_pos_Some_lt in Ei. }
  split.
  - unfold rectangular in *. rewrite Ec, Er. apply Forall_map. cbn [snd].
    eapply Forall_impl; [|exact R]. intros lr Hl. cbv beta.
    now rewrite length_replace_nth.
  - unfold column. rewrite Er, map_map. cbn [fst snd].
    destruct (String.eqb_spec u name) as [->|N].
    + rewrite map_map. cbn [fst snd]. apply map_ext_in. intros lr Hin.
      f_equal. unfold cell_of. rewrite Ec, Ei.
      apply at_replace_nth_same. now apply Hi.
    + apply map_ext_in. intros lr Hin. f_equal. unfold cell_of. rewrite Ec.
      destruct (pd.col_pos (columns o) u) as [j|] eqn:Ej; [|reflexivity].
      apply at_replace_nth_other. intros ->. apply N.
      now apply (col_pos_inj _ _ _ Ej Ei).
Qed.

Lemma retype_missing (o o' : DataFrame) (name u : string) :
  retype_Int64 o name = Ok o' ->
  rectangular o ->
  Forall (fun lv : Z * cell => snd lv = NA) (column o u) ->
  Forall (fun lv : Z * cell => snd lv = NA) (column o' u).
Proof.
  intros H R Hna. destruct (retype_column o o' name u H R) as (_ & ->).
  destruct (String.eqb_spec u name) as [->|N]; [|exact Hna].
  apply Forall_map. cbn [snd]. eapply Forall_impl; [|exact Hna].
  intros lv E. cbv beta. now rewrite E.
Qed.

Lemma extra_dims_named (df : DataFrame) (k : bool) (u : string) :
  is_extra_dim u = false -> ~ In u (extra_dims df k).
Proof.
  intros E Hin. unfold extra_dims in Hin. destruct k; [|destruct Hin].
  apply filter_In in Hin. destruct Hin as (_ & Hu). congruence.
Qed.

(** The columns that stay missing when the code or the time column is
    not found. *)
Lemma normalize_missing_columns (raw out : DataFrame) (v : string)
  (k : bool) :
  rectangular raw ->
  normalize_sidra_table raw v k = Ok out ->
  (no_code_column raw -> v <> "code_muni" ->
   Forall (fun lv : Z * cell => snd lv = NA) (column out "code_muni")) /\
  (no_time_column raw -> v <> "ano" ->
   Forall (fun lv : Z * cell => snd lv = NA) (column out "ano")).
Proof.
  intros Hrect H.
  destruct (normalize_shape raw out v k Hrect H)
    as (df2 & s1 & s2 & s3 & o1 & o2 & o3 & o4 & o5 & o6 & HV & C2 & I2
        & Hs1 & Hs2 & Hs3 & Eo1 & Ho2 & Ho3 & Ho4 & Ho5 & Ho6 & Hout
        & (Ls1 & Ls2 & Ls3 & Lvv) & (R1 & R2 & R3 & R4)
        & (L1 & L2 & L3 & L4 & Ld2) & (I1 & Io2 & I3 & I4) & Kd2 & Hdf2
        & Hcol2).
  destruct (fold_extra df2 _ o4 o5 Ho5 R4 ltac:(congruence))
    as (R5 & L5 & I5 & C5 & K5).
  set (kept := pd.loc o5 (pd.series_notna (column o5 v))) in *.
  assert (Rk : rectangular kept) by now apply loc_rectangular.
  destruct (retype_column kept o6 "code_muni" "ano" Ho6 Rk) as (R6 & _).
  assert (Tail : forall u,
             Forall (fun lv : Z * cell => snd lv = NA) (column o5 u) ->
             Forall (fun lv : Z * cell => snd lv = NA) (column out u)).
  { intros u Hu. apply (retype_missing o6 out "ano" u Hout R6).
    apply (retype_missing kept o6 "code_muni" u Ho6 Rk).
    now apply (column_loc o5 v u (fun c => c = NA)). }
  split.
  - intros Hno Hv. apply Tail.
    rewrite K5 by (now apply extra_dims_named).
    rewrite (setitem_other o3 o4 v "code_muni" _ Ho4 ltac:(congruence) R3 Hv).
    rewrite (setitem_other o2 o3 "ano" "code_muni" _ Ho3
               ltac:(congruence) R2 ltac:(discriminate)).
    rewrite (setitem_other o1 o2 "municipio" "code_muni" _ Ho2
               ltac:(congruence) R1 ltac:(discriminate)).
    rewrite (no_code_series raw
               (mkDF (columns raw) (filter (numeric_V raw) (rows raw)))
               df2 Hno eq_refl C2) in Hs1.
    injection Hs1 as <-. rewrite Eo1. unfold column. cbn [rows].
    rewrite map_map. cbn [fst snd]. apply Forall_map. cbn [snd].
    eapply Forall_impl; [|apply (all_missing_NA df2)]. intros lv E.
    cbv beta in *. now rewrite <- E.
  - intros Hno Hv. apply Tail.
    rewrite K5 by (now apply extra_dims_named).
    rewrite (setitem_other o3 o4 v "ano" _ Ho4 ltac:(congruence) R3 Hv).
    rewrite (no_time_series raw
               (mkDF (columns raw) (filter (numeric_V raw) (rows raw)))
               df2 Hno eq_refl) in Hs3.
    injection Hs3 as <-.
    apply (setitem_from o2 o3 "ano" _ (fun c => c = NA) Ho3 R2);
      [apply all_missing_NA | reflexivity].
Qed.

(** X8.  A table in which no column is taken for the municipality or
    territory code is normalised with a missing code in every row, and
    a table in which no column is taken for the time, with a missing
    year in every row. *)
Theorem normalize_without_code_or_time (raw out : DataFrame) (v : string)
  (k : bool) :
  rectangular raw ->
  normalize_sidra_table raw v k = Ok out ->
  (no_code_column raw -> v <> "code_muni" ->
   Forall (fun lv : Z * cell => snd lv = NA) (column out "code_muni")) /\
  (no_time_column raw -> v <> "ano" ->
   Forall (fun lv : Z * cell => snd lv = NA) (column out "ano")).
Proof. exact (normalize_missing_columns raw out v k). Qed.

(** ** The rows that come through *)

Lemma has_code_series (raw df1 df2 : DataFrame) (s1 : Series) :
  has_code_column raw ->
  columns df1 = columns raw ->
  columns df2 = pd.with_col (columns raw) "__value__" ->
  code_series df2 (fst (_extract_muni_cols df1)) = Ok s1 ->
  map fst s1 = pd.index df2.
Proof.
  intros (c & Hin & Hc & Hs) E1 E2. unfold code_series, _extract_muni_cols.
  cbn [fst].
  destruct (_find_col df1 ["munic"] (Some ["código"; "codigo"]))
    as [c1|] eqn:F1.
  - unfold chosen.
    rewrite (find_col_truthy df1 "munic" _ c1 ltac:(discriminate) F1).
    apply int_column_index.
  - cbn [chosen truthy]. cbv zeta.
    destruct (_find_col df2 ["territ"] (Some ["código"; "codigo"]))
      as [c2|] eqn:F2.
    + unfold chosen.
      rewrite (find_col_truthy df2 "territ" _ c2 ltac:(discriminate) F2).
      apply int_column_index.
    + exfalso. rewrite find_col_None in F1, F2. destruct Hs as [Hs|Hs].
      * apply (F1 c); [now rewrite E1|]. now apply code_matches.
      * apply (F2 c); [rewrite E2; now apply In_with_col|].
        now apply code_matches.
Qed.

Lemma filter_all {A : Type} (f : A -> bool) (l : list A) :
  Forall (fun x => f x = true) l -> filter f l = l.
Proof.
  induction 1 as [|x l Hx _ IH]; [reflexivity|]. cbn. now rewrite Hx, IH.
Qed.

Lemma numeric_rows_notna (raw : DataFrame) :
  Forall (fun lv : Z * cell => notna (snd lv) = true) (numeric_rows raw).
Proof.
  unfold numeric_rows. apply Forall_map. cbn [snd]. apply Forall_forall.
  intros lr Hin. apply filter_In in Hin. exact (proj2 Hin).
Qed.

Lemma numeric_rows_index (raw : DataFrame) :
  map fst (numeric_rows raw) = map fst (filter (numeric_V raw) (rows raw)).
Proof. unfold numeric_rows. now rewrite map_map. Qed.

Lemma loc_index (o : DataFrame) (v : string) :
  pd.index (pd.loc o (pd.series_notna (column o v)))
  = map fst (filter (fun lv : Z * cell => notna (snd lv)) (column o v)).
Proof.
  rewrite loc_column. unfold pd.index, column. cbn [rows].
  rewrite filter_map, map_map. reflexivity.
Qed.

Lemma loc_column_other (o : DataFrame) (v u : string) :
  Forall (fun lv : Z * cell => notna (snd lv) = true) (column o v) ->
  column (pd.loc o (pd.series_notna (column o v))) u = column o u.
Proof.
  intros H. rewrite loc_column. unfold column at 1. cbn [rows].
  unfold cell_of at 1. cbn [columns]. fold (cell_of o u).
  rewrite filter_all; [reflexivity|].
  unfold column in H. rewrite Forall_map in H. exact H.
Qed.

(** X9.  When some column is taken for the municipality or territory
    code, the rows of the normalised table are the rows of the raw
    table whose [V] coerces to a number: as many, in the same order,
    each under the index label it had in the raw table (the index is
    not renumbered) and with the number its [V] coerces to. *)
Theorem normalize_keeps_labels (raw out : DataFrame) (v : string) (k : bool) :
  rectangular raw ->
  has_code_column raw ->
  k = false \/ is_extra_dim v = false ->
  normalize_sidra_table raw v k = Ok out ->
  pd.index out = map fst (filter (numeric_V raw) (rows raw)) /\
  (v <> "code_muni" -> v <> "ano" -> column out v = numeric_rows raw).
Proof.
  intros Hrect Hcode Hk H.
  destruct (normalize_shape raw out v k Hrect H)
    as (df2 & s1 & s2 & s3 & o1 & o2 & o3 & o4 & o5 & o6 & HV & C2 & I2
        & Hs1 & Hs2 & Hs3 & Eo1 & Ho2 & Ho3 & Ho4 & Ho5 & Ho6 & Hout
        & (Ls1 & Ls2 & Ls3 & Lvv) & (R1 & R2 & R3 & R4)
        & (L1 & L2 & L3 & L4 & Ld2) & (I1 & Io2 & I3 & I4) & Kd2 & Hdf2
        & Hcol2).
  change (pd.setitem o3 v (numeric_rows raw) = Ok o4) in Ho4.
  destruct (fold_extra df2 _ o4 o5 Ho5 R4 ltac:(congruence))
    as (R5 & L5 & I5 & C5 & K5).
  pose proof (has_code_series raw _ df2 s1 Hcode eq_refl C2 Hs1) as Es1.
  assert (Hv : ~ In v (extra_dims df2 k)).
  { destruct Hk as [->|Hk]; [intros [] | now apply extra_dims_named]. }
  assert (E4 : column o4 v = numeric_rows raw).
  { apply (setitem_same o3 o4 v _ Ho4); [|exact R3].
    rewrite numeric_rows_index, I3, Es1, I2. reflexivity. }
  assert (E5 : column o5 v = numeric_rows raw) by (now rewrite K5).
  assert (N5 : Forall (fun lv : Z * cell => notna (snd lv) = true)
                 (column o5 v)).
  { rewrite E5. apply numeric_rows_notna. }
  set (kept := pd.loc o5 (pd.series_notna (column o5 v))) in *.
  assert (Rk : rectangular kept) by now apply loc_rectangular.
  destruct (retype_column kept o6 "code_muni" v Ho6 Rk) as (R6 & E6).
  destruct (retype_column o6 out "ano" v Hout R6) as (_ & Eout).
  split.
  - rewrite (retype_index _ _ _ Hout), (retype_index _ _ _ Ho6).
    unfold kept. rewrite loc_index, filter_all by exact N5.
    now rewrite E5, numeric_rows_index.
  - intros N1 N2. rewrite Eout.
    destruct (String.eqb_spec v "ano") as [?|_]; [contradiction|].
    rewrite E6.
    destruct (String.eqb_spec v "code_muni") as [?|_]; [contradiction|].
    unfold kept. now rewrite loc_column_other.
Qed.

Lemma RangeIndex_NoDup (n : nat) : NoDup (pd.RangeIndex n).
Proof.
  unfold pd.RangeIndex. apply Finite.Injective_map_NoDup.
  - intros a b. apply Nat2Z.inj.
  - apply seq_NoDup.
Qed.

Lemma lookup_notna (s : Series) (l : Z) :
  Forall (fun lv : Z * cell => notna (snd lv) = true) s ->
  notna (pd.lookup l s) = existsb (Z.eqb l) (map fst s).
Proof.
  induction 1 as [|(l', x) s Hx _ IH]; [reflexivity|].
  cbn [pd.lookup map fst existsb]. destruct (Z.eqb l l'); [exact Hx | exact IH].
Qed.

(** The labels of the normalised table when no code column is found:
    the output frame is numbered from zero, the values come in by
    label. *)
Lemma normalize_index_without_code (raw out : DataFrame) (v : string)
  (k : bool) :
  rectangular raw ->
  no_code_column raw ->
  k = false \/ is_extra_dim v = false ->
  normalize_sidra_table raw v k = Ok out ->
  let kept := map fst (filter (numeric_V raw) (rows raw)) in
  pd.index out
  = filter (fun l => existsb (Z.eqb l) kept) (pd.RangeIndex (length kept)).
Proof.
  intros Hrect Hno Hk H. cbv zeta.
  destruct (normalize_shape raw out v k Hrect H)
    as (df2 & s1 & s2 & s3 & o1 & o2 & o3 & o4 & o5 & o6 & HV & C2 & I2
        & Hs1 & Hs2 & Hs3 & Eo1 & Ho2 & Ho3 & Ho4 & Ho5 & Ho6 & Hout
        & (Ls1 & Ls2 & Ls3 & Lvv) & (R1 & R2 & R3 & R4)
        & (L1 & L2 & L3 & L4 & Ld2) & (I1 & Io2 & I3 & I4) & Kd2 & Hdf2
        & Hcol2).
  change (pd.setitem o3 v (numeric_rows raw) = Ok o4) in Ho4.
  destruct (fold_extra df2 _ o4 o5 Ho5 R4 ltac:(congruence))
    as (R5 & L5 & I5 & C5 & K5).
  rewrite (no_code_series raw
             (mkDF (columns raw) (filter (numeric_V raw) (rows raw)))
             df2 Hno eq_refl C2) in Hs1.
  injection Hs1 as <-. rewrite all_missing_index in I3.
  assert (Hv : ~ In v (extra_dims df2 k)).
  { destruct Hk as [->|Hk]; [intros [] | now apply extra_dims_named]. }
  assert (E4 : column o4 v
               = map (fun l => (l, pd.lookup l (numeric_rows raw)))
                     (pd.RangeIndex (pd.len df2))).
  { rewrite <- I3.
    apply (setitem_by_label o3 o4 v _ Ho4);
      [rewrite L3; exact Lvv| |exact R3].
    rewrite I3. apply RangeIndex_NoDup. }
  rewrite (retype_index _ _ _ Hout), (retype_index _ _ _ Ho6).
  rewrite loc_index, K5, E4 by exact Hv.
  rewrite filter_map, map_map. cbn [fst snd]. rewrite map_id.
  assert (El : pd.len df2
               = length (map fst (filter (numeric_V raw) (rows raw)))).
  { rewrite Ld2. unfold pd.len. cbn [rows]. now rewrite length_map. }
  rewrite El. apply filter_ext. intros l.
  rewrite (lookup_notna _ _ (numeric_rows_notna raw)).
  now rewrite numeric_rows_index.
Qed.

(** X10.  When no column is taken for the municipality or territory
    code, the output frame is numbered from zero and the values are
    attached by label: a row of the raw table comes through only if
    its [V] coerces to a number and its label is below the number of
    such rows; it keeps its label. *)
Theorem normalize_without_code_labels (raw out : DataFrame) (v : string)
  (k : bool) :
  rectangular raw ->
  no_code_column raw ->
  k = false \/ is_extra_dim v = false ->
  normalize_sidra_table raw v k = Ok out ->
  let kept := map fst (filter (numeric_V raw) (rows raw)) in
  pd.index out
  = filter (fun l => existsb (Z.eqb l) kept) (pd.RangeIndex (length kept)).
Proof. exact (normalize_index_without_code raw out v k). Qed.

Lemma seq_from_one (n : nat) :
  filter (fun i => (1 <=? i)%nat && (i <=? n)%nat) (seq 0 n)
  = seq 1 (n - 1).
Proof.
  destruct n as [|n]; [reflexivity|]. cbn [seq filter]. cbn [Nat.leb andb].
  replace (S n - 1)%nat with n by lia.
  assert (H : forall m a, (1 <= a)%nat -> (a + m <= S (S n))%nat ->
              filter (fun i => (1 <=? i)%nat && (i <=? S n)%nat) (seq a m)
              = seq a m).
  { induction m as [|m IH]; intros a Ha Hb; [reflexivity|].
    cbn [seq filter].
    assert (E : ((1 <=? a)%nat && (a <=? S n)%nat) = true).
    { apply andb_true_iff. split; apply Nat.leb_le; lia. }
    rewrite E. f_equal. apply IH; lia. }
  apply H; lia.
Qed.

Lemma existsb_range (i n : nat) :
  existsb (Z.eqb (Z.of_nat i)) (map Z.of_nat (seq 1 n))
  = ((1 <=? i)%nat && (i <=? n)%nat).
Proof.
  destruct (existsb _ _) eqn:E.
  - apply existsb_exists in E. destruct E as (z & Hin & Ez).
    apply in_map_iff in Hin. destruct Hin as (j & <- & Hj).
    apply in_seq in Hj. apply Z.eqb_eq in Ez. apply Nat2Z.inj in Ez. subst j.
    symmetry. apply andb_true_iff. split; apply Nat.leb_le; lia.
  - symmetry. apply not_true_is_false. intros H.
    apply andb_true_iff in H. destruct H as (H1 & H2).
    apply Nat.leb_le in H1, H2.
    assert (X : existsb (Z.eqb (Z.of_nat i)) (map Z.of_nat (seq 1 n)) = true).
    { apply existsb_exists. exists (Z.of_nat i). split; [|apply Z.eqb_refl].
      apply in_map, in_seq. lia. }
    congruence.
Qed.

Lemma combine_seq_rows (a : nat) (recs : list (list cell)) :
  map fst (combine (map Z.of_nat (seq a (length recs))) recs)
  = map Z.of_nat (seq a (length recs)).
Proof. apply map_fst_combine. now rewrite length_map, length_seq. Qed.

(** X11.  The header row costs a data row when no code column is
    found.  For a raw table made of a header row, whose [V] does not
    coerce to a number, followed by [n] data rows whose [V] does, and
    in which no column is taken for the municipality or territory
    code, the normalised table has the labels [1 .. n-1]: the last
    data row is lost. *)
Theorem normalize_header_loses_last_row (cols : list string)
  (hdr : list cell) (data : list (list cell)) (out : DataFrame)
  (v : string) (k : bool) :
  let raw := pd.of_records cols (hdr :: data) in
  rectangular raw ->
  no_code_column raw ->
  k = false \/ is_extra_dim v = false ->
  _coerce_numeric_cell (cell_of raw "V" hdr) = NA ->
  Forall (fun r => _coerce_numeric_cell (cell_of raw "V" r) <> NA) data ->
  normalize_sidra_table raw v k = Ok out ->
  pd.index out = map Z.of_nat (seq 1 (length data - 1)).
Proof.
  intros raw Hrect Hno Hk Hh Hd H.
  rewrite (normalize_index_without_code raw out v k Hrect Hno Hk H).
  assert (Ek : map fst (filter (numeric_V raw) (rows raw))
               = map Z.of_nat (seq 1 (length data))).
  { unfold raw at 2, pd.of_records, pd.RangeIndex. cbn [rows length seq map combine filter].
    unfold numeric_V at 1. cbn [snd]. rewrite Hh. cbn [notna isna negb].
    rewrite filter_all; [apply combine_seq_rows|].
    apply Forall_forall. intros (l, r) Hin. apply in_combine_r in Hin.
    rewrite Forall_forall in Hd. specialize (Hd r Hin).
    unfold numeric_V. cbn [snd].
    destruct (_coerce_numeric_cell (cell_of raw "V" r)); try reflexivity.
    contradiction. }
  rewrite Ek, length_map, length_seq. unfold pd.RangeIndex.
  rewrite filter_map.
  rewrite (filter_ext _ (fun i => (1 <=? i)%nat && (i <=? length data)%nat));
    [now rewrite seq_from_one|].
  intros i. apply existsb_range.
Qed.

(** ** The panel without a code column *)

Lemma keyed_without_code (v : string) (df : DataFrame) :
  tidy v df ->
  Forall (fun lv : Z * cell => snd lv = NA) (column df "code_muni") ->
  keyed df = [].
Proof.
  intros (Ec & _) H. unfold keyed. unfold column in H.
  rewrite Forall_map in H. cbn [snd] in H.
  induction H as [|lr l Hlr _ IH]; [reflexivity|]. cbn [filter].
  unfold cell_of in Hlr. rewrite Ec in Hlr.
  cbn [pd.col_pos String.eqb Ascii.eqb Bool.eqb option_map] in Hlr.
  rewrite Hlr. cbn [notna isna negb andb]. exact IH.
Qed.

Lemma inner_join_nothing (lk rk rrest : list nat) (ls : list (list cell)) :
  flat_map (pd.join_row pd.Inner lk rk rrest []) ls = [].
Proof. induction ls as [|l ls IH]; [reflexivity|]. exact IH. Qed.

(** X12.  When the value table or the population table has no column
    taken for the municipality or territory code, a panel that
    [build_panel] returns has no rows: every code is missing, and rows
    with a missing key are dropped before the join. *)
Theorem build_panel_without_code (mun_uf pib_raw pop_raw area_raw
  panel : DataFrame) :
  rectangular pib_raw -> rectangular pop_raw -> rectangular area_raw ->
  no_code_column pib_raw \/ no_code_column pop_raw ->
  build_panel mun_uf pib_raw pop_raw area_raw = Ok panel ->
  rows panel = [].
Proof.
  intros R1 R2 R3 Hno H.
  destruct (@build_panel_Ok mun_uf pib_raw pop_raw area_raw panel R1 R2 R3 H)
    as (mun & pib & pop & area & agg & names & _ & Hpib & Hpop & _ & _ & _
        & Tpib & Tpop & _ & ->).
  assert (E : merged_rows pib pop names agg = []).
  { unfold merged_rows. destruct Hno as [Hno|Hno].
    - rewrite (keyed_without_code "pib" pib Tpib); [reflexivity|].
      apply (proj1 (normalize_missing_columns pib_raw pib "pib" false R1 Hpib));
        [exact Hno | discriminate].
    - rewrite (keyed_without_code "pop" pop Tpop).
      + cbn [map]. now rewrite inner_join_nothing.
      + apply (proj1 (normalize_missing_columns pop_raw pop "pop" false R2 Hpop));
          [exact Hno | discriminate]. }
  unfold panel_rows. rewrite E. reflexivity.
Qed.

(** ** The extra dimensions *)

Lemma fold_with_col_fresh (es : list string) :
  forall cols,
    NoDup es -> (forall e, In e es -> ~ In e cols) ->
    fold_left pd.with_col es cols = (cols ++ es)%list.
Proof.
  induction es as [|e es IH]; intros cols N F; cbn [fold_left].
  - now rewrite app_nil_r.
  - inversion N as [|? ? N1 N2]; subst.
    assert (E : pd.with_col cols e = (cols ++ [e])%list).
    { unfold pd.with_col.
      destruct (pd.col_pos cols e) eqn:Ec; [|reflexivity].
      exfalso. apply (F e (or_introl eq_refl)).
      apply col_pos_Some_lt in Ec. destruct Ec as (Hl & <-).
      now apply nth_In. }
    rewrite E, IH; [now rewrite <- app_assoc| exact N2 |].
    intros x Hx Hin. apply in_app_or in Hin. destruct Hin as [Hin|[<-|[]]].
    + apply (F x (or_intror Hx) Hin).
    + contradiction.
Qed.

Lemma extra_dims_raw (raw df2 : DataFrame) (k : bool) :
  columns df2 = pd.with_col (columns raw) "__value__" ->
  extra_dims df2 k = (if k then filter is_extra_dim (columns raw) else []).
Proof.
  intros E. unfold extra_dims. destruct k; [|reflexivity]. rewrite E.
  unfold pd.with_col. destruct (pd.col_pos (columns raw) "__value__");
    [reflexivity|].
  rewrite filter_app. cbn [filter].
  rewrite (proj2 value_label_plain). apply app_nil_r.
Qed.

(** The loop over the extra dimensions, on the index of the table:
    each column it assigns is the column of the table. *)
Lemma fold_extra_values (df2 : DataFrame) (cs : list string) :
  forall o o',
    fold_result (fun out c => s <- pd.getitem df2 c ;; pd.setitem out c s)
      cs o = Ok o' ->
    rectangular o -> pd.index o = pd.index df2 -> NoDup cs ->
    forall e, In e cs -> column o' e = column df2 e.
Proof.
  induction cs as [|c cs IH]; intros o o' H R I N e He; [destruct He|].
  cbn [fold_result] in H. inv_bind H. rename x into o1. inv_bind E.
  rename x into s. apply getitem_column in E0. subst s.
  assert (Hl : pd.len o = pd.len df2).
  { apply (f_equal (@length Z)) in I. unfold pd.index, pd.len in *.
    now rewrite !length_map in I. }
  assert (Hs : length (column df2 c) = pd.len o)
    by (now rewrite column_length).
  assert (Ei : map fst (column df2 c) = pd.index o)
    by (now rewrite column_index).
  pose proof (setitem_rectangular _ _ _ _ E Hs R) as R1.
  pose proof (setitem_index _ _ _ _ E Hs) as I1.
  pose proof (setitem_len _ _ _ _ E Hs) as L1.
  inversion N as [|? ? N1 N2]; subst.
  destruct He as [<-|He].
  - destruct (fold_extra df2 cs o1 o' H R1 ltac:(congruence))
      as (_ & _ & _ & _ & K).
    rewrite (K c N1). apply (setitem_same o o1 c _ E Ei R).
  - apply (IH o1 o' H R1 ltac:(congruence) N2 e He).
Qed.

(** X13.  The columns of the normalised table are the three canonical
    ones, the indicator, and, with [keep_extra_dims], the columns of
    the raw table labelled [D<digits>C] or [D<digits>N], in the order
    of the raw table and no other.  When a code column is found each
    of these extra columns holds, at every row, the cell the raw table
    has in that row. *)
Theorem normalize_extra_dims (raw out : DataFrame) (v : string) (k : bool) :
  rectangular raw ->
  NoDup (columns raw) ->
  ~ In v ["code_muni"; "municipio"; "ano"] ->
  is_extra_dim v = false ->
  normalize_sidra_table raw v k = Ok out ->
  columns out
  = (["code_muni"; "municipio"; "ano"; v]
     ++ (if k then filter is_extra_dim (columns raw) else []))%list /\
  (has_code_column raw -> k = true ->
   forall e, In e (columns raw) -> is_extra_dim e = true ->
     column out e
     = map (fun lr : Z * list cell => (fst lr, cell_of raw e (snd lr)))
           (filter (numeric_V raw) (rows raw))).
Proof.
  intros Hrect Nd Hv Hx H.
  destruct (normalize_shape raw out v k Hrect H)
    as (df2 & s1 & s2 & s3 & o1 & o2 & o3 & o4 & o5 & o6 & HV & C2 & I2
        & Hs1 & Hs2 & Hs3 & Eo1 & Ho2 & Ho3 & Ho4 & Ho5 & Ho6 & Hout
        & (Ls1 & Ls2 & Ls3 & Lvv) & (R1 & R2 & R3 & R4)
        & (L1 & L2 & L3 & L4 & Ld2) & (I1 & Io2 & I3 & I4) & Kd2 & Hdf2
        & Hcol2).
  change (pd.setitem o3 v (numeric_rows raw) = Ok o4) in Ho4.
  destruct (fold_extra df2 _ o4 o5 Ho5 R4 ltac:(congruence))
    as (R5 & L5 & I5 & C5 & K5).
  destruct (setitem_Forall2 _ _ _ _ Ho2 ltac:(congruence)) as (C'2 & _).
  destruct (setitem_Forall2 _ _ _ _ Ho3 ltac:(congruence)) as (C'3 & _).
  destruct (setitem_Forall2 o3 o4 v _ Ho4 ltac:(rewrite L3; exact Lvv))
    as (C'4 & _).
  assert (Ec4 : columns o4 = ["code_muni"; "municipio"; "ano"; v]).
  { rewrite C'4, C'3, C'2, Eo1. cbn [columns].
    change (pd.with_col (pd.with_col ["code_muni"] "municipio") "ano")
      with ["code_muni"; "municipio"; "ano"].
    unfold pd.with_col.
    destruct (pd.col_pos ["code_muni"; "municipio"; "ano"] v) eqn:Ev;
      [|reflexivity].
    exfalso. apply Hv. apply col_pos_Some_lt in Ev.
    destruct Ev as (Hl & <-). now apply nth_In. }
  rewrite (extra_dims_raw raw df2 k C2) in *.
  assert (Nx : NoDup (if k then filter is_extra_dim (columns raw) else [])).
  { destruct k; [now apply NoDup_filter | constructor]. }
  assert (Fx : forall e,
             In e (if k then filter is_extra_dim (columns raw) else []) ->
             ~ In e ["code_muni"; "municipio"; "ano"; v]).
  { intros e He Hin.
    assert (Ee : is_extra_dim e = true).
    { destruct k; [|destruct He]. now apply filter_In in He. }
    destruct Hin as [<-|[<-|[<-|[<-|[]]]]];
      try discriminate Ee. congruence. }
  set (kept := pd.loc o5 (pd.series_notna (column o5 v))) in *.
  assert (Rk : rectangular kept) by now apply loc_rectangular.
  split.
  - pose proof (retype_Int64_Ok _ _ Hout) as (_ & _ & -> & _).
    pose proof (retype_Int64_Ok _ _ Ho6) as (_ & _ & -> & _).
    unfold kept, pd.loc. cbn [columns].
    rewrite C5, Ec4. now apply fold_with_col_fresh.
  - intros Hcode -> e He Ee.
    assert (Hin : In e (filter is_extra_dim (columns raw)))
      by (apply filter_In; now split).
    pose proof (has_code_series raw _ df2 s1 Hcode eq_refl C2 Hs1) as Es1.
    assert (E5 : column o5 e = column df2 e).
    { apply (fold_extra_values df2 _ o4 o5 Ho5 R4); [congruence|exact Nx|exact Hin]. }
    assert (Ev5 : column o5 v = numeric_rows raw).
    { rewrite K5 by (intros Hin'; apply (Fx v Hin'); cbn; tauto).
      apply (setitem_same o3 o4 v _ Ho4); [|exact R3].
      rewrite numeric_rows_index, I3, Es1, I2. reflexivity. }
    assert (N5 : Forall (fun lv : Z * cell => notna (snd lv) = true)
                   (column o5 v)).
    { rewrite Ev5. apply numeric_rows_notna. }
    destruct (retype_column kept o6 "code_muni" e Ho6 Rk) as (R6 & E6).
    destruct (retype_column o6 out "ano" e Hout R6) as (_ & Eout).
    rewrite Eout.
    destruct (String.eqb_spec e "ano") as [->|_]; [discriminate Ee|].
    rewrite E6.
    destruct (String.eqb_spec e "code_muni") as [->|_]; [discriminate Ee|].
    unfold kept. rewrite (loc_column_other o5 v e N5), E5.
    rewrite Kd2 by (intros ->; discriminate Ee). reflexivity.
Qed.

(* ================================================================== *)
(** * Further properties of the panel construction *)
(* ================================================================== *)

(** ** The municipality reference *)

Lemma getitem_missing (df : DataFrame) (name : string) :
  ~ In name (columns df) -> pd.getitem df name = Raise (KeyError name).
Proof.
  intros H. unfold pd.getitem, pd.position.
  now rewrite (proj2 (col_pos_None (columns df) name) H).
Qed.

(** X14.  A municipality reference with neither an [id_municipio] nor
    a [code_muni] column makes [build_panel] raise [KeyError] on
    [code_muni], whatever the three tables are: the reference is
    prepared before any table is looked at. *)
Theorem build_panel_reference_without_key (mun_uf pib_raw pop_raw
  area_raw : DataFrame) :
  ~ In "id_municipio" (columns mun_uf) ->
  ~ In "code_muni" (columns mun_uf) ->
  reference mun_uf = Raise (KeyError "code_muni") /\
  build_panel mun_uf pib_raw pop_raw area_raw = Raise (KeyError "code_muni").
Proof.
  intros H1 H2.
  assert (E : reference mun_uf = Raise (KeyError "code_muni")).
  { unfold reference, int_column. cbv zeta.
    rewrite (has_col_false mun_uf "id_municipio" H1).
    now rewrite (getitem_missing mun_uf "code_muni" H2). }
  split; [exact E|].
  unfold build_panel, build_panel_unsorted. now rewrite E.
Qed.

Lemma replace_nth_same (i : nat) (r : list cell) :
  pd.replace_nth i (pd.at_ i r) r = r.
Proof.
  revert i. induction r as [|x r IH]; intros [|i]; cbn; try reflexivity.
  f_equal. apply IH.
Qed.

Lemma astype_Int64_integers (s : Series) :
  Forall (fun lv : Z * cell => exists z, snd lv = Int z) s ->
  pd.astype_Int64 (pd.to_numeric s) = Ok s.
Proof.
  unfold pd.astype_Int64, pd.to_numeric, pd.series_map.
  induction 1 as [|(l, x) s (z & Ez) _ IH]; [reflexivity|].
  cbn [map map_result fst snd] in *. rewrite IH. subst x.
  cbn [pd.to_numeric_cell pd.astype_Int64_cell].
  rewrite Qred_inject_Z. reflexivity.
Qed.

(** X15.  A reference whose codes are already integers is only
    relabelled: [build_panel]'s preparation of the reference returns
    the frame with [id_municipio] renamed to [code_muni] (or the frame
    itself, when it has no [id_municipio]), every row and every cell
    as it was. *)
Theorem reference_integer_ids (mun_uf : DataFrame) :
  let mun :=
    if pd.has_col mun_uf "id_municipio"
    then pd.rename mun_uf "id_municipio" "code_muni" else mun_uf in
  In "code_muni" (columns mun) ->
  NoDup (columns mun) ->
  Forall (fun lv : Z * cell => exists z, snd lv = Int z)
         (column mun "code_muni") ->
  reference mun_uf = Ok mun.
Proof.
  intros mun Hin _ Hint. unfold reference. cbv zeta. fold mun.
  unfold int_column.
  destruct (position_In mun "code_muni" Hin) as (i & Ep & Ei).
  assert (Eg : pd.getitem mun "code_muni" = Ok (column mun "code_muni")).
  { unfold pd.getitem. rewrite Ep. cbn [bind]. unfold column, cell_of.
    now rewrite Ei. }
  rewrite Eg. cbn [bind]. rewrite (astype_Int64_integers _ Hint). cbn [bind].
  rewrite (setitem_same_index mun "code_muni" (column mun "code_muni")
             (column_index mun "code_muni")).
  f_equal. destruct mun as [cols rs] eqn:Em. cbn [columns rows] in *.
  f_equal.
  - unfold pd.with_col. now rewrite Ei.
  - unfold column. cbn [rows]. rewrite combine_map_self, map_map.
    cbn [fst snd]. rewrite <- (map_id rs) at 2. apply map_ext.
    intros (l, r). cbn [fst snd]. f_equal.
    unfold pd.put, cell_of. cbn [columns]. rewrite Ei.
    apply replace_nth_same.
Qed.

(** ** The index of the panel *)

Lemma of_records_index (cols : list string) (recs : list (list cell)) :
  pd.index (pd.of_records cols recs) = pd.RangeIndex (length recs).
Proof.
  unfold pd.index, pd.of_records. cbn [rows].
  apply map_fst_combine, RangeIndex_length.
Qed.


(* ================================================================== *)
(** * The further properties on examples *)
(* ================================================================== *)

(** Settles a statement about the labels of a given frame: which
    terms occur in which normalised label. *)
Ltac labels :=
  repeat match goal with
         | |- ~ _ => intros ?
         | |- _ /\ _ => split
         | |- forall _, _ => intros ?
         | H : In _ (columns _) |- _ => cbn in H
         | H : _ = ?c |- _ => is_var c; subst c
         | H : False |- _ => destruct H
         | H : In _ (_ :: _) |- _ => destruct H as [<-|H]
         | H : In _ [] |- _ => destruct H
         | H : _ \/ _ |- _ => destruct H
         | H : code_label _ |- _ => destruct H
         | H : substring _ _ |- _ =>
             apply contains_spec in H; vm_compute in H; try discriminate H
         | |- substring _ _ => apply contains_spec; reflexivity
         | |- code_label _ => (left; apply contains_spec; reflexivity) ||
                              (right; apply contains_spec; reflexivity)
         end.

Ltac rect := unfold rectangular; cbn [rows columns]; repeat constructor.

Lemma table_short_names_no_code : no_code_column table_short_names.
Proof. unfold no_code_column. labels. Qed.

Lemma table_short_names_no_time : no_time_column table_short_names.
Proof. unfold no_time_column. labels. Qed.

Lemma table_titles_has_code : has_code_column table_titles.
Proof.
  exists "Município (Código)". split; [now left|]. split; [labels|].
  left. labels.
Qed.

Lemma muni_cols_distinct_witness :
  _extract_muni_cols table_titles
  = (Some "Município (Código)", Some "Município") /\
  "Município (Código)" <> "Município".
Proof.
  split; [reflexivity|].
  apply (proj1 (proj2 (proj2 (muni_cols_distinct table_titles))));
    reflexivity.
Defined.

Lemma time_col_priority_witness :
  exists c, _extract_time_col table_titles = Some c /\
            In c (columns table_titles) /\ substring "ano" (_norm c).
Proof.
  apply (proj1 (time_col_priority table_titles) "Ano");
    [cbn; tauto | labels].
Defined.

Lemma normalize_without_code_or_time_witness :
  let out := mkDF ["code_muni"; "municipio"; "ano"; "pib"]
               [(1%Z, [NA; Str ""; NA; Num (Fin 10)]);
                (2%Z, [NA; Str ""; NA; Num (Fin 20)])] in
  normalize_sidra_table table_short_names "pib" false = Ok out /\
  Forall (fun lv : Z * cell => snd lv = NA) (column out "code_muni") /\
  Forall (fun lv : Z * cell => snd lv = NA) (column out "ano").
Proof.
  intros out.
  assert (E : normalize_sidra_table table_short_names "pib" false = Ok out)
    by (vm_compute; reflexivity).
  split; [exact E|].
  destruct (normalize_without_code_or_time table_short_names out "pib" false
              ltac:(rect) E) as (A & B).
  split.
  - apply A; [exact table_short_names_no_code | discriminate].
  - apply B; [exact table_short_names_no_time | discriminate].
Defined.

Lemma normalize_keeps_labels_witness :
  let out := mkDF ["code_muni"; "municipio"; "ano"; "pib"; "D1C"]
               [(1%Z, [Int 5208707; Str "Goiânia"; Int 2020; Num (Fin 10);
                       Str "6"]);
                (3%Z, [Int 5208707; Str "Goiânia"; Int 2022; Num (Fin 30);
                       Str "6"])] in
  normalize_sidra_table table_titles "pib" true = Ok out /\
  pd.index out = map fst (filter (numeric_V table_titles) (rows table_titles)) /\
  pd.index out = [1%Z; 3%Z].
Proof.
  intros out.
  assert (E : normalize_sidra_table table_titles "pib" true = Ok out)
    by (vm_compute; reflexivity).
  split; [exact E|]. split; [|reflexivity].
  apply (normalize_keeps_labels table_titles out "pib" true);
    [rect | exact table_titles_has_code | right; reflexivity | exact E].
Defined.

Lemma normalize_without_code_labels_witness :
  let out := mkDF ["code_muni"; "municipio"; "ano"; "pib"]
               [(1%Z, [NA; Str ""; NA; Num (Fin 10)]);
                (2%Z, [NA; Str ""; NA; Num (Fin 20)])] in
  normalize_sidra_table table_short_names "pib" false = Ok out /\
  pd.index out
  = filter (fun l => existsb (Z.eqb l) [1%Z; 2%Z; 3%Z]) (pd.RangeIndex 3).
Proof.
  intros out.
  assert (E : normalize_sidra_table table_short_names "pib" false = Ok out)
    by (vm_compute; reflexivity).
  split; [exact E|].
  apply (normalize_without_code_labels table_short_names out "pib" false);
    [rect | exact table_short_names_no_code | now left | exact E].
Defined.

Lemma normalize_header_loses_last_row_witness :
  let out := mkDF ["code_muni"; "municipio"; "ano"; "pib"]
               [(1%Z, [NA; Str ""; NA; Num (Fin 10)]);
                (2%Z, [NA; Str ""; NA; Num (Fin 20)])] in
  normalize_sidra_table table_short_names "pib" false = Ok out /\
  pd.index out = map Z.of_nat (seq 1 (3 - 1)).
Proof.
  intros out.
  assert (E : normalize_sidra_table table_short_names "pib" false = Ok out)
    by (vm_compute; reflexivity).
  split; [exact E|].
  apply (normalize_header_loses_last_row ["NC"; "D2C"; "V"]
           [Str "Nível Territorial (Código)"; Str "Ano (Código)"; Str "Valor"]
           [[Str "6"; Str "2020"; Str "10"];
            [Str "6"; Str "2021"; Str "20"];
            [Str "6"; Str "2022"; Str "30"]] out "pib" false);
    [rect | exact table_short_names_no_code | now left | reflexivity
    | repeat constructor; vm_compute; discriminate | exact E].
Defined.

Lemma build_panel_without_code_witness :
  build_panel reference_goiania table_short_names table_titles table_titles
  = Ok (mkDF panel_columns []) /\
  rows (mkDF panel_columns []) = [].
Proof.
  assert (E : build_panel reference_goiania table_short_names table_titles
                table_titles = Ok (mkDF panel_columns []))
    by (vm_compute; reflexivity).
  split; [exact E|].
  apply (build_panel_without_code reference_goiania table_short_names
           table_titles table_titles (mkDF panel_columns []));
    [rect | rect | rect | left; exact table_short_names_no_code | exact E].
Defined.

Lemma normalize_extra_dims_witness :
  let out := mkDF ["code_muni"; "municipio"; "ano"; "pib"; "D1C"]
               [(1%Z, [Int 5208707; Str "Goiânia"; Int 2020; Num (Fin 10);
                       Str "6"]);
                (3%Z, [Int 5208707; Str "Goiânia"; Int 2022; Num (Fin 30);
                       Str "6"])] in
  normalize_sidra_table table_titles "pib" true = Ok out /\
  columns out
  = (["code_muni"; "municipio"; "ano"; "pib"]
     ++ filter is_extra_dim (columns table_titles))%list /\
  column out "D1C" = [(1%Z, Str "6"); (3%Z, Str "6")].
Proof.
  intros out.
  assert (E : normalize_sidra_table table_titles "pib" true = Ok out)
    by (vm_compute; reflexivity).
  split; [exact E|].
  assert (Nd : NoDup (columns table_titles)).
  { cbn. repeat constructor; cbn; intros H;
      repeat (destruct H as [H|H]; [discriminate H|]); exact H. }
  destruct (normalize_extra_dims table_titles out "pib" true ltac:(rect) Nd)
    as (A & B);
    [intros H; repeat (destruct H as [H|H]; [discriminate H|]); exact H
    | reflexivity | exact E |].
  split; [exact A|].
  rewrite (B table_titles_has_code eq_refl "D1C");
    [reflexivity | cbn; tauto | reflexivity].
Defined.

Lemma build_panel_reference_without_key_witness :
  let mun_uf := pd.of_records ["id"; "nome"] [[Int 5208707; Str "Goiânia"]] in
  reference mun_uf = Raise (KeyError "code_muni") /\
  build_panel mun_uf table_titles table_titles table_titles
  = Raise (KeyError "code_muni").
Proof.
  intros mun_uf.
  apply (build_panel_reference_without_key mun_uf);
    cbn; intros H; repeat (destruct H as [H|H]; [discriminate H|]); exact H.
Defined.

Lemma reference_integer_ids_witness :
  reference reference_goiania
  = Ok (pd.of_records ["code_muni"; "municipio"]
          [[Int 5208707; Str "Goiânia"]]).
Proof.
  apply (reference_integer_ids reference_goiania).
  - cbn. now left.
  - cbn. repeat constructor; cbn; intros H;
      repeat (destruct H as [H|H]; [discriminate H|]); exact H.
  - cbn. repeat constructor. now exists 5208707%Z.
Defined.


(* ================================================================== *)
(** * The labels of the extra dimensions *)
(* ================================================================== *)

Lemma digits_then_spec (x : ascii) (s : string) :
  is_digit x = false ->
  forall seen,
    digits_then x seen s = true <->
    exists ds tail,
      all_chars is_digit ds = true /\ (seen = true \/ ds <> "") /\
      (tail = "" \/ tail = String (ascii_of_nat 10) "") /\
      s = (ds ++ String x tail)%string.
Proof.
  intros Hx. induction s as [|c r IH]; intros seen.
  - cbn [digits_then]. split; [discriminate|].
    intros (ds & tail & _ & _ & _ & E). destruct ds; discriminate E.
  - cbn [digits_then]. destruct (is_digit c) eqn:Ec.
    + rewrite IH. split.
      * intros (ds & tail & Hd & _ & Ht & ->).
        exists (String c ds), tail. cbn [all_chars]. rewrite Ec, Hd.
        repeat split; auto. right. discriminate.
      * intros (ds & tail & Hd & _ & Ht & E). destruct ds as [|d ds].
        -- cbn in E. injection E as -> _. congruence.
        -- cbn in E. injection E as -> ->. cbn [all_chars] in Hd.
           apply andb_true_iff in Hd. exists ds, tail. tauto.
    + rewrite !andb_true_iff, orb_true_iff, !String.eqb_eq, Ascii.eqb_eq.
      split.
      * intros ((-> & ->) & Ht). exists "", r. cbn. tauto.
      * intros (ds & tail & Hd & Hs & Ht & E). destruct ds as [|d ds].
        -- cbn in E. injection E as -> ->. destruct Hs as [->|N]; tauto.
        -- cbn in E. injection E as -> _. cbn [all_chars] in Hd.
           apply andb_true_iff in Hd. destruct Hd. congruence.
Qed.

(** X17.  The labels [keep_extra_dims] carries over: a label made of
    the letter [D], one decimal digit or more, and the letter [C] or
    [N] passes, and so does the same label followed by one line feed,
    since [$] also matches before a last line feed; among the labels
    written in ASCII no other passes. *)
Theorem extra_dim_labels :
  (forall ds x tail,
      all_chars is_digit ds = true -> ds <> "" ->
      x = "C"%char \/ x = "N"%char ->
      tail = "" \/ tail = String (ascii_of_nat 10) "" ->
      is_extra_dim (String "D" (ds ++ String x tail)) = true) /\
  (forall c,
      all_chars is_ascii c = true ->
      is_extra_dim c = true ->
      exists ds x tail,
        all_chars is_digit ds = true /\ ds <> "" /\
        (x = "C"%char \/ x = "N"%char) /\
        (tail = "" \/ tail = String (ascii_of_nat 10) "") /\
        c = String "D" (ds ++ String x tail)).
Proof.
  unfold is_extra_dim, match_dim. split.
  - intros ds x tail Hds Hne [->| ->] Ht; apply orb_true_iff; [left|right];
      (apply andb_true_iff; split; [reflexivity|]);
      (apply digits_then_spec; [reflexivity|]); exists ds, tail; tauto.
  - intros c _ H. apply orb_true_iff in H.
    destruct H as [H|H]; destruct c as [|d r]; try discriminate H;
      apply andb_true_iff in H; destruct H as (Hd & H);
      apply Ascii.eqb_eq in Hd; subst d;
      apply digits_then_spec in H; try reflexivity;
      destruct H as (ds & tail & Hds & [?|Hne] & Ht & ->); try discriminate.
    + exists ds, "C"%char, tail. tauto.
    + exists ds, "N"%char, tail. tauto.
Qed.

(* ================================================================== *)
(** * The exceptions of the normalisation *)
(* ================================================================== *)

Lemma getitem_present (df : DataFrame) (name : string) :
  In name (columns df) -> pd.getitem df name = Ok (column df name).
Proof.
  intros H. destruct (position_In df name H) as (i & Ep & Ei).
  unfold pd.getitem. rewrite Ep. cbn [bind]. unfold column, cell_of.
  now rewrite Ei.
Qed.







Lemma chosen_In (o : option string) (cols : list string) (c : string) :
  (forall x, o = Some x -> In x cols) -> chosen o = Some c -> In c cols.
Proof. intros H E. apply chosen_Some in E. now apply H. Qed.




Lemma NoDup_index_filter (f : Z * list cell -> bool)
  (l : list (Z * list cell)) :
  NoDup (map fst l) -> NoDup (map fst (filter f l)).
Proof.
  induction l as [|x l IH]; intros N; [constructor|].
  cbn [map] in N. inversion N as [|? ? N1 N2]; subst. cbn [filter].
  destruct (f x); [|now apply IH]. cbn [map]. constructor; [|now apply IH].
  intros Hin. apply N1. apply in_map_iff in Hin.
  destruct Hin as (y & E & Hy). apply filter_In in Hy.
  apply in_map_iff. exists y. tauto.
Qed.

Lemma In_fold_with_col (cs : list string) :
  forall cols c, In c cols -> In c (fold_left pd.with_col cs cols).
Proof.
  induction cs as [|x cs IH]; intros cols c H; [exact H|].
  cbn [fold_left]. apply IH. now apply In_with_col.
Qed.

Lemma In_with_col_same (cols : list string) (name : string) :
  In name (pd.with_col cols name).
Proof.
  destruct (col_pos_with_col_same cols name) as (i & Ei & _).
  apply col_pos_Some_lt in Ei. destruct Ei as (Hi & E).
  pose proof (nth_In _ "" Hi) as H. now rewrite E in H.
Qed.






(* ================================================================== *)
(** * The extra dimensions only add columns *)
(* ================================================================== *)

Lemma select_map_commute {A B : Type} (f : A -> B) (mask : list bool)
  (l : list A) :
  pd.select mask (map f l) = map f (pd.select mask l).
Proof.
  revert l. induction mask as [|b mask IH]; intros [|x l]; cbn;
    try reflexivity. destruct b; cbn; now rewrite IH.
Qed.

Lemma loc_column_select (o : DataFrame) (mask : list bool) (u : string) :
  column (pd.loc o mask) u = pd.select mask (column o u).
Proof.
  unfold column, pd.loc, cell_of. cbn [rows columns].
  now rewrite select_map_commute.
Qed.

(** A cast that goes through on one frame goes through on a frame that
    has the same column. *)
Lemma retype_agree (a b b' : DataFrame) (name : string) :
  In name (columns a) -> In name (columns b) ->
  column a name = column b name ->
  retype_Int64 b name = Ok b' ->
  exists a', retype_Int64 a name = Ok a'.
Proof.
  intros Ha Hb E H. unfold retype_Int64 in *.
  rewrite (getitem_present b name Hb) in H. cbn [bind] in H.
  rewrite (getitem_present a name Ha). cbn [bind]. rewrite E.
  destruct (pd.astype_Int64 (column b name)) as [i|] eqn:Ei; [|discriminate].
  cbn [bind]. apply astype_Int64_values in Ei. destruct Ei as (Ei & _).
  rewrite <- E, column_index in Ei.
  rewrite (setitem_same_index a name i Ei). eauto.
Qed.

(** X19.  [keep_extra_dims] only adds columns: when the normalisation
    with the extra dimensions returns, the normalisation without them
    returns too, with the same rows under the same labels and the same
    cells in every column that is not an extra dimension. *)
Theorem keep_extra_dims_only_adds (raw wide : DataFrame) (v : string) :
  rectangular raw ->
  is_extra_dim v = false ->
  normalize_sidra_table raw v true = Ok wide ->
  exists narrow,
    normalize_sidra_table raw v false = Ok narrow /\
    pd.index narrow = pd.index wide /\
    forall u, is_extra_dim u = false -> column narrow u = column wide u.
Proof.
  intros Hrect Hx H.
  destruct (normalize_shape raw wide v true Hrect H)
    as (df2 & s1 & s2 & s3 & o1 & o2 & o3 & o4 & o5 & o6 & HV & C2 & I2
        & Hs1 & Hs2 & Hs3 & Eo1 & Ho2 & Ho3 & Ho4 & Ho5 & Ho6 & Hout
        & (Ls1 & Ls2 & Ls3 & Lvv) & (R1 & R2 & R3 & R4)
        & (L1 & L2 & L3 & L4 & Ld2) & (I1 & Io2 & I3 & I4) & Kd2 & Hdf2
        & Hcol2).
  change (pd.setitem o3 v (numeric_rows raw) = Ok o4) in Ho4.
  change (column df2 "__value__" = numeric_rows raw) in Hcol2.
  destruct (fold_extra df2 _ o4 o5 Ho5 R4 ltac:(congruence))
    as (R5 & L5 & I5 & C5 & K5).
  set (df1 := mkDF (columns raw) (filter (numeric_V raw) (rows raw))) in *.
  destruct (setitem_Forall2 o3 o4 v _ Ho4 ltac:(rewrite L3; exact Lvv))
    as (C'4 & _).
  destruct (setitem_Forall2 _ _ _ _ Ho3 ltac:(congruence)) as (C'3 & _).
  destruct (setitem_Forall2 _ _ _ _ Ho2 ltac:(congruence)) as (C'2 & _).
  assert (Hc4 : forall u, In u ["code_muni"; "municipio"; "ano"] ->
                          In u (columns o4)).
  { intros u Hu. rewrite C'4, C'3, C'2, Eo1. cbn [columns].
    apply In_with_col.
    change (pd.with_col (pd.with_col ["code_muni"] "municipio") "ano")
      with ["code_muni"; "municipio"; "ano"]. exact Hu. }
  assert (Hv4 : In v (columns o4)) by (rewrite C'4; apply In_with_col_same).
  set (kw := pd.loc o5 (pd.series_notna (column o5 v))) in *.
  set (kn := pd.loc o4 (pd.series_notna (column o4 v))).
  assert (Ek : forall u, is_extra_dim u = false -> column kn u = column kw u).
  { intros u Hu. unfold kn, kw. rewrite !loc_column_select.
    rewrite !K5 by (now apply extra_dims_named). reflexivity. }
  assert (Rkw : rectangular kw) by (now apply loc_rectangular).
  assert (Rkn : rectangular kn) by (now apply loc_rectangular).
  assert (Hin5 : forall u, In u (columns o4) -> In u (columns o5)).
  { intros u Hu. rewrite C5. now apply In_fold_with_col. }
  (* the two casts *)
  destruct (retype_agree kn kw o6 "code_muni") as (n6 & Hn6);
    [apply Hc4; cbn; tauto | apply Hin5, Hc4; cbn; tauto
    | now apply Ek | exact Ho6 |].
  destruct (retype_column kw o6 "code_muni" "ano" Ho6 Rkw) as (R6 & E6).
  destruct (retype_column kn n6 "code_muni" "ano" Hn6 Rkn) as (Rn6 & En6).
  change (String.eqb "ano" "code_muni") with false in E6, En6.
  cbv iota in E6, En6.
  pose proof (retype_Int64_Ok _ _ Ho6) as (_ & _ & Cw6 & _).
  pose proof (retype_Int64_Ok _ _ Hn6) as (_ & _ & Cn6 & _).
  destruct (retype_agree n6 o6 wide "ano") as (narrow & Hnarrow);
    [rewrite Cn6; apply Hc4; cbn; tauto
    | rewrite Cw6; apply Hin5, Hc4; cbn; tauto
    | rewrite En6, E6; now apply Ek | exact Hout |].
  assert (Ecols : forall u, is_extra_dim u = false ->
                            column narrow u = column wide u).
  { intros u Hu.
    destruct (retype_column o6 wide "ano" u Hout R6) as (_ & ->).
    destruct (retype_column n6 narrow "ano" u Hnarrow Rn6) as (_ & ->).
    destruct (retype_column kw o6 "code_muni" u Ho6 Rkw) as (_ & Ew).
    destruct (retype_column kn n6 "code_muni" u Hn6 Rkn) as (_ & En).
    destruct (String.eqb u "ano").
    - now rewrite En6, E6, Ek.
    - rewrite En, Ew. destruct (String.eqb u "code_muni").
      + now rewrite Ek.
      + now apply Ek. }
  exists narrow. split; [|split; [|exact Ecols]].
  - unfold normalize_sidra_table. cbv zeta.
    assert (HVb : pd.has_col raw "V" = true) by (now apply has_col_In).
    rewrite (drop_header_filter raw HVb). cbn [bind].
    fold (numeric_V raw). fold df1.
    destruct (_extract_muni_cols df1) as [mc mn] eqn:Em.
    cbn [fst snd] in Hs1, Hs2.
    assert (HV1 : pd.has_col df1 "V" = true) by exact HVb.
    rewrite HV1. cbn [negb].
    rewrite (getitem_present df1 "V" HV). cbn [bind].
    rewrite Hdf2. cbn [bind]. rewrite Hs1. cbn [bind].
    assert (E1 : pd.setitem pd.empty "code_muni" s1 = Ok o1)
      by (rewrite Eo1; reflexivity).
    rewrite E1. cbn [bind]. rewrite Hs2. cbn [bind]. rewrite Ho2. cbn [bind].
    rewrite Hs3. cbn [bind]. rewrite Ho3. cbn [bind].
    rewrite (getitem_present df2 "__value__");
      [|rewrite C2; apply In_with_col_same].
    cbn [bind]. rewrite Hcol2, Ho4. cbn [bind extra_dims fold_result].
    rewrite (getitem_present o4 v Hv4). cbn [bind]. fold kn.
    rewrite Hn6. cbn [bind]. rewrite Hnarrow. reflexivity.
  - rewrite <- (column_index narrow "ano"), <- (column_index wide "ano").
    now rewrite Ecols.
Qed.

(* ================================================================== *)
(** * The order of the aggregated areas *)
(* ================================================================== *)

(** X20.  The table of areas per municipality that [build_panel]
    computes from a tidy area table lists the municipalities by
    increasing code, each once, and is numbered from zero. *)
Theorem area_agg_sorted (area : DataFrame) :
  tidy "area" area ->
  exists agg,
    area_agg area = Ok agg /\
    StronglySorted key_lt (code_values "area" agg) /\
    pd.index agg = pd.RangeIndex (pd.len agg).
Proof.
  intros (Ec & Hrows). destruct area as [cols rs]. cbn [columns rows] in *.
  subst cols. unfold area_agg, pd.dropna, pd.groupby_max.
  cbn [map_result pd.position pd.col_pos columns rows String.eqb Ascii.eqb
       Bool.eqb bind option_map forallb andb].
  set (kept := filter _ rs).
  assert (Hkept : Forall (fun lr => int_num (code_area lr)) kept).
  { apply Forall_forall. intros lr Hin. apply filter_In in Hin.
    destruct Hin as (Hin & Hna). rewrite Forall_forall in Hrows.
    specialize (Hrows _ Hin). unfold code_area.
    destruct (tidy_row_inv _ Hrows) as (c & m & a & x & E & Hc & _).
    rewrite E in *. cbn [pd.at_ nth] in *.
    destruct c; try contradiction; simpl in Hna; try discriminate.
    now exists z, x. }
  destruct (@fold_group_spec kept Hkept [])
    as (_ & F2 & _); [constructor | constructor|].
  cbv zeta in F2.
  set (groups := fold_left _ kept []) in *.
  eexists. split; [reflexivity|]. split.
  - unfold code_values, cell_of. cbn [columns].
    cbn [pd.col_pos String.eqb Ascii.eqb Bool.eqb option_map].
    rewrite (of_records_map (fun r => (pd.at_ 0 r, pd.at_ 1 r))), map_map.
    cbn [pd.at_ nth]. rewrite (map_ext _ (fun kv => kv)), map_id;
      [exact F2 | now intros [k q]].
  - rewrite of_records_index. unfold pd.len, pd.of_records. cbn [rows].
    now rewrite length_combine, RangeIndex_length, Nat.min_id.
Qed.

Lemma area_agg_sorted_witness :
  exists agg,
    area_agg (mkDF ["code_muni"; "municipio"; "ano"; "area"]
                [(0%Z, [Int 11; Str "b"; Int 2022; Num (Fin 3)]);
                 (1%Z, [Int 10; Str "a"; Int 2022; Num (Fin 5)]);
                 (2%Z, [Int 10; Str "a"; Int 2021; Num (Fin 8)])]) = Ok agg /\
    StronglySorted key_lt (code_values "area" agg) /\
    pd.index agg = pd.RangeIndex (pd.len agg).
Proof.
  apply area_agg_sorted. split; [reflexivity|].
  repeat constructor.
Defined.

(* ================================================================== *)
(** * The last properties on examples *)
(* ================================================================== *)

Ltac distinct :=
  cbn; repeat constructor; cbn; intros H;
  repeat (destruct H as [H|H]; [discriminate H|]); exact H.


Lemma keep_extra_dims_only_adds_witness :
  let wide := mkDF ["code_muni"; "municipio"; "ano"; "pib"; "D1C"]
                [(1%Z, [Int 5208707; Str "Goiânia"; Int 2020; Num (Fin 10);
                        Str "6"]);
                 (3%Z, [Int 5208707; Str "Goiânia"; Int 2022; Num (Fin 30);
                        Str "6"])] in
  normalize_sidra_table table_titles "pib" true = Ok wide /\
  exists narrow,
    normalize_sidra_table table_titles "pib" false = Ok narrow /\
    pd.index narrow = pd.index wide /\
    forall u, is_extra_dim u = false -> column narrow u = column wide u.
Proof.
  intros wide.
  assert (E : normalize_sidra_table table_titles "pib" true = Ok wide)
    by (vm_compute; reflexivity).
  split; [exact E|].
  apply (keep_extra_dims_only_adds table_titles wide "pib");
    [rect | reflexivity | exact E].
Defined.

(* ================================================================== *)
(** * The municipality list and the codes of a request *)
(* ================================================================== *)

Lemma str_of_Z_signed (z : Z) :
  str_of_Z z
  = ((if (z <? 0)%Z then "-" else "") ++ str_of_N (Z.abs_N z))%string.
Proof. unfold str_of_Z. now destruct (z <? 0)%Z. Qed.

Lemma str_of_Z_decimal (z : Z) :
  Parse.decimal (str_of_Z z) = Some (inject_Z z).
Proof.
  destruct (str_of_N_digits (Z.abs_N z) "" eq_refl) as (Hs & Hne & d & Hd & E).
  rewrite append_nil_r in *. cbn [Parse.take_digits] in E.
  rewrite str_of_Z_signed.
  rewrite (decimal_digits (z <? 0)%Z _ _ _ Hs Hne E). do 2 f_equal.
  rewrite N2Z.inj_abs_N.
  destruct (z <? 0)%Z eqn:Ez; [apply Z.ltb_lt in Ez | apply Z.ltb_ge in Ez];
    lia.
Qed.

Lemma str_of_Z_inj (a b : Z) : str_of_Z a = str_of_Z b -> a = b.
Proof.
  intros E. pose proof (str_of_Z_decimal a) as Ha.
  rewrite E, str_of_Z_decimal in Ha. injection Ha as Ha. congruence.
Qed.

Lemma str_of_Z_comma_free (z : Z) : comma_free (str_of_Z z) = true.
Proof.
  destruct (str_of_N_digits (Z.abs_N z) "" eq_refl) as (Hs & _).
  rewrite append_nil_r in Hs. rewrite str_of_Z_signed. unfold comma_free.
  eapply all_chars_impl; [|apply (signed_digits_plain (z <? 0)%Z _ Hs)].
  intros c Hc. destruct (sign_or_digit_plain c Hc) as (_ & -> & _).
  reflexivity.
Qed.

Lemma app_comma_inj (x y a b : string) :
  comma_free x = true -> comma_free y = true ->
  (x ++ String "," a = y ++ String "," b)%string -> x = y /\ a = b.
Proof.
  unfold comma_free. revert y. induction x as [|c x IH]; intros [|d y] Hx Hy E;
    cbn [append all_chars] in *.
  - injection E as E. auto.
  - injection E as <- _. discriminate Hy.
  - injection E as -> _. discriminate Hx.
  - injection E as -> E. apply andb_true_iff in Hx, Hy.
    destruct (IH y (proj2 Hx) (proj2 Hy) E) as (-> & ->). auto.
Qed.

Lemma comma_free_app (x a : string) :
  comma_free (x ++ String "," a) = false.
Proof.
  unfold comma_free. induction x as [|c x IH]; [reflexivity|].
  cbn [append all_chars]. rewrite IH. apply andb_false_r.
Qed.

Lemma concat_cons2 (x y : string) (l : list string) :
  String.concat "," (x :: y :: l)
  = (x ++ String "," (String.concat "," (y :: l)))%string.
Proof. reflexivity. Qed.

(** A list of strings without commas is read back from its join. *)
Lemma concat_inj (l1 l2 : list string) :
  Forall (fun s => comma_free s = true) l1 ->
  Forall (fun s => comma_free s = true) l2 ->
  l1 <> [] -> l2 <> [] ->
  String.concat "," l1 = String.concat "," l2 -> l1 = l2.
Proof.
  intros F1. revert l2. induction F1 as [|x l1 Hx F1 IH];
    intros l2 F2 N1 N2 E; [contradiction|].
  destruct F2 as [|y l2 Hy F2]; [contradiction|].
  destruct l1 as [|x2 l1], l2 as [|y2 l2].
  - cbn in E. now subst.
  - rewrite concat_cons2 in E. cbn [String.concat] in E. subst x.
    now rewrite comma_free_app in Hx.
  - rewrite concat_cons2 in E. cbn [String.concat] in E. subst y.
    now rewrite comma_free_app in Hy.
  - rewrite !concat_cons2 in E.
    destruct (app_comma_inj _ _ _ _ Hx Hy E) as (-> & E').
    f_equal. apply IH; [exact F2 | discriminate | discriminate | exact E'].
Qed.

Lemma codes_frame (r : Z * cell) (recs : list (Z * cell)) :
  codes (municipios_frame (r :: recs))
  = Ok (String.concat ","
          (map (fun r : Z * cell => str_of_Z (fst r)) (r :: recs))).
Proof.
  unfold codes, municipios_frame.
  rewrite getitem_present by (cbn; tauto). cbn [bind]. f_equal. f_equal.
  unfold column. rewrite map_map. cbn [snd].
  rewrite (of_records_map
             (fun row => pd.py_str
                           (cell_of (pd.of_records ["id_municipio"; "municipio"]
                                       (map (fun r0 : Z * cell =>
                                               [Int (fst r0); snd r0])
                                            (r :: recs)))
                                    "id_municipio" row))).
  rewrite map_map. reflexivity.
Qed.

(** X21.  The code list of a request determines the municipalities it
    was made from: two municipality lists that give the same joined
    codes have the same identifiers, in the same order.  (The decimal
    text of an integer has no comma, and no two integers have the same
    text.) *)
Theorem codes_injective (recs1 recs2 : list (Z * cell)) (c : string) :
  codes (municipios_frame recs1) = Ok c ->
  codes (municipios_frame recs2) = Ok c ->
  map fst recs1 = map fst recs2.
Proof.
  intros H1 H2.
  destruct recs1 as [|r1 recs1]; [discriminate H1|].
  destruct recs2 as [|r2 recs2]; [discriminate H2|].
  rewrite codes_frame in H1, H2.
  assert (E : String.concat ","
                (map (fun r : Z * cell => str_of_Z (fst r)) (r1 :: recs1))
              = String.concat ","
                  (map (fun r : Z * cell => str_of_Z (fst r)) (r2 :: recs2)))
    by congruence.
  clear H1 H2. apply concat_inj in E.
  - rewrite <- !(map_map fst str_of_Z) in E.
    revert E. generalize (map fst (r1 :: recs1)) (map fst (r2 :: recs2)).
    induction l as [|a l IH]; intros [|b l'] E; try discriminate E;
      [reflexivity|].
    cbn [map] in E. injection E as Ea E. f_equal;
      [now apply str_of_Z_inj | now apply IH].
  - apply Forall_map, Forall_forall. intros. apply str_of_Z_comma_free.
  - apply Forall_map, Forall_forall. intros. apply str_of_Z_comma_free.
  - discriminate.
  - discriminate.
Qed.

Lemma codes_injective_witness :
  let recs := [(5208707%Z, Str "Goiânia"); (5200050%Z, Str "Abadia de Goiás")] in
  codes (municipios_frame recs) = Ok "5208707,5200050" /\
  map fst recs = map fst recs.
Proof.
  intros recs.
  assert (E : codes (municipios_frame recs) = Ok "5208707,5200050")
    by (vm_compute; reflexivity).
  split; [exact E|].
  exact (codes_injective recs recs "5208707,5200050" E E).
Defined.

(** X22.  What [build_panel] and the requests make of the frame of
    [get_municipios_uf].  From a list of municipalities that is not
    empty, the reference is the frame with its identifier column
    relabelled [code_muni], every identifier and name as it came, and
    the code list is the identifiers in decimal, joined by commas, in
    the order of the list.  From an empty list the frame has no
    columns: the code list raises [KeyError] on [id_municipio] and
    the reference raises [KeyError] on [code_muni]. *)
Theorem municipios_reference :
  (forall r recs,
      reference (municipios_frame (r :: recs))
      = Ok (pd.of_records ["code_muni"; "municipio"]
              (map (fun r : Z * cell => [Int (fst r); snd r]) (r :: recs))) /\
      codes (municipios_frame (r :: recs))
      = Ok (String.concat ","
              (map (fun r : Z * cell => str_of_Z (fst r)) (r :: recs)))) /\
  codes (municipios_frame []) = Raise (KeyError "id_municipio") /\
  reference (municipios_frame []) = Raise (KeyError "code_muni").
Proof.
  split; [|split; reflexivity].
  intros r recs. split; [|apply codes_frame].
  unfold municipios_frame.
  set (rs := map (fun r0 : Z * cell => [Int (fst r0); snd r0]) (r :: recs)).
  unfold reference. cbv zeta.
  change (pd.has_col (pd.of_records ["id_municipio"; "municipio"] rs)
            "id_municipio") with true. cbv iota.
  change (pd.rename (pd.of_records ["id_municipio"; "municipio"] rs)
            "id_municipio" "code_muni")
    with (pd.of_records ["code_muni"; "municipio"] rs).
  set (mun := pd.of_records ["code_muni"; "municipio"] rs).
  unfold int_column.
  rewrite (getitem_present mun "code_muni") by (cbn; tauto). cbn [bind].
  assert (Hint : Forall (fun lv : Z * cell => exists z, snd lv = Int z)
                   (column mun "code_muni")).
  { unfold column. apply Forall_map. cbn [snd]. apply Forall_forall.
    intros (l, row) Hin. cbn [snd]. unfold mun, pd.of_records in Hin.
    cbn [rows] in Hin. apply in_combine_r in Hin. unfold rs in Hin.
    apply in_map_iff in Hin. destruct Hin as (r0 & <- & _).
    now exists (fst r0). }
  rewrite (astype_Int64_integers _ Hint). cbn [bind].
  rewrite (setitem_same_index mun "code_muni" (column mun "code_muni")
             (column_index mun "code_muni")).
  f_equal.
  transitivity (mkDF (columns mun) (rows mun)); [|reflexivity].
  f_equal.
  unfold column. rewrite combine_map_self, map_map. cbn [fst snd].
  rewrite <- (map_id (rows mun)) at 2. apply map_ext.
  intros (l, row). cbn [fst snd]. f_equal.
  unfold pd.put, cell_of.
  change (pd.col_pos (columns mun) "code_muni") with (Some 0%nat).
  apply replace_nth_same.
Qed.

(* ================================================================== *)
(** * The normalised table, column by column *)
(* ================================================================== *)

Lemma find_col_same_columns (df df' : DataFrame) (must : list string)
  (any : option (list string)) :
  columns df = columns df' -> _find_col df must any = _find_col df' must any.
Proof. unfold _find_col. now intros ->. Qed.

Lemma extract_muni_same_columns (df df' : DataFrame) :
  columns df = columns df' -> _extract_muni_cols df = _extract_muni_cols df'.
Proof. unfold _extract_muni_cols, _find_col. now intros ->. Qed.

Lemma extract_time_same_columns (df df' : DataFrame) :
  columns df = columns df' -> _extract_time_col df = _extract_time_col df'.
Proof. unfold _extract_time_col, _find_col. now intros ->. Qed.

(** The search for a term goes the same with the column of the coerced
    values added, when the term is not in its label. *)
Lemma find_with_value (f : string -> bool) (cols : list string) :
  f "__value__" = false ->
  find f (pd.with_col cols "__value__") = find f cols.
Proof.
  intros Hf. unfold pd.with_col.
  destruct (pd.col_pos cols "__value__"); [reflexivity|].
  induction cols as [|c cols IH]; cbn [app find]; [now rewrite Hf|].
  destruct (f c); [reflexivity | exact IH].
Qed.

Lemma int_column_eq (df : DataFrame) (c : string) (s : Series) :
  int_column df c = Ok s ->
  s = map (fun lv : Z * cell => (fst lv, int_of_cell (snd lv))) (column df c).
Proof.
  unfold int_column. intros H. inv_bind H. apply getitem_column in E.
  subst x. apply astype_Int64_Ok in H. destruct H as (-> & _).
  unfold pd.to_numeric, pd.series_map. rewrite map_map. reflexivity.
Qed.

Lemma int64_of_idem (c : cell) : int64_of (int64_of c) = int64_of c.
Proof.
  unfold int64_of.
  destruct c as [t|[q| |]|z|]; cbn [pd.astype_Int64_cell]; try reflexivity.
  destruct (Z.pos (Qden (Qred q)) =? 1)%Z; reflexivity.
Qed.

Lemma column_single (s : Series) :
  column (mkDF ["code_muni"]
            (map (fun lv : Z * cell => (fst lv, [snd lv])) s)) "code_muni"
  = s.
Proof.
  unfold column. cbn [rows]. rewrite map_map. cbn [fst snd].
  rewrite <- (map_id s) at 2. apply map_ext. now intros (l, x).
Qed.

Lemma norm_value : _norm "__value__" = "__value__".
Proof. reflexivity. Qed.

(** The column of the coerced values is taken for none of the columns
    the normalisation looks for. *)
Lemma find_col_not_value (df : DataFrame) (t : string)
  (any : option (list string)) (c : string) :
  contains t "__value__" = false ->
  _find_col df [t] any = Some c -> c <> "__value__".
Proof.
  intros Ht E. apply find_col_Some in E. destruct E as (_ & (E & _)).
  specialize (E t (or_introl eq_refl)). intros ->.
  rewrite norm_value in E. apply contains_spec in E. congruence.
Qed.

Lemma find_col_with_value (df df' : DataFrame) (t : string)
  (any : option (list string)) :
  contains t "__value__" = false ->
  columns df' = pd.with_col (columns df) "__value__" ->
  _find_col df' [t] any = _find_col df [t] any.
Proof.
  intros Ht E. unfold _find_col. rewrite E. apply find_with_value.
  rewrite norm_value. cbn [forallb]. now rewrite Ht.
Qed.

Lemma lookup_const (x : cell) (idx : list Z) (l : Z) :
  pd.lookup l (combine idx (repeat x (length idx)))
  = if existsb (Z.eqb l) idx then x else NA.
Proof.
  induction idx as [|i idx IH]; [reflexivity|].
  cbn [length repeat combine pd.lookup existsb].
  destruct (Z.eqb l i); [reflexivity | exact IH].
Qed.

Lemma lookup_all_blank (df : DataFrame) (l : Z) :
  pd.lookup l (all_blank df)
  = if existsb (Z.eqb l) (pd.RangeIndex (pd.len df)) then Str "" else NA.
Proof.
  unfold all_blank, pd.mkSeries. rewrite repeat_length.
  rewrite <- (RangeIndex_length (pd.len df)) at 2. apply lookup_const.
Qed.

Lemma column_as_map (o : DataFrame) (u : string) (f : Z -> cell) :
  Forall (fun lv : Z * cell => snd lv = f (fst lv)) (column o u) ->
  column o u = map (fun l => (l, f l)) (pd.index o).
Proof.
  rewrite <- (column_index o u). intros H. rewrite map_map.
  rewrite <- (map_id (column o u)) at 1. apply map_ext_in.
  intros (l, x) Hin. rewrite Forall_forall in H. specialize (H _ Hin).
  cbn [fst snd] in *. now subst.
Qed.

Lemma time_col_not_value (df : DataFrame) (c : string) :
  _extract_time_col df = Some c -> c <> "__value__".
Proof.
  rewrite extract_time_col_eq.
  destruct (_find_col df ["ano"] (Some ["código"; "codigo"])) as [c0|] eqn:E0.
  { intros [= <-]. exact (find_col_not_value df "ano" _ c0 eq_refl E0). }
  destruct (_find_col df ["ano"] None) as [c1|] eqn:E1.
  { intros [= <-]. exact (find_col_not_value df "ano" _ c1 eq_refl E1). }
  destruct (_find_col df ["mês"] None) as [c2|] eqn:E2.
  { intros [= <-]. exact (find_col_not_value df "mês" _ c2 eq_refl E2). }
  destruct (_find_col df ["mes"] None) as [c3|] eqn:E3.
  { intros [= <-]. exact (find_col_not_value df "mes" _ c3 eq_refl E3). }
  destruct (_find_col df ["período"] None) as [c4|] eqn:E4.
  { intros [= <-]. exact (find_col_not_value df "período" _ c4 eq_refl E4). }
  intros E5. exact (find_col_not_value df "periodo" _ c eq_refl E5).
Qed.

(** X23.  The three columns [normalize_sidra_table] derives, cell by
    cell, when a code column is found, the rows of the raw table have
    distinct labels and the indicator is named after none of the three.
    The rows are the raw rows whose [V] coerces to a number, under
    their raw labels.  In each of them [code_muni] is the integer read
    in the municipality code column, else the territory code column;
    [ano] is the integer read in the time column (missing where the
    cell is no number), and missing in every row when no time column
    is found; [municipio] is the text of the cell of the name column.
    When no name column is found, the series of empty strings is
    numbered from 0 and attached by label: [municipio] is the empty
    string only in the rows whose raw label is below the number of
    rows kept, and missing in the others. *)
Theorem normalize_columns (raw out : DataFrame) (v : string) (k : bool) :
  rectangular raw ->
  NoDup (pd.index raw) ->
  ~ In v ["code_muni"; "municipio"; "ano"] ->
  k = false \/ is_extra_dim v = false ->
  has_code_column raw ->
  normalize_sidra_table raw v k = Ok out ->
  let kept := filter (numeric_V raw) (rows raw) in
  (exists c, code_column raw = Some c /\
     column out "code_muni"
     = map (fun lr : Z * list cell =>
              (fst lr, int_of_cell (cell_of raw c (snd lr)))) kept) /\
  column out "municipio"
  = map (fun lr : Z * list cell =>
           (fst lr,
            match name_column raw with
            | Some c => Str (pd.py_str (cell_of raw c (snd lr)))
            | None =>
                if existsb (Z.eqb (fst lr)) (pd.RangeIndex (length kept))
                then Str "" else NA
            end)) kept /\
  column out "ano"
  = map (fun lr : Z * list cell =>
           (fst lr,
            match time_column raw with
            | Some c => int_of_cell (cell_of raw c (snd lr))
            | None => NA
            end)) kept.
Proof.
  intros Hrect Nd Hv Hk Hcode H kept.
  destruct (normalize_shape raw out v k Hrect H)
    as (df2 & s1 & s2 & s3 & o1 & o2 & o3 & o4 & o5 & o6 & HV & C2 & I2
        & Hs1 & Hs2 & Hs3 & Eo1 & Ho2 & Ho3 & Ho4 & Ho5 & Ho6 & Hout
        & (Ls1 & Ls2 & Ls3 & Lvv) & (R1 & R2 & R3 & R4)
        & (L1 & L2 & L3 & L4 & Ld2) & (I1 & Io2 & I3 & I4) & Kd2 & Hdf2
        & Hcol2).
  change (pd.setitem o3 v (numeric_rows raw) = Ok o4) in Ho4.
  set (df1 := mkDF (columns raw) (filter (numeric_V raw) (rows raw))) in *.
  destruct (fold_extra df2 _ o4 o5 Ho5 R4 ltac:(congruence))
    as (R5 & L5 & I5 & C5 & K5).
  pose proof (has_code_series raw df1 df2 s1 Hcode eq_refl C2 Hs1) as Es1.
  assert (Idx : map fst s1 = map fst kept).
  { rewrite Es1, I2. reflexivity. }
  assert (Nk : NoDup (map fst kept)) by (now apply NoDup_index_filter).
  assert (Hlen : pd.len df2 = length kept).
  { rewrite Ld2. reflexivity. }
  (* the column of the raw table that a series is read from *)
  assert (Raw : forall c, c <> "__value__" ->
                  column df2 c
                  = map (fun lr : Z * list cell =>
                           (fst lr, cell_of raw c (snd lr))) kept).
  { intros c Hc. rewrite (Kd2 c Hc). reflexivity. }
  assert (Hval : forall c must any,
             _find_col df2 [must] any = Some c -> must <> "" ->
             (forall t, substring must t -> t <> "__value__") -> c <> "__value__").
  { intros c must any E Hm Ht. apply find_col_Some in E.
    destruct E as (_ & (E & _)). specialize (E must (or_introl eq_refl)).
    intros ->. apply (Ht _ E). reflexivity. }
  (* the value column keeps every row *)
  assert (Hvx : ~ In v (extra_dims df2 k)).
  { destruct Hk as [->|Hk]; [intros [] | now apply extra_dims_named]. }
  assert (E5v : column o5 v = numeric_rows raw).
  { rewrite K5 by exact Hvx.
    apply (setitem_same o3 o4 v _ Ho4); [|exact R3].
    rewrite numeric_rows_index, I3, Idx. reflexivity. }
  assert (N5 : Forall (fun lv : Z * cell => notna (snd lv) = true)
                 (column o5 v)).
  { rewrite E5v. apply numeric_rows_notna. }
  set (kw := pd.loc o5 (pd.series_notna (column o5 v))) in *.
  assert (Rkw : rectangular kw) by (now apply loc_rectangular).
  destruct (retype_column kw o6 "code_muni" "ano" Ho6 Rkw) as (R6 & _).
  assert (Hv1 : v <> "code_muni") by (intros ->; apply Hv; cbn; tauto).
  assert (Hv2 : v <> "municipio") by (intros ->; apply Hv; cbn; tauto).
  assert (Hv3 : v <> "ano") by (intros ->; apply Hv; cbn; tauto).
  (* each canonical column of the output, before the two casts *)
  assert (Pre : forall u, In u ["code_muni"; "municipio"; "ano"] ->
                  column kw u = column o3 u).
  { intros u Hu. unfold kw. rewrite (loc_column_other o5 v u N5).
    rewrite K5.
    - apply (setitem_other o3 o4 v u _ Ho4); [rewrite L3; exact Lvv|exact R3|].
      intros ->. now apply Hv.
    - apply extra_dims_named.
      destruct Hu as [<-|[<-|[<-|[]]]]; reflexivity. }
  assert (Post : forall u,
             column out u
             = if String.eqb u "ano"
               then map (fun lv : Z * cell => (fst lv, int64_of (snd lv)))
                        (column kw "ano")
               else if String.eqb u "code_muni"
               then map (fun lv : Z * cell => (fst lv, int64_of (snd lv)))
                        (column kw "code_muni")
               else column kw u).
  { intros u.
    destruct (retype_column o6 out "ano" u Hout R6) as (_ & ->).
    destruct (retype_column kw o6 "code_muni" "ano" Ho6 Rkw) as (_ & E6).
    change (String.eqb "ano" "code_muni") with false in E6. cbv iota in E6.
    destruct (String.eqb u "ano"); [now rewrite E6|].
    now destruct (retype_column kw o6 "code_muni" u Ho6 Rkw) as (_ & ->). }
  split; [|split].
  - (* the code *)
    assert (Hc : exists c, code_column raw = Some c /\
                           int_column df2 c = Ok s1 /\ c <> "__value__").
    { unfold code_series in Hs1. unfold code_column.
      rewrite (extract_muni_same_columns df1 raw eq_refl) in Hs1.
      rewrite (find_col_with_value raw df2 "territ" _ eq_refl C2) in Hs1.
      destruct (chosen (fst (_extract_muni_cols raw))) as [c|] eqn:E1.
      - exists c. split; [reflexivity|]. split; [exact Hs1|].
        apply chosen_Some in E1. unfold _extract_muni_cols in E1.
        cbn [fst] in E1.
        exact (find_col_not_value raw "munic" _ c eq_refl E1).
      - cbv zeta in Hs1.
        destruct (chosen (_find_col raw ["territ"]
                            (Some ["código"; "codigo"]))) as [c|] eqn:E2.
        + exists c. split; [reflexivity|]. split; [exact Hs1|].
          apply chosen_Some in E2.
          exact (find_col_not_value raw "territ" _ c eq_refl E2).
        + exfalso. destruct Hcode as (c & Hin & Hcl & Hs).
          unfold chosen, _extract_muni_cols in E1, E2. cbn [fst] in E1.
          destruct (_find_col raw ["munic"] (Some ["código"; "codigo"]))
            as [c1|] eqn:F1.
          { rewrite (find_col_truthy raw "munic" _ c1 ltac:(discriminate) F1)
              in E1. discriminate E1. }
          destruct (_find_col raw ["territ"] (Some ["código"; "codigo"]))
            as [c2|] eqn:F2.
          { rewrite (find_col_truthy raw "territ" _ c2 ltac:(discriminate) F2)
              in E2. discriminate E2. }
          rewrite find_col_None in F1, F2. destruct Hs as [Hs|Hs].
          * apply (F1 c Hin). now apply code_matches.
          * apply (F2 c Hin). now apply code_matches. }
    destruct Hc as (c & Ec & Hi & Hcv). exists c. split; [exact Ec|].
    rewrite (Post "code_muni").
    change (String.eqb "code_muni" "ano") with false.
    change (String.eqb "code_muni" "code_muni") with true. cbv iota.
    rewrite (Pre "code_muni" ltac:(cbn; tauto)).
    rewrite (setitem_other o2 o3 "ano" "code_muni" _ Ho3
               ltac:(congruence) R2 ltac:(discriminate)).
    rewrite (setitem_other o1 o2 "municipio" "code_muni" _ Ho2
               ltac:(congruence) R1 ltac:(discriminate)).
    rewrite Eo1, column_single.
    rewrite (int_column_eq df2 c s1 Hi), (Raw c Hcv), !map_map.
    apply map_ext. intros lr. cbn [fst snd]. f_equal.
    unfold int_of_cell. apply int64_of_idem.
  - (* the name *)
    rewrite (Post "municipio").
    change (String.eqb "municipio" "ano") with false.
    change (String.eqb "municipio" "code_muni") with false. cbv iota.
    rewrite (Pre "municipio" ltac:(cbn; tauto)).
    rewrite (setitem_other o2 o3 "ano" "municipio" _ Ho3
               ltac:(congruence) R2 ltac:(discriminate)).
    assert (Io1 : pd.index o1 = map fst kept) by (now rewrite I1).
    assert (Named : forall c, c <> "__value__" ->
               (s <- pd.getitem df2 c ;; Ok (pd.astype_str s)) = Ok s2 ->
               column o2 "municipio"
               = map (fun lr : Z * list cell =>
                        (fst lr, Str (pd.py_str (cell_of raw c (snd lr)))))
                     kept).
    { intros c Hc E. inv_bind E. apply getitem_column in E0. subst x.
      injection E as <-.
      rewrite (setitem_same o1 o2 "municipio" _ Ho2); [|
        rewrite astype_str_index, column_index, I2, Io1; reflexivity
        | exact R1].
      rewrite (Raw c Hc). unfold pd.astype_str, pd.series_map.
      rewrite map_map. reflexivity. }
    assert (Hnv : forall stem c,
               name_like stem "__value__" = false ->
               find (name_like stem) (columns raw) = Some c ->
               c <> "__value__").
    { intros stem c Hf E. apply find_some in E. destruct E as (_ & E).
      intros ->. congruence. }
    unfold name_series in Hs2. unfold name_column.
    rewrite (extract_muni_same_columns df1 raw eq_refl) in Hs2.
    rewrite C2, (find_with_value (name_like "territ") (columns raw) eq_refl)
      in Hs2.
    destruct (chosen (snd (_extract_muni_cols raw))) as [c|] eqn:E1.
    { apply chosen_Some in E1. unfold _extract_muni_cols in E1.
      cbn [snd] in E1. exact (Named c (Hnv "munic" c eq_refl E1) Hs2). }
    cbv zeta in Hs2.
    destruct (chosen (find (name_like "territ") (columns raw)))
      as [c|] eqn:E2.
    { apply chosen_Some in E2.
      exact (Named c (Hnv "territ" c eq_refl E2) Hs2). }
    injection Hs2 as <-.
    rewrite (setitem_by_label o1 o2 "municipio" _ Ho2); [| congruence | 
      rewrite Io1; exact Nk | exact R1].
    rewrite Io1, map_map. apply map_ext. intros lr.
    rewrite lookup_all_blank, Hlen. reflexivity.
  - (* the year *)
    rewrite (Post "ano").
    change (String.eqb "ano" "ano") with true. cbv iota.
    rewrite (Pre "ano" ltac:(cbn; tauto)).
    unfold time_series in Hs3. unfold time_column.
    rewrite (extract_time_same_columns df1 raw eq_refl) in Hs3.
    destruct (chosen (_extract_time_col raw)) as [c|] eqn:E1.
    + apply chosen_Some in E1. apply time_col_not_value in E1.
      rewrite (setitem_same o2 o3 "ano" _ Ho3); [|
        rewrite (int_column_index df2 c s3 Hs3), I2, Io2, Idx; reflexivity
        | exact R2].
      rewrite (int_column_eq df2 c s3 Hs3), (Raw c E1), !map_map.
      apply map_ext. intros lr. cbn [fst snd]. f_equal.
      unfold int_of_cell. apply int64_of_idem.
    + injection Hs3 as <-.
      rewrite (column_as_map o3 "ano" (fun _ => NA)).
      * rewrite I3, Idx, !map_map. reflexivity.
      * exact (setitem_from o2 o3 "ano" _ (fun c => c = NA) Ho3 R2
                 (all_missing_NA df2) eq_refl).
Qed.

Lemma normalize_columns_witness :
  let raw := pd.of_records ["Município (Código)"; "Ano"; "V"]
               [[Str "Município (Código)"; Str "Ano"; Str "Valor"];
                [Str "5208707"; Str "2020"; Str "10"];
                [Str "5208707"; Str "2021"; Str "20"]] in
  let out := mkDF ["code_muni"; "municipio"; "ano"; "pib"]
               [(1%Z, [Int 5208707; Str ""; Int 2020; Num (Fin 10)]);
                (2%Z, [Int 5208707; NA; Int 2021; Num (Fin 20)])] in
  normalize_sidra_table raw "pib" false = Ok out /\
  column out "code_muni" = [(1%Z, Int 5208707); (2%Z, Int 5208707)] /\
  column out "municipio" = [(1%Z, Str ""); (2%Z, NA)] /\
  column out "ano" = [(1%Z, Int 2020); (2%Z, Int 2021)].
Proof.
  intros raw out.
  assert (E : normalize_sidra_table raw "pib" false = Ok out)
    by (vm_compute; reflexivity).
  split; [exact E|].
  assert (Hc : has_code_column raw).
  { exists "Município (Código)". split; [now left|]. split; [labels|].
    left. labels. }
  destruct (normalize_columns raw out "pib" false ltac:(rect)
              ltac:(distinct) ltac:(distinct) (or_introl eq_refl) Hc E)
    as ((c & Ec & A) & B & C).
  vm_compute in Ec. injection Ec as <-.
  rewrite A, B, C. repeat split; vm_compute; reflexivity.
Defined.
